(** * The dma-buf buffer-sharing core (drivers/base/dma-buf.c)

    A shallow embedding of the functions of [drivers/base/dma-buf.c] and the
    properties its specification states about them.

    Kernel objects live in typed stores indexed by address; every function
    of the C file is a computation over the kernel state that either
    returns, trips a [BUG_ON], dereferences an invalid pointer, or puts the
    caller to sleep.  Exporter hooks and the functions of the dmabuf-sync
    module are opaque: they act on an external state of their own and
    every call to them is recorded in a trace.  The per-buffer mutex is not
    modelled: the embedding describes one thread of execution. *)

From Stdlib Require Import ZArith List Lia Bool.
From stdpp Require Import base option gmap list.

Open Scope Z_scope.

(** ** Error numbers and poll bits

    The values of <asm-generic/errno-base.h>, <asm-generic/errno.h> and
    <asm-generic/poll.h>; the error taxonomy of the specification maps
    onto them (InvalidArgument is EINVAL, OutOfMemory is ENOMEM, Busy is
    EBUSY, PermissionDenied is EPERM, Fault is EFAULT, Overflow is
    EOVERFLOW, WouldBlock is EAGAIN). *)

Definition EPERM : Z := 1.
Definition EBADF : Z := 9.
Definition EAGAIN : Z := 11.
Definition ENOMEM : Z := 12.
Definition EFAULT : Z := 14.
Definition EBUSY : Z := 16.
Definition EINVAL : Z := 22.
Definition EOVERFLOW : Z := 75.
Definition MAX_ERRNO : Z := 4095.

Definition POLLIN : Z := 1.
Definition POLLOUT : Z := 4.
Definition POLLERR : Z := 8.

(** ** Pointers

    A C pointer is null, the address of an object, or an error number in
    pointer clothing ([ERR_PTR]).  [ERR_PTR e] stands for the pointer
    whose integer value is [e]; the code only builds it from a nonzero
    [e]. *)

Inductive pointer : Type :=
| NULL
| Addr (a : Z)
| ERR_PTR (e : Z).

#[global] Instance pointer_eq_dec : EqDecision pointer.
Proof. solve_decision. Defined.

Definition IS_ERR (p : pointer) : bool :=
  match p with
  | ERR_PTR e => (- MAX_ERRNO <=? e) && (e <? 0)
  | _ => false
  end.

Definition IS_ERR_OR_NULL (p : pointer) : bool :=
  match p with
  | NULL => true
  | _ => IS_ERR p
  end.

(** [!p] of C. *)
Definition is_null (p : pointer) : bool :=
  match p with
  | NULL => true
  | _ => false
  end.

(** [unsigned] arithmetic: 32 bits under every Linux ABI. *)
Definition UINT_MODULUS : Z := 2 ^ 32.
Definition uint (z : Z) : Z := z mod UINT_MODULUS.

(** ** Plain data *)

Record vm_area_struct : Type := mk_vma {
  vm_start : Z;
  vm_end : Z;
  vm_pgoff : Z;
  vm_file : pointer
}.

Inductive access : Type :=
| DMA_BUF_ACCESS_R
| DMA_BUF_ACCESS_W.

(** [struct dmabuf_sync_reservation] as far as dma-buf.c and the
    specification (section 3, Reservation / Fence State) look into it. *)
Record dmabuf_sync_reservation : Type := mk_robj {
  locked : bool;
  accessed_type : access;
  polled : bool;
  poll_event : bool;
  poll_wait : list Z
}.

Record dma_buf_attachment : Type := mk_attachment {
  dmabuf : pointer;
  dev : pointer
}.

Inductive fops : Type :=
| dma_buf_fops
| other_fops.

Record file : Type := mk_file {
  f_op : fops;
  private_data : pointer;
  f_count : Z
}.

(** [struct dma_buf_info]; its field [size] is [info_size] here. *)
Record dma_buf_info : Type := mk_info {
  fence_supported : Z;
  info_size : Z
}.

Record dma_buf_fence : Type := mk_fence {
  ctx : pointer;
  fence_type : Z
}.

Record file_lock : Type := mk_file_lock {
  fl_type : Z;
  fl_flags : Z
}.

(** A pointer into user memory together with what it points to: a copy
    from or to user space fails when the memory cannot be read or
    written. *)
Record user_ptr (A : Type) : Type := mk_user {
  readable : bool;
  writable : bool;
  content : A
}.

Arguments mk_user {A} readable writable content.
Arguments readable {A} u.
Arguments writable {A} u.
Arguments content {A} u.

Definition copy_from_user {A : Type} (u : user_ptr A) : option A :=
  if readable u then Some (content u) else None.

Definition copy_to_user {A : Type} (u : user_ptr A) (v : A) : option (user_ptr A) :=
  if writable u then Some (mk_user (readable u) true v) else None.

(** [cmd] and [arg] of the ioctl. *)
Inductive ioctl_req : Type :=
| DMABUF_IOCTL_GET_INFO (arg : user_ptr dma_buf_info)
| DMABUF_IOCTL_GET_FENCE (arg : user_ptr dma_buf_fence)
| DMABUF_IOCTL_PUT_FENCE (arg : user_ptr dma_buf_fence)
| IOCTL_OTHER (cmd : Z) (arg : Z).

(** What the trace records: exporter hooks, the collaborators that are not
    part of dma-buf.c, and the release of memory. *)
Inductive event : Type :=
| EvAttach (d : Z) (dv : pointer) (a : Z)
| EvRelease (d : Z)
| EvMmap (d : Z) (vma : vm_area_struct)
| EvVmap (d : Z)
| EvVunmap (d : Z) (vaddr : pointer)
| EvReservationFini (d : Z)
| EvKfree (a : Z)
| EvOtherRelease (f : Z)
| EvSingleLock (d : Z) (ty : access) (wait : bool)
| EvSingleUnlock (d : Z)
| EvPollWait (d : Z) (caller : Z)
| EvSyncInit
| EvSyncGet (s : pointer) (d : Z) (ty : Z)
| EvSyncLock (s : pointer)
| EvSyncUnlock (s : pointer)
| EvSyncPut (s : pointer) (d : Z)
| EvSyncFini (s : pointer).

Definition is_release_ev (e : event) : bool :=
  match e with EvRelease _ => true | _ => false end.
Definition is_fini_ev (e : event) : bool :=
  match e with EvReservationFini _ => true | _ => false end.
Definition is_kfree_ev (e : event) : bool :=
  match e with EvKfree _ => true | _ => false end.
Definition is_vmap_ev (e : event) : bool :=
  match e with EvVmap _ => true | _ => false end.
Definition is_vunmap_ev (e : event) : bool :=
  match e with EvVunmap _ _ => true | _ => false end.

(** Number of events of one kind in a trace. *)
Definition count (p : event → bool) (t : list event) : nat :=
  length (filter (λ e, p e = true) t).

Section DmaBuf.

(** The state of everything outside dma-buf.c: the exporter behind the
    hooks and the dmabuf-sync module. *)
Context {E : Type}.

(** The task that runs the code ([current]). *)
Variable current : Z.

(** ** The operation table, [struct dma_buf_ops]

    A hook is a function pointer, null when absent.  A present hook reads
    and updates the external state. *)
Record dma_buf_ops : Type := mk_ops {
  attach : option (Z → pointer → Z → E → Z * E);
  detach : option (Z → Z → E → E);
  map_dma_buf : option (Z → Z → E → pointer * E);
  unmap_dma_buf : option (Z → pointer → Z → E → E);
  release : option (Z → E → E);
  begin_cpu_access : option (Z → Z → Z → Z → E → Z * E);
  end_cpu_access : option (Z → Z → Z → Z → E → E);
  kmap_atomic : option (Z → Z → E → pointer * E);
  kunmap_atomic : option (Z → Z → pointer → E → E);
  kmap : option (Z → Z → E → pointer * E);
  kunmap : option (Z → Z → pointer → E → E);
  mmap : option (Z → vm_area_struct → E → Z * E);
  vmap : option (Z → E → pointer * E);
  vunmap : option (Z → pointer → E → E)
}.

(** ** [struct dma_buf]

    The field [file] of the C structure is [file_of] here, [file] being
    the type of what it points to. *)
Record dma_buf : Type := mk_dma_buf {
  size : Z;
  file_of : pointer;
  attachments : list Z;
  ops : option dma_buf_ops;
  vmapping_counter : Z;
  vmap_ptr : pointer;
  priv : pointer;
  sync : option dmabuf_sync_reservation
}.

(** What [kzalloc] hands out: every field zero. *)
Definition zeroed_dma_buf : dma_buf :=
  {| size := 0; file_of := NULL; attachments := []; ops := None;
     vmapping_counter := 0; vmap_ptr := NULL; priv := NULL; sync := None |}.

Definition zeroed_attachment : dma_buf_attachment :=
  {| dmabuf := NULL; dev := NULL |}.

(** ** Kernel state *)
Record kernel : Type := mk_kernel {
  alloc_oracle : list bool;
  bufs : gmap Z dma_buf;
  atts : gmap Z dma_buf_attachment;
  files : gmap Z file;
  ext : E;
  trace : list event
}.

(** Addresses in use. *)
Definition live (k : kernel) : gset Z :=
  dom (bufs k) ∪ dom (atts k) ∪ dom (files k).

Inductive outcome (A : Type) : Type :=
| Ret (a : A) (k : kernel)
| Bug
| Oops
| Blocked (k : kernel).

#[global] Arguments Ret {A} a k.
#[global] Arguments Bug {A}.
#[global] Arguments Oops {A}.
#[global] Arguments Blocked {A} k.

Definition M (A : Type) : Type := kernel → outcome A.

Definition ret {A : Type} (a : A) : M A := λ k, Ret a k.

Definition bind {A B : Type} (m : M A) (f : A → M B) : M B :=
  λ k, match m k with
       | Ret a k' => f a k'
       | Bug => Bug
       | Oops => Oops
       | Blocked k' => Blocked k'
       end.

Notation "'let*' x := m 'in' f" := (bind m (λ x, f))
  (at level 10, x name, m at level 100, f at level 200).
Notation "m ;;; f" := (bind m (λ _, f))
  (at level 100, f at level 200, right associativity).

Definition BUG_ON (c : bool) : M unit :=
  if c then (λ _, Bug) else ret tt.

Definition oops {A : Type} : M A := λ _, Oops.

Definition log (e : event) : M unit :=
  λ k, Ret tt (mk_kernel (alloc_oracle k) (bufs k) (atts k) (files k)
                         (ext k) (trace k ++ [e])).

(** A call into the external world that returns a value. *)
Definition call {A : Type} (f : E → A * E) : M A :=
  λ k, let '(a, e') := f (ext k) in
       Ret a (mk_kernel (alloc_oracle k) (bufs k) (atts k) (files k)
                        e' (trace k)).

(** A call into the external world that returns nothing. *)
Definition call_void (f : E → E) : M unit :=
  call (λ e, (tt, f e)).

(** *** Typed loads and stores *)

Definition set_bufs (bs : gmap Z dma_buf) (k : kernel) : kernel :=
  mk_kernel (alloc_oracle k) bs (atts k) (files k) (ext k) (trace k).
Definition set_atts (xs : gmap Z dma_buf_attachment) (k : kernel) : kernel :=
  mk_kernel (alloc_oracle k) (bufs k) xs (files k) (ext k) (trace k).
Definition set_files (fs : gmap Z file) (k : kernel) : kernel :=
  mk_kernel (alloc_oracle k) (bufs k) (atts k) fs (ext k) (trace k).
Definition set_oracle (o : list bool) (k : kernel) : kernel :=
  mk_kernel o (bufs k) (atts k) (files k) (ext k) (trace k).

Definition load_buf (d : Z) : M dma_buf :=
  λ k, match bufs k !! d with
       | Some b => Ret b k
       | None => Oops
       end.

Definition store_buf (d : Z) (b : dma_buf) : M unit :=
  λ k, Ret tt (set_bufs (<[d := b]> (bufs k)) k).

Definition load_file (p : pointer) : M file :=
  λ k, match p with
       | Addr f => match files k !! f with
                   | Some fl => Ret fl k
                   | None => Oops
                   end
       | _ => Oops
       end.

Definition load_ops (b : dma_buf) : M dma_buf_ops :=
  match ops b with
  | Some o => ret o
  | None => oops
  end.

(** Field assignments. *)
Definition with_priv (v : pointer) (b : dma_buf) : dma_buf :=
  mk_dma_buf (size b) (file_of b) (attachments b) (ops b)
             (vmapping_counter b) (vmap_ptr b) v (sync b).
Definition with_ops (v : option dma_buf_ops) (b : dma_buf) : dma_buf :=
  mk_dma_buf (size b) (file_of b) (attachments b) v
             (vmapping_counter b) (vmap_ptr b) (priv b) (sync b).
Definition with_size (v : Z) (b : dma_buf) : dma_buf :=
  mk_dma_buf v (file_of b) (attachments b) (ops b)
             (vmapping_counter b) (vmap_ptr b) (priv b) (sync b).
Definition with_file (v : pointer) (b : dma_buf) : dma_buf :=
  mk_dma_buf (size b) v (attachments b) (ops b)
             (vmapping_counter b) (vmap_ptr b) (priv b) (sync b).
Definition with_attachments (v : list Z) (b : dma_buf) : dma_buf :=
  mk_dma_buf (size b) (file_of b) v (ops b)
             (vmapping_counter b) (vmap_ptr b) (priv b) (sync b).
Definition with_vmapping_counter (v : Z) (b : dma_buf) : dma_buf :=
  mk_dma_buf (size b) (file_of b) (attachments b) (ops b)
             v (vmap_ptr b) (priv b) (sync b).
Definition with_vmap_ptr (v : pointer) (b : dma_buf) : dma_buf :=
  mk_dma_buf (size b) (file_of b) (attachments b) (ops b)
             (vmapping_counter b) v (priv b) (sync b).
Definition with_sync (v : option dmabuf_sync_reservation) (b : dma_buf) : dma_buf :=
  mk_dma_buf (size b) (file_of b) (attachments b) (ops b)
             (vmapping_counter b) (vmap_ptr b) (priv b) v.

(** [dmabuf->field = v] on the object at address [d]. *)
Definition update_buf (d : Z) (f : dma_buf → dma_buf) : M unit :=
  let* b := load_buf d in store_buf d (f b).

(** *** The allocator

    [kzalloc] succeeds or fails as the oracle says; an exhausted oracle
    means no memory is left.  A successful allocation picks an address
    that is not in use. *)
Definition kzalloc (place : Z → kernel → kernel) : M pointer :=
  λ k, match alloc_oracle k with
       | true :: o =>
           let a := fresh (live k) in
           Ret (Addr a) (place a (set_oracle o k))
       | false :: o => Ret NULL (set_oracle o k)
       | [] => Ret NULL k
       end.

Definition kzalloc_dma_buf : M pointer :=
  kzalloc (λ a k, set_bufs (<[a := zeroed_dma_buf]> (bufs k)) k).

Definition kzalloc_attachment : M pointer :=
  kzalloc (λ a k, set_atts (<[a := zeroed_attachment]> (atts k)) k).

Definition kfree_dma_buf (d : Z) : M unit :=
  (λ k, Ret tt (set_bufs (delete d (bufs k)) k)) ;;; log (EvKfree d).

Definition kfree_attachment (a : Z) : M unit :=
  (λ k, Ret tt (set_atts (delete a (atts k)) k)) ;;; log (EvKfree a).

Definition store_file (f : Z) (fl : file) : M unit :=
  λ k, Ret tt (set_files (<[f := fl]> (files k)) k).

Definition with_f_count (c : Z) (fl : file) : file :=
  mk_file (f_op fl) (private_data fl) c.

(** ** The collaborators that dma-buf.c calls and does not define *)

(** Modelled from the spec: [dmabuf_sync_reservation_init] of
    <linux/dmabuf-sync.h> is missing; section 4.4 gives [Init(buffer)]:
    it sets Unlocked, clears the poll flag and empties the waiter queue. *)
Definition dmabuf_sync_reservation_init (d : Z) : M unit :=
  update_buf d (with_sync (Some {| locked := false;
                                   accessed_type := DMA_BUF_ACCESS_R;
                                   polled := false;
                                   poll_event := false;
                                   poll_wait := [] |})).

(** Modelled from the spec: [dmabuf_sync_reservation_fini] of
    <linux/dmabuf-sync.h> is missing; section 4.1 has [Release] tear down
    the reservation state before the object is freed. *)
Definition dmabuf_sync_reservation_fini (d : Z) : M unit :=
  update_buf d (with_sync None) ;;; log (EvReservationFini d).

(** Modelled from the spec: [dmabuf_sync_single_lock] of
    drivers/base/dmabuf-sync.c is missing; section 4.4 gives
    [Lock(buffer, accessType, wait)]: an unlocked buffer becomes locked
    with the access type and the call succeeds at once; on a locked buffer
    the call fails with WouldBlock when [wait] is false and otherwise
    suspends the caller on the waiter queue. *)
Definition dmabuf_sync_single_lock (dmabuf_ : pointer) (ty : access)
    (wait : bool) : M Z :=
  match dmabuf_ with
  | Addr d =>
      log (EvSingleLock d ty wait) ;;;
      let* b := load_buf d in
      match sync b with
      | None => oops
      | Some r =>
          if locked r then
            if wait then
              store_buf d (with_sync
                (Some (mk_robj true (accessed_type r) (polled r) (poll_event r)
                               (poll_wait r ++ [current]))) b) ;;;
              (λ k, Blocked k)
            else ret (- EAGAIN)
          else
            store_buf d (with_sync
              (Some (mk_robj true ty (polled r) (poll_event r) (poll_wait r))) b) ;;;
            ret 0
      end
  | _ => oops
  end.

(** Modelled from the spec: [dmabuf_sync_single_unlock] of
    drivers/base/dmabuf-sync.c is missing; section 4.4 gives
    [Unlock(buffer)]: it moves to Unlocked, sets the poll-edge flag and
    wakes the queued waiters; unlocking an unlocked buffer is a caller
    error that section 7 files under the fatal invariant violations. *)
Definition dmabuf_sync_single_unlock (dmabuf_ : pointer) : M unit :=
  match dmabuf_ with
  | Addr d =>
      log (EvSingleUnlock d) ;;;
      let* b := load_buf d in
      match sync b with
      | None => oops
      | Some r =>
          BUG_ON (negb (locked r)) ;;;
          store_buf d (with_sync
            (Some (mk_robj false (accessed_type r) (polled r) true [])) b)
      end
  | _ => oops
  end.

(** Modelled from the spec: [poll_wait] of <linux/poll.h> is missing;
    section 4.4 has [Poll] register the caller to be woken later. *)
Definition poll_wait_register (dmabuf_ : pointer) : M unit :=
  match dmabuf_ with
  | Addr d =>
      log (EvPollWait d current) ;;;
      let* b := load_buf d in
      match sync b with
      | None => oops
      | Some r =>
          store_buf d (with_sync
            (Some (mk_robj (locked r) (accessed_type r) (polled r) (poll_event r)
                           (poll_wait r ++ [current]))) b)
      end
  | _ => oops
  end.

(** Modelled from the spec: [anon_inode_getfile] of fs/anon_inodes.c is
    missing; section 4.1 has [Export] associate a fresh reference-counted
    handle, which starts with the one reference of its creator.  Creating
    the handle allocates and so can fail. *)
Definition anon_inode_getfile (fo : fops) (pd : pointer) (flags : Z) : M pointer :=
  let* p := kzalloc (λ a k, set_files (<[a := mk_file fo pd 1]> (files k)) k) in
  ret (if is_null p then ERR_PTR (- ENOMEM) else p).

(** Modelled from the spec: [get_file] of <linux/fs.h> is missing; an
    acquisition increments the reference count of the handle. *)
Definition get_file (p : pointer) : M unit :=
  let* fl := load_file p in
  match p with
  | Addr f => store_file f (with_f_count (f_count fl + 1) fl)
  | _ => oops
  end.

(** ** drivers/base/dma-buf.c *)

Definition is_dma_buf_file (filp : pointer) : M bool :=
  let* fl := load_file filp in
  ret (match f_op fl with dma_buf_fops => true | other_fops => false end).

Definition dma_buf_release (filp : pointer) : M Z :=
  let* mine := is_dma_buf_file filp in
  if negb mine then ret (- EINVAL)
  else
    let* fl := load_file filp in
    match private_data fl with
    | Addr d =>
        let* b := load_buf d in
        BUG_ON (negb (vmapping_counter b =? 0)) ;;;
        let* o := load_ops b in
        match release o with
        | Some hook => log (EvRelease d) ;;; call_void (hook d)
        | None => oops
        end ;;;
        dmabuf_sync_reservation_fini d ;;;
        kfree_dma_buf d ;;;
        ret 0
    | _ => oops
    end.

(** Modelled from the spec: [fput] of fs/file_table.c is missing; section
    4.1 gives [Release]: it decrements the reference count and at zero
    runs the release operation of the handle, after which the handle is
    gone. *)
Definition fput (p : pointer) : M unit :=
  let* fl := load_file p in
  match p with
  | Addr f =>
      let c := f_count fl - 1 in
      store_file f (with_f_count c fl) ;;;
      if c =? 0 then
        match f_op fl with
        | dma_buf_fops => dma_buf_release p ;;; ret tt
        | other_fops => log (EvOtherRelease f)
        end ;;;
        (λ k, Ret tt (set_files (delete f (files k)) k))
      else ret tt
  | _ => oops
  end.

(** The six hooks [dma_buf_export] insists on. *)
Definition mandatory_hooks (o : dma_buf_ops) : bool :=
  bool_decide (is_Some (map_dma_buf o))
  && bool_decide (is_Some (unmap_dma_buf o))
  && bool_decide (is_Some (release o))
  && bool_decide (is_Some (kmap_atomic o))
  && bool_decide (is_Some (kmap o))
  && bool_decide (is_Some (mmap o)).

Definition export_args_ok (priv_ : pointer) (ops_ : option dma_buf_ops) : bool :=
  negb (is_null priv_)
  && match ops_ with
     | None => false
     | Some o => mandatory_hooks o
     end.

Definition dma_buf_export (priv_ : pointer) (ops_ : option dma_buf_ops)
    (size_ : Z) (flags : Z) : M pointer :=
  if negb (export_args_ok priv_ ops_) then ret (ERR_PTR (- EINVAL))
  else
    let* dmabuf_ := kzalloc_dma_buf in
    match dmabuf_ with
    | Addr d =>
        update_buf d (with_priv priv_) ;;;
        update_buf d (with_ops ops_) ;;;
        update_buf d (with_size size_) ;;;
        let* file_ := anon_inode_getfile dma_buf_fops dmabuf_ flags in
        dmabuf_sync_reservation_init d ;;;
        update_buf d (with_file file_) ;;;
        update_buf d (with_attachments []) ;;;
        ret dmabuf_
    | _ => ret (ERR_PTR (- ENOMEM))
    end.

(** Modelled from the spec: [get_dma_buf] of <linux/dma-buf.h> is missing;
    it takes one more reference on the handle of the buffer. *)
Definition get_dma_buf (dmabuf_ : pointer) : M unit :=
  match dmabuf_ with
  | Addr d => let* b := load_buf d in get_file (file_of b)
  | _ => oops
  end.

Definition dma_buf_put (dmabuf_ : pointer) : M unit :=
  match dmabuf_ with
  | NULL => ret tt
  | Addr d =>
      let* b := load_buf d in
      if is_null (file_of b) then ret tt else fput (file_of b)
  | ERR_PTR _ => oops
  end.

Definition store_att (a : Z) (x : dma_buf_attachment) : M unit :=
  λ k, Ret tt (set_atts (<[a := x]> (atts k)) k).

Definition dma_buf_attach (dmabuf_ : pointer) (dev_ : pointer) : M pointer :=
  if is_null dmabuf_ || is_null dev_ then ret (ERR_PTR (- EINVAL))
  else
    let* attach_ := kzalloc_attachment in
    match attach_ with
    | Addr a =>
        store_att a (mk_attachment dmabuf_ dev_) ;;;
        match dmabuf_ with
        | Addr d =>
            let* b := load_buf d in
            let* o := load_ops b in
            let* r := match attach o with
                      | Some hook => log (EvAttach d dev_ a) ;;; call (hook d dev_ a)
                      | None => ret 0
                      end in
            if negb (r =? 0) then
              kfree_attachment a ;;;
              ret (ERR_PTR r)
            else
              update_buf d (λ b, with_attachments (a :: attachments b) b) ;;;
              ret attach_
        | _ => oops
        end
    | _ => ret (ERR_PTR (- ENOMEM))
    end.

Definition dma_buf_vmap (dmabuf_ : pointer) : M pointer :=
  match dmabuf_ with
  | NULL => ret NULL
  | Addr d =>
      let* b := load_buf d in
      let* o := load_ops b in
      match vmap o with
      | None => ret NULL
      | Some hook =>
          if negb (vmapping_counter b =? 0) then
            update_buf d (with_vmapping_counter (uint (vmapping_counter b + 1))) ;;;
            BUG_ON (is_null (vmap_ptr b)) ;;;
            ret (vmap_ptr b)
          else
            BUG_ON (negb (is_null (vmap_ptr b))) ;;;
            log (EvVmap d) ;;;
            let* p := call (hook d) in
            if IS_ERR_OR_NULL p then ret p
            else
              update_buf d (with_vmap_ptr p) ;;;
              update_buf d (with_vmapping_counter 1) ;;;
              ret p
      end
  | ERR_PTR _ => oops
  end.

Definition dma_buf_vunmap (dmabuf_ : pointer) (vaddr : pointer) : M unit :=
  match dmabuf_ with
  | NULL => ret tt
  | Addr d =>
      let* b := load_buf d in
      BUG_ON (is_null (vmap_ptr b)) ;;;
      BUG_ON (vmapping_counter b =? 0) ;;;
      BUG_ON (negb (bool_decide (vmap_ptr b = vaddr))) ;;;
      let c := uint (vmapping_counter b - 1) in
      update_buf d (with_vmapping_counter c) ;;;
      if c =? 0 then
        let* o := load_ops b in
        match vunmap o with
        | Some hook => log (EvVunmap d vaddr) ;;; call_void (hook d vaddr)
        | None => ret tt
        end ;;;
        update_buf d (with_vmap_ptr NULL)
      else ret tt
  | ERR_PTR _ => oops
  end.

(** *** mmap

    [unsigned long] is [BITS_PER_LONG] bits wide and a page is
    [2 ^ PAGE_SHIFT] bytes; both come from the architecture headers and
    are left open here. *)
Variable BITS_PER_LONG : Z.
Variable PAGE_SHIFT : Z.

Definition ulong (z : Z) : Z := z mod 2 ^ BITS_PER_LONG.

(** [(vma->vm_end - vma->vm_start) >> PAGE_SHIFT] *)
Definition vma_pages (vma : vm_area_struct) : Z :=
  Z.shiftr (ulong (vm_end vma - vm_start vma)) PAGE_SHIFT.

Definition dma_buf_mmap (dmabuf_ : pointer) (vma : option vm_area_struct)
    (pgoff : Z) : M (Z * option vm_area_struct) :=
  match vma with
  | None => ret (- EINVAL, vma)
  | Some v =>
      if is_null dmabuf_ then ret (- EINVAL, vma)
      else if ulong (pgoff + vma_pages v) <? pgoff then ret (- EOVERFLOW, vma)
      else
        match dmabuf_ with
        | Addr d =>
            let* b := load_buf d in
            if ulong (pgoff + vma_pages v) >? Z.shiftr (size b) PAGE_SHIFT
            then ret (- EINVAL, vma)
            else
              (if is_null (vm_file v) then ret tt else fput (vm_file v)) ;;;
              let* b := load_buf d in
              let v1 := mk_vma (vm_start v) (vm_end v) (vm_pgoff v) (file_of b) in
              get_file (vm_file v1) ;;;
              let v2 := mk_vma (vm_start v1) (vm_end v1) pgoff (vm_file v1) in
              let* o := load_ops b in
              match mmap o with
              | Some hook =>
                  log (EvMmap d v2) ;;;
                  let* r := call (hook d v2) in
                  ret (r, Some v2)
              | None => oops
              end
        | _ => oops
        end
  end.

(** *** poll *)

Definition update_robj (d : Z)
    (f : dmabuf_sync_reservation → dmabuf_sync_reservation) : M unit :=
  let* b := load_buf d in
  match sync b with
  | Some r => store_buf d (with_sync (Some (f r)) b)
  | None => oops
  end.

Definition with_polled (v : bool) (r : dmabuf_sync_reservation) :=
  mk_robj (locked r) (accessed_type r) v (poll_event r) (poll_wait r).
Definition with_poll_event (v : bool) (r : dmabuf_sync_reservation) :=
  mk_robj (locked r) (accessed_type r) (polled r) v (poll_wait r).

Definition dma_buf_poll (filp : pointer) : M Z :=
  let* mine := is_dma_buf_file filp in
  if negb mine then ret POLLERR
  else
    let* fl := load_file filp in
    match private_data fl with
    | NULL => ret POLLERR
    | ERR_PTR _ => oops
    | Addr d =>
        let* b := load_buf d in
        match sync b with
        | None => ret POLLERR
        | Some r =>
            update_robj d (with_polled true) ;;;
            if poll_event r then
              update_robj d (with_poll_event false) ;;;
              ret (Z.lor POLLIN POLLOUT)
            else if negb (locked r) then ret POLLERR
            else
              poll_wait_register (private_data fl) ;;;
              ret 0
        end
    end.

(** *** Advisory locks

    The lock types and the sleep flag come from <asm/fcntl.h> and
    <linux/fs.h>; they are left open here. *)
Variable F_RDLCK : Z.
Variable F_WRLCK : Z.
Variable F_UNLCK : Z.
Variable FL_SLEEP : Z.

Definition dma_buf_lock (filp : pointer) (cmd : Z) (fl : file_lock) : M Z :=
  let* mine := is_dma_buf_file filp in
  if negb mine then ret (- EINVAL)
  else
    let* f := load_file filp in
    let dmabuf_ := private_data f in
    if Z.land (fl_type fl) F_UNLCK =? F_UNLCK then
      dmabuf_sync_single_unlock dmabuf_ ;;;
      ret 0
    else
      let wait := negb (Z.land (fl_flags fl) FL_SLEEP =? 0) in
      if Z.land (fl_type fl) F_WRLCK =? F_WRLCK then
        dmabuf_sync_single_lock dmabuf_ DMA_BUF_ACCESS_W wait
      else if Z.land (fl_type fl) F_RDLCK =? F_RDLCK then
        dmabuf_sync_single_lock dmabuf_ DMA_BUF_ACCESS_R wait
      else ret (- EINVAL).

(** *** Descriptor control *)

(** The fence-context half of the dmabuf-sync module
    (drivers/base/dmabuf-sync.c), of which dma-buf.c sees the results
    only.  The contexts and whatever they hold are the module's own and
    live in the external state: a call is described by what it returns
    once it returns.  What a context does to the reservation state of the
    buffers bound to it, and whether taking its lock suspends the caller,
    is not part of this interface, and no property below speaks of it. *)
Record dmabuf_sync_module : Type := mk_sync_module {
  dmabuf_sync_init : E → pointer * E;
  dmabuf_sync_get : pointer → Z → Z → E → Z * E;
  dmabuf_sync_lock : pointer → E → Z * E;
  dmabuf_sync_unlock : pointer → E → Z * E;
  dmabuf_sync_put : pointer → Z → E → E;
  dmabuf_sync_fini : pointer → E → E
}.

Variable SM : dmabuf_sync_module.

(** The value an [int] holds before anything is assigned to it. *)
Variable uninitialized : Z.

Definition dma_buf_get_info (d : Z) (info : dma_buf_info) : M (Z * dma_buf_info) :=
  let* b := load_buf d in
  ret (0, mk_info 0 (size b)).

Definition dma_buf_get_fence (d : Z) (df : dma_buf_fence) : M (Z * dma_buf_fence) :=
  if negb (is_null (ctx df)) then ret (- EBUSY, df)
  else
    log EvSyncInit ;;;
    let* s := call (dmabuf_sync_init SM) in
    if IS_ERR s then ret (uninitialized, mk_fence NULL (fence_type df))
    else
      log (EvSyncGet s d (fence_type df)) ;;;
      let* r := call (dmabuf_sync_get SM s d (fence_type df)) in
      if r <? 0 then
        log (EvSyncFini s) ;;;
        call_void (dmabuf_sync_fini SM s) ;;;
        ret (r, mk_fence NULL (fence_type df))
      else
        log (EvSyncLock s) ;;;
        let* r := call (dmabuf_sync_lock SM s) in
        if r <? 0 then
          log (EvSyncPut s d) ;;;
          call_void (dmabuf_sync_put SM s d) ;;;
          log (EvSyncFini s) ;;;
          call_void (dmabuf_sync_fini SM s) ;;;
          ret (r, mk_fence NULL (fence_type df))
        else ret (0, mk_fence s (fence_type df)).

Definition dma_buf_put_fence (d : Z) (df : dma_buf_fence) : M (Z * dma_buf_fence) :=
  if is_null (ctx df) then ret (- EFAULT, df)
  else
    let s := ctx df in
    log (EvSyncUnlock s) ;;;
    let* r := call (dmabuf_sync_unlock SM s) in
    if negb (r =? 0) then ret (r, df)
    else
      log (EvSyncPut s d) ;;;
      call_void (dmabuf_sync_put SM s d) ;;;
      log (EvSyncFini s) ;;;
      call_void (dmabuf_sync_fini SM s) ;;;
      ret (0, mk_fence NULL (fence_type df)).

Definition dma_buf_ioctl (filp : pointer) (req : ioctl_req) : M (Z * ioctl_req) :=
  let* mine := is_dma_buf_file filp in
  if negb mine then ret (- EINVAL, req)
  else
    let* fl := load_file filp in
    let dmabuf_ := private_data fl in
    if is_null dmabuf_ then ret (- EFAULT, req)
    else
      match req with
      | DMABUF_IOCTL_GET_INFO arg =>
          match copy_from_user arg with
          | None => ret (- EFAULT, req)
          | Some info =>
              match dmabuf_ with
              | Addr d =>
                  let* ri := dma_buf_get_info d info in
                  if ri.1 <? 0 then ret (ri.1, req)
                  else
                    match copy_to_user arg ri.2 with
                    | None => ret (- EFAULT, req)
                    | Some arg' => ret (ri.1, DMABUF_IOCTL_GET_INFO arg')
                    end
              | _ => oops
              end
          end
      | DMABUF_IOCTL_GET_FENCE arg =>
          match dmabuf_ with
          | Addr d =>
              let* b := load_buf d in
              if bool_decide (sync b = None) then ret (- EPERM, req)
              else
                match copy_from_user arg with
                | None => ret (- EFAULT, req)
                | Some df =>
                    let* rf := dma_buf_get_fence d df in
                    if rf.1 <? 0 then ret (rf.1, req)
                    else
                      match copy_to_user arg rf.2 with
                      | None => ret (- EFAULT, req)
                      | Some arg' => ret (rf.1, DMABUF_IOCTL_GET_FENCE arg')
                      end
                end
          | _ => oops
          end
      | DMABUF_IOCTL_PUT_FENCE arg =>
          match dmabuf_ with
          | Addr d =>
              let* b := load_buf d in
              if bool_decide (sync b = None) then ret (- EPERM, req)
              else
                match copy_from_user arg with
                | None => ret (- EFAULT, req)
                | Some df =>
                    let* rf := dma_buf_put_fence d df in
                    if rf.1 <? 0 then ret (rf.1, req)
                    else
                      match copy_to_user arg rf.2 with
                      | None => ret (- EFAULT, req)
                      | Some arg' => ret (rf.1, DMABUF_IOCTL_PUT_FENCE arg')
                      end
                end
          | _ => oops
          end
      | IOCTL_OTHER _ _ => ret (- EINVAL, req)
      end.

(** ** The rest of drivers/base/dma-buf.c

    The functions below complete the file.  The trace has no event for
    the hooks they call; what those hooks do shows in the external
    state. *)

Definition EMFILE : Z := 24.

Definition load_att (a : Z) : M dma_buf_attachment :=
  λ k, match atts k !! a with
       | Some x => Ret x k
       | None => Oops
       end.

(** [dma_buf_mmap_internal], the mmap operation of the handle. *)
Definition dma_buf_mmap_internal (filp : pointer) (vma : vm_area_struct) : M Z :=
  let* mine := is_dma_buf_file filp in
  if negb mine then ret (- EINVAL)
  else
    let* fl := load_file filp in
    match private_data fl with
    | Addr d =>
        let* b := load_buf d in
        if ulong (vm_pgoff vma + vma_pages vma) >? Z.shiftr (size b) PAGE_SHIFT
        then ret (- EINVAL)
        else
          let* o := load_ops b in
          match mmap o with
          | Some hook => log (EvMmap d vma) ;;; call (hook d vma)
          | None => oops
          end
    | _ => oops
    end.

(** *** Descriptors

    The descriptor table of the calling process maps a descriptor to the
    file it stands for.  It is passed in and handed back. *)

(** The number of descriptors a process may hold, [rlimit(RLIMIT_NOFILE)]. *)
Variable RLIMIT_NOFILE : Z.

(** Modelled from the spec: [get_unused_fd_flags] of fs/file.c is missing;
    section 4.1 has [ToHandle] allocate a descriptor and fail when no
    descriptor slots remain.  The lowest free slot is taken. *)
Definition get_unused_fd_flags (flags : Z) (fdt : gmap Z pointer) : Z :=
  match find (λ n, bool_decide (fdt !! n = None)) (seqZ 0 RLIMIT_NOFILE) with
  | Some fd => fd
  | None => - EMFILE
  end.

(** Modelled from the spec: [fd_install] of fs/file.c is missing; it binds
    the descriptor to the file and takes over the reference of the
    caller. *)
Definition fd_install (fd : Z) (filp : pointer) (fdt : gmap Z pointer) : gmap Z pointer :=
  <[fd := filp]> fdt.

(** Modelled from the spec: [fget] of fs/file_table.c is missing; section
    4.1 has [FromHandle] resolve a descriptor and increment the reference
    count, and find nothing behind an invalid descriptor. *)
Definition fget (fd : Z) (fdt : gmap Z pointer) : M pointer :=
  match fdt !! fd with
  | Some filp => get_file filp ;;; ret filp
  | None => ret NULL
  end.

Definition dma_buf_fd (dmabuf_ : pointer) (flags : Z) (fdt : gmap Z pointer)
    : M (Z * gmap Z pointer) :=
  match dmabuf_ with
  | NULL => ret (- EINVAL, fdt)
  | Addr d =>
      let* b := load_buf d in
      if is_null (file_of b) then ret (- EINVAL, fdt)
      else
        let error := get_unused_fd_flags flags fdt in
        if error <? 0 then ret (error, fdt)
        else ret (error, fd_install error (file_of b) fdt)
  | ERR_PTR _ => oops
  end.

Definition dma_buf_get (fd : Z) (fdt : gmap Z pointer) : M pointer :=
  let* filp := fget fd fdt in
  if is_null filp then ret (ERR_PTR (- EBADF))
  else
    let* mine := is_dma_buf_file filp in
    if negb mine then
      fput filp ;;;
      ret (ERR_PTR (- EINVAL))
    else
      let* fl := load_file filp in
      ret (private_data fl).

(** *** Attachments *)

(** [list_del] on the node of the attachment record at [a]: the node
    leaves the list it is linked in, which is the list of the buffer the
    record was attached to. *)
Definition list_del (a : Z) : M unit :=
  let* x := load_att a in
  match dmabuf x with
  | Addr d =>
      let* b := load_buf d in
      if bool_decide (a ∈ attachments b) then
        store_buf d (with_attachments (filter (λ n, n ≠ a) (attachments b)) b)
      else oops
  | _ => oops
  end.

Definition dma_buf_detach (dmabuf_ : pointer) (attach_ : pointer) : M unit :=
  if is_null dmabuf_ || is_null attach_ then ret tt
  else
    match dmabuf_, attach_ with
    | Addr d, Addr a =>
        list_del a ;;;
        let* b := load_buf d in
        let* o := load_ops b in
        match detach o with
        | Some hook => call_void (hook d a)
        | None => ret tt
        end ;;;
        kfree_attachment a
    | _, _ => oops
    end.

Definition dma_buf_map_attachment (attach_ : pointer) (direction : Z) : M pointer :=
  match attach_ with
  | NULL => ret (ERR_PTR (- EINVAL))
  | Addr a =>
      let* x := load_att a in
      match dmabuf x with
      | NULL => ret (ERR_PTR (- EINVAL))
      | Addr d =>
          let* b := load_buf d in
          let* o := load_ops b in
          match map_dma_buf o with
          | Some hook => call (hook a direction)
          | None => oops
          end
      | ERR_PTR _ => oops
      end
  | ERR_PTR _ => oops
  end.

Definition dma_buf_unmap_attachment (attach_ : pointer) (sg_table : pointer)
    (direction : Z) : M unit :=
  match attach_ with
  | NULL => ret tt
  | Addr a =>
      let* x := load_att a in
      if is_null (dmabuf x) || is_null sg_table then ret tt
      else
        match dmabuf x with
        | Addr d =>
            let* b := load_buf d in
            let* o := load_ops b in
            match unmap_dma_buf o with
            | Some hook => call_void (hook a sg_table direction)
            | None => oops
            end
        | _ => oops
        end
  | ERR_PTR _ => oops
  end.

(** *** CPU access *)

Definition dma_buf_begin_cpu_access (dmabuf_ : pointer) (start len direction : Z)
    : M Z :=
  match dmabuf_ with
  | NULL => ret (- EINVAL)
  | Addr d =>
      let* b := load_buf d in
      let* o := load_ops b in
      match begin_cpu_access o with
      | Some hook => call (hook d start len direction)
      | None => ret 0
      end
  | ERR_PTR _ => oops
  end.

(** From here on a null buffer only draws a warning: the functions go on
    and dereference it. *)
Definition dma_buf_end_cpu_access (dmabuf_ : pointer) (start len direction : Z)
    : M unit :=
  match dmabuf_ with
  | Addr d =>
      let* b := load_buf d in
      let* o := load_ops b in
      match end_cpu_access o with
      | Some hook => call_void (hook d start len direction)
      | None => ret tt
      end
  | _ => oops
  end.

Definition dma_buf_kmap_atomic (dmabuf_ : pointer) (page_num : Z) : M pointer :=
  match dmabuf_ with
  | Addr d =>
      let* b := load_buf d in
      let* o := load_ops b in
      match kmap_atomic o with
      | Some hook => call (hook d page_num)
      | None => oops
      end
  | _ => oops
  end.

Definition dma_buf_kunmap_atomic (dmabuf_ : pointer) (page_num : Z)
    (vaddr : pointer) : M unit :=
  match dmabuf_ with
  | Addr d =>
      let* b := load_buf d in
      let* o := load_ops b in
      match kunmap_atomic o with
      | Some hook => call_void (hook d page_num vaddr)
      | None => ret tt
      end
  | _ => oops
  end.

Definition dma_buf_kmap (dmabuf_ : pointer) (page_num : Z) : M pointer :=
  match dmabuf_ with
  | Addr d =>
      let* b := load_buf d in
      let* o := load_ops b in
      match kmap o with
      | Some hook => call (hook d page_num)
      | None => oops
      end
  | _ => oops
  end.

Definition dma_buf_kunmap (dmabuf_ : pointer) (page_num : Z) (vaddr : pointer)
    : M unit :=
  match dmabuf_ with
  | Addr d =>
      let* b := load_buf d in
      let* o := load_ops b in
      match kunmap o with
      | Some hook => call_void (hook d page_num vaddr)
      | None => ret tt
      end
  | _ => oops
  end.

(** ** The vocabulary of the properties *)

(** The arguments [dma_buf_export] refuses: a null [priv], a null
    operation table, or a table without one of the mandatory hooks. *)
Definition export_args_invalid (priv_ : pointer) (ops_ : option dma_buf_ops) : Prop :=
  priv_ = NULL ∨ ops_ = None ∨
  ∃ o, ops_ = Some o ∧
       (map_dma_buf o = None ∨ unmap_dma_buf o = None ∨ release o = None ∨
        kmap_atomic o = None ∨ kmap o = None ∨ mmap o = None).

(** The next allocation request is refused. *)
Definition alloc_fails (k : kernel) : Prop :=
  alloc_oracle k = [] ∨ ∃ o, alloc_oracle k = false :: o.

(** The reservation state [r] is unlocked: no access window is held, no
    poll edge is pending and nobody waits. *)
Definition unlocked_reservation (r : dmabuf_sync_reservation) : Prop :=
  locked r = false ∧ poll_event r = false ∧ poll_wait r = [].

(** [iter n m] runs [m] [n] times in a row. *)
Fixpoint iter (n : nat) (m : M unit) : M unit :=
  match n with
  | O => ret tt
  | S n' => m ;;; iter n' m
  end.

(** [calls n m] runs [m] [n] times in a row and collects what it returns. *)
Fixpoint calls {A : Type} (n : nat) (m : M A) : M (list A) :=
  match n with
  | O => ret []
  | S n' => let* a := m in let* l := calls n' m in ret (a :: l)
  end.

(** The buffer at [d] is alive, [c] references are held on its handle and
    its vmap counter is [v]. *)
Definition buffer_held (k : kernel) (d : Z) (c v : Z) : Prop :=
  ∃ b f fl o hook,
    bufs k !! d = Some b ∧ file_of b = Addr f ∧ files k !! f = Some fl
    ∧ f_op fl = dma_buf_fops ∧ private_data fl = Addr d ∧ f_count fl = c
    ∧ ops b = Some o ∧ release o = Some hook ∧ vmapping_counter b = v.

(** The buffer at [d] and its handle are gone. *)
Definition buffer_gone (k k' : kernel) (d : Z) : Prop :=
  bufs k' !! d = None
  ∧ ∀ b f, bufs k !! d = Some b → file_of b = Addr f → files k' !! f = None.

(** [hook] is the release hook of the buffer at [d]. *)
Definition release_hook_of (k : kernel) (d : Z) (hook : Z → E → E) : Prop :=
  ∃ b o, bufs k !! d = Some b ∧ ops b = Some o ∧ release o = Some hook.

(** What the destruction of the buffer at [d] leaves in the trace. *)
Definition destruction (d : Z) : list event :=
  [EvRelease d; EvReservationFini d; EvKfree d].

(** The vmap cache is well formed: a counter that is not zero comes with
    a cached pointer. *)
Definition vmap_cache_ok (b : dma_buf) : Prop :=
  vmapping_counter b ≠ 0 → vmap_ptr b ≠ NULL.

(** The pointer held in the vmap cache of a buffer, if any. *)
Definition cached_pointer (b : dma_buf) : option pointer :=
  if is_null (vmap_ptr b) then None else Some (vmap_ptr b).

(** What [dma_buf_mmap] does to the file the region pointed to before. *)
Definition drop_vm_file (v : vm_area_struct) : M unit :=
  if is_null (vm_file v) then ret tt else fput (vm_file v).

(** The region as [dma_buf_mmap] hands it to the exporter. *)
Definition rebound (v : vm_area_struct) (f : pointer) (pgoff : Z) : vm_area_struct :=
  mk_vma (vm_start v) (vm_end v) pgoff f.

(** The file at [f] is the handle of the buffer at [d]. *)
Definition handle_of (k : kernel) (f d : Z) : Prop :=
  ∃ fl, files k !! f = Some fl ∧ f_op fl = dma_buf_fops
        ∧ private_data fl = Addr d.

(** The buffer at [d] has the synchronization state [r]. *)
Definition robj_at (k : kernel) (d : Z) (r : dmabuf_sync_reservation) : Prop :=
  ∃ b, bufs k !! d = Some b ∧ sync b = Some r.

(** Readable and writable. *)
Definition POLL_READY : Z := Z.lor POLLIN POLLOUT.

(** The request holds the fence context [c]. *)
Definition fence_arg (c : pointer) (ty : Z) : user_ptr dma_buf_fence :=
  mk_user true true (mk_fence c ty).

(** The mask test [dma_buf_lock] applies to [fl_type]:
    [(x & mask) == mask]. *)
Definition has_bits (x mask : Z) : bool := Z.land x mask =? mask.

(** *** The vocabulary of the further properties *)

(** What the attach hook of the table [o], if there is one, answers for
    the record at [a]. *)
Definition attach_answer (o : dma_buf_ops) (d : Z) (dev_ : pointer) (a : Z)
    (e : E) : Z * E :=
  match attach o with
  | Some hook => hook d dev_ a e
  | None => (0, e)
  end.

(** What the attach hook leaves in the trace. *)
Definition attach_trace (o : dma_buf_ops) (d : Z) (dev_ : pointer) (a : Z)
    : list event :=
  match attach o with
  | Some _ => [EvAttach d dev_ a]
  | None => []
  end.

(** What the detach hook of the table [o], if there is one, does to the
    external state. *)
Definition detach_effect (o : dma_buf_ops) (d a : Z) (e : E) : E :=
  match detach o with
  | Some hook => hook d a e
  | None => e
  end.

(** The attachment lists are well formed: no record is listed twice, and
    every record on the list of a buffer is alive and points back to that
    buffer. *)
Definition attachments_wf (k : kernel) : Prop :=
  ∀ d b, bufs k !! d = Some b →
    NoDup (attachments b)
    ∧ ∀ a, a ∈ attachments b →
        ∃ x, atts k !! a = Some x ∧ dmabuf x = Addr d.

(** A step of a user of the buffer at [d]. *)
Inductive buffer_op : Type :=
| OpAttach (dev_ : pointer)
| OpDetach (a : Z)
| OpVmap
| OpVunmap (vaddr : pointer)
| OpGet
| OpPut
| OpPoll (f : Z)
| OpBeginCpuAccess (start len direction : Z)
| OpEndCpuAccess (start len direction : Z)
| OpKmap (page_num : Z)
| OpKunmap (page_num : Z) (vaddr : pointer).

Definition run_op (d : Z) (op : buffer_op) : M unit :=
  match op with
  | OpAttach dev_ => dma_buf_attach (Addr d) dev_ ;;; ret tt
  | OpDetach a => dma_buf_detach (Addr d) (Addr a)
  | OpVmap => dma_buf_vmap (Addr d) ;;; ret tt
  | OpVunmap vaddr => dma_buf_vunmap (Addr d) vaddr
  | OpGet => get_dma_buf (Addr d)
  | OpPut => dma_buf_put (Addr d)
  | OpPoll f => dma_buf_poll (Addr f) ;;; ret tt
  | OpBeginCpuAccess start len direction =>
      dma_buf_begin_cpu_access (Addr d) start len direction ;;; ret tt
  | OpEndCpuAccess start len direction =>
      dma_buf_end_cpu_access (Addr d) start len direction
  | OpKmap page_num => dma_buf_kmap (Addr d) page_num ;;; ret tt
  | OpKunmap page_num vaddr => dma_buf_kunmap (Addr d) page_num vaddr
  end.

(** The steps [ops_], one after the other. *)
Fixpoint run_ops (d : Z) (ops_ : list buffer_op) : M unit :=
  match ops_ with
  | [] => ret tt
  | op :: rest => run_op d op ;;; run_ops d rest
  end.

(** What [dma_buf_export] fixes for good. *)
Definition same_identity (b b' : dma_buf) : Prop :=
  size b' = size b ∧ ops b' = ops b ∧ priv b' = priv b ∧ file_of b' = file_of b.

(** Every buffer of [k'] was a buffer of [k], with what [dma_buf_export]
    fixed unchanged. *)
Definition buffers_persist (k k' : kernel) : Prop :=
  ∀ d b', bufs k' !! d = Some b' → ∃ b, bufs k !! d = Some b ∧ same_identity b b'.

(** The vmap cache of every buffer is well formed. *)
Definition vmap_caches_ok (k : kernel) : Prop :=
  ∀ d b, bufs k !! d = Some b → vmap_cache_ok b.

(** From [k] to [k'] no attachment record and no attachment list has
    changed, and the buffers have kept their identity and the shape of
    their vmap cache. *)
Definition lists_untouched (k k' : kernel) : Prop :=
  atts k' = atts k
  ∧ ∀ d b', bufs k' !! d = Some b' →
      ∃ b, bufs k !! d = Some b ∧ same_identity b b'
           ∧ attachments b' = attachments b
           ∧ (vmap_cache_ok b → vmap_cache_ok b').

(** The three invariants of a user's steps. *)
Definition step_ok (k k' : kernel) : Prop :=
  buffers_persist k k'
  ∧ (vmap_caches_ok k → vmap_caches_ok k')
  ∧ (attachments_wf k → attachments_wf k').

(** From [k] to [k'] only the exporter has moved: memory, files and trace
    are as they were. *)
Definition only_ext_changed (k k' : kernel) : Prop :=
  alloc_oracle k' = alloc_oracle k ∧ bufs k' = bufs k ∧ atts k' = atts k
  ∧ files k' = files k ∧ trace k' = trace k.

(** ** Properties *)

Create HintDb dmabuf.

#[local] Hint Unfold bind ret BUG_ON oops log call call_void
  set_bufs set_atts set_files set_oracle load_buf store_buf load_file
  store_file load_ops update_buf update_robj store_att
  kfree_dma_buf kfree_attachment is_dma_buf_file : dmabuf.

(** Runs the straight-line part of a computation. *)
Ltac run :=
  repeat (progress (autounfold with dmabuf; simpl;
                    rewrite ?lookup_insert_eq, ?lookup_delete_eq; simpl)).

(** The same, reading facts about the state from the hypotheses. *)
Ltac go :=
  repeat (progress run ||
          match goal with
          | H : ?l = _ |- context [?l] => rewrite H
          end).

Lemma bind_Ret {A B : Type} (m : M A) (f : A → M B) k a k' :
  m k = Ret a k' → bind m f k = f a k'.
Proof. intros H. unfold bind. by rewrite H. Qed.

Lemma fresh_not_live k :
  bufs k !! fresh (live k) = None ∧ atts k !! fresh (live k) = None
  ∧ files k !! fresh (live k) = None.
Proof.
  pose proof (is_fresh (live k)) as Hf. unfold live in Hf at 2.
  repeat split; apply not_elem_of_dom; set_solver.
Qed.

(** *** Export *)

Lemma is_Some_false {A : Type} (x : option A) :
  bool_decide (is_Some x) = false ↔ x = None.
Proof.
  rewrite bool_decide_eq_false. destruct x; split; intros H; try done.
  exfalso. apply H. eauto.
Qed.

Lemma export_args_ok_false priv_ ops_ :
  export_args_ok priv_ ops_ = false ↔ export_args_invalid priv_ ops_.
Proof.
  unfold export_args_ok, export_args_invalid, mandatory_hooks. split.
  - intros H. apply andb_false_iff in H as [H|H].
    + left. by destruct priv_.
    + right. destruct ops_ as [o|]; [right; exists o; split; [done|] | by left].
      repeat (apply andb_false_iff in H as [H|H]);
        apply is_Some_false in H; tauto.
  - intros [-> | [-> | (o & -> & H)]]; [done | apply andb_false_r |].
    apply andb_false_iff. right.
    repeat rewrite andb_false_iff.
    repeat rewrite is_Some_false. tauto.
Qed.

Lemma alloc_fails_kzalloc place k :
  alloc_fails k →
  ∃ k', kzalloc place k = Ret NULL k' ∧ bufs k' = bufs k ∧ atts k' = atts k
        ∧ files k' = files k ∧ ext k' = ext k ∧ trace k' = trace k.
Proof.
  unfold kzalloc. intros [H | [o H]]; rewrite H; eauto 10.
Qed.

(** C1.  [dma_buf_export] refuses a null [priv], a null operation table
    and a table that lacks one of the six mandatory hooks with [-EINVAL]
    and leaves the kernel state as it found it, so nothing is allocated;
    when the allocation of the buffer object fails it returns [-ENOMEM]
    and no object has appeared; otherwise it returns a new buffer that
    holds the given [priv], operation table and size, has no attachment
    and no vmap cache, and whose reservation state is unlocked. *)
Theorem dma_buf_export_spec (priv_ : pointer) (ops_ : option dma_buf_ops)
    (size_ flags : Z) (k : kernel) :
  (export_args_invalid priv_ ops_ →
     dma_buf_export priv_ ops_ size_ flags k = Ret (ERR_PTR (- EINVAL)) k)
  ∧ (¬ export_args_invalid priv_ ops_ → alloc_fails k →
     ∃ k', dma_buf_export priv_ ops_ size_ flags k = Ret (ERR_PTR (- ENOMEM)) k'
           ∧ bufs k' = bufs k ∧ atts k' = atts k ∧ files k' = files k)
  ∧ (¬ export_args_invalid priv_ ops_ → ¬ alloc_fails k →
     ∃ d k' b r,
       dma_buf_export priv_ ops_ size_ flags k = Ret (Addr d) k'
       ∧ bufs k !! d = None
       ∧ bufs k' !! d = Some b
       ∧ priv b = priv_ ∧ ops b = ops_ ∧ size b = size_
       ∧ attachments b = []
       ∧ vmap_ptr b = NULL ∧ vmapping_counter b = 0
       ∧ sync b = Some r ∧ unlocked_reservation r).
Proof.
  split; [|split].
  - intros H. apply export_args_ok_false in H.
    unfold dma_buf_export. by rewrite H.
  - intros Hok Hfail.
    assert (export_args_ok priv_ ops_ = true) as Hb.
    { destruct (export_args_ok priv_ ops_) eqn:Heq; [done|].
      by apply export_args_ok_false in Heq. }
    unfold dma_buf_export. rewrite Hb. simpl.
    destruct (alloc_fails_kzalloc
                (λ a k, set_bufs (<[a := zeroed_dma_buf]> (bufs k)) k) k Hfail)
      as (k' & Hk & ? & ? & ? & ? & ?).
    exists k'. unfold bind, kzalloc_dma_buf. rewrite Hk. by repeat split.
  - intros Hok Hnofail.
    assert (export_args_ok priv_ ops_ = true) as Hb.
    { destruct (export_args_ok priv_ ops_) eqn:Heq; [done|].
      by apply export_args_ok_false in Heq. }
    assert (∃ o, alloc_oracle k = true :: o) as [o Ho].
    { unfold alloc_fails in Hnofail.
      destruct (alloc_oracle k) as [|[] o]; eauto; exfalso; eauto. }
    destruct (fresh_not_live k) as (Hfresh & _ & _).
    unfold dma_buf_export. rewrite Hb. simpl.
    unfold bind at 1. unfold kzalloc_dma_buf, kzalloc. rewrite Ho.
    set (d := fresh (live k)) in *.
    unfold anon_inode_getfile, kzalloc, dmabuf_sync_reservation_init.
    run.
    destruct o as [|[] o]; run;
      eexists d, _, _, _; (split; [reflexivity|]); run;
      by repeat split.
Qed.

(** *** Reference counting *)

Lemma get_dma_buf_held k d c v :
  buffer_held k d c v →
  ∃ k', get_dma_buf (Addr d) k = Ret tt k' ∧ buffer_held k' d (c + 1) v
        ∧ trace k' = trace k ∧ bufs k' = bufs k ∧ ext k' = ext k.
Proof.
  intros (b & f & fl & o & hook & Hb & Hf & Hfl & Hop & Hpd & Hc & Ho & Hr & Hv).
  unfold get_dma_buf, get_file. go. eexists. split; [reflexivity|]. split; [|done].
  exists b, f, (with_f_count (f_count fl + 1) fl), o, hook. run.
  rewrite Hc. by repeat split.
Qed.

Lemma dma_buf_put_keeps k d c v :
  buffer_held k d c v → c ≠ 1 →
  ∃ k', dma_buf_put (Addr d) k = Ret tt k' ∧ buffer_held k' d (c - 1) v
        ∧ trace k' = trace k ∧ bufs k' = bufs k ∧ ext k' = ext k.
Proof.
  intros (b & f & fl & o & hook & Hb & Hf & Hfl & Hop & Hpd & Hc & Ho & Hr & Hv) Hne.
  unfold dma_buf_put, fput. subst c. go.
  destruct (Z.eqb_spec (f_count fl - 1) 0) as [Heq|_]; [lia|]. go.
  eexists. split; [reflexivity|]. split; [|done].
  exists b, f, (with_f_count (f_count fl - 1) fl), o, hook. go.
  by repeat split.
Qed.

Lemma dma_buf_put_last k d :
  buffer_held k d 1 0 →
  ∃ k', dma_buf_put (Addr d) k = Ret tt k'
        ∧ trace k' = trace k ++ destruction d ∧ buffer_gone k k' d.
Proof.
  intros (b & f & fl & o & hook & Hb & Hf & Hfl & Hop & Hpd & Hc & Ho & Hr & Hv).
  unfold dma_buf_put, fput, dma_buf_release, dmabuf_sync_reservation_fini.
  go. eexists. split; [reflexivity|]. run. split.
  - unfold destruction. by rewrite <- !app_assoc.
  - split; simpl; [apply lookup_delete_eq|].
    intros b' f' Hb' Hf'. assert (f' = f) as -> by congruence.
    apply lookup_delete_eq.
Qed.

Lemma dma_buf_put_last_ext k d :
  buffer_held k d 1 0 →
  ∃ hook, release_hook_of k d hook
          ∧ ∀ k', dma_buf_put (Addr d) k = Ret tt k' → ext k' = hook d (ext k).
Proof.
  intros (b & f & fl & o & hook & Hb & Hf & Hfl & Hop & Hpd & Hc & Ho & Hr & Hv).
  exists hook. split; [by exists b, o|]. intros k'.
  unfold dma_buf_put, fput, dma_buf_release, dmabuf_sync_reservation_fini.
  go. by intros [= <-].
Qed.

Lemma dma_buf_put_last_mapped k d v :
  buffer_held k d 1 v → v ≠ 0 → dma_buf_put (Addr d) k = Bug.
Proof.
  intros (b & f & fl & o & hook & Hb & Hf & Hfl & Hop & Hpd & Hc & Ho & Hr & Hv) Hne.
  unfold dma_buf_put, fput, dma_buf_release. subst v. go.
  destruct (Z.eqb_spec (vmapping_counter b) 0) as [Heq|_]; [lia|]. by go.
Qed.

Lemma iter_get_dma_buf n : ∀ k d c v,
  buffer_held k d c v →
  ∃ k', iter n (get_dma_buf (Addr d)) k = Ret tt k'
        ∧ buffer_held k' d (c + Z.of_nat n) v ∧ trace k' = trace k
        ∧ bufs k' = bufs k ∧ ext k' = ext k.
Proof.
  induction n as [|n IH]; intros k d c v H.
  - exists k. rewrite Z.add_0_r. by split_and!.
  - destruct (get_dma_buf_held _ _ _ _ H) as (k1 & Hrun & H1 & Ht1 & Hb1 & He1).
    destruct (IH _ _ _ _ H1) as (k2 & Hrun2 & H2 & Ht2 & Hb2 & He2).
    exists k2. simpl. rewrite (bind_Ret _ _ _ _ _ Hrun).
    replace (c + Z.of_nat (S n)) with (c + 1 + Z.of_nat n) by lia.
    split_and!; [done..|congruence|congruence|congruence].
Qed.

Lemma iter_dma_buf_put n : ∀ k d v,
  buffer_held k d (1 + Z.of_nat n) v →
  ∃ k', iter n (dma_buf_put (Addr d)) k = Ret tt k'
        ∧ buffer_held k' d 1 v ∧ trace k' = trace k
        ∧ bufs k' = bufs k ∧ ext k' = ext k.
Proof.
  induction n as [|n IH]; intros k d v H.
  - exists k. by split_and!.
  - destruct (dma_buf_put_keeps _ _ _ _ H)
      as (k1 & Hrun & H1 & Ht1 & Hb1 & He1); [lia|].
    replace (1 + Z.of_nat (S n) - 1) with (1 + Z.of_nat n) in H1 by lia.
    destruct (IH _ _ _ H1) as (k2 & Hrun2 & H2 & Ht2 & Hb2 & He2).
    exists k2. simpl. rewrite (bind_Ret _ _ _ _ _ Hrun).
    split_and!; [done..|congruence|congruence|congruence].
Qed.

Lemma count_app p (t1 t2 : list event) :
  count p (t1 ++ t2) = (count p t1 + count p t2)%nat.
Proof. unfold count. by rewrite filter_app, length_app. Qed.

Lemma dma_buf_export_held priv_ ops_ size_ flags k o :
  ¬ export_args_invalid priv_ ops_ →
  alloc_oracle k = true :: true :: o →
  ∃ d k', dma_buf_export priv_ ops_ size_ flags k = Ret (Addr d) k'
          ∧ buffer_held k' d 1 0 ∧ trace k' = trace k.
Proof.
  intros Hok Ho.
  assert (export_args_ok priv_ ops_ = true) as Hb.
  { destruct (export_args_ok priv_ ops_) eqn:Heq; [done|].
    by apply export_args_ok_false in Heq. }
  assert (∃ t hook, ops_ = Some t ∧ release t = Some hook) as (t & hook & -> & Hr).
  { destruct ops_ as [t|]; [|exfalso; apply Hok; right; by left].
    destruct (release t) as [hook|] eqn:Hrel; [eauto|].
    exfalso. apply Hok. right. right. exists t. tauto. }
  unfold dma_buf_export. rewrite Hb. simpl.
  unfold bind at 1. unfold kzalloc_dma_buf, kzalloc. rewrite Ho.
  unfold anon_inode_getfile, kzalloc, dmabuf_sync_reservation_init. run.
  eexists _, _. split; [reflexivity|]. split; [|done].
  eexists _, _, _, t, hook. run.
  by repeat split.
Qed.

(** C2.  Export hands the buffer out with one reference held and
    [get_dma_buf] takes one more each time it is called.  With [n]
    further references taken, so that [n + 1] references have been
    acquired in all, [n + 1] calls of [dma_buf_put] destroy the buffer
    exactly once: the first [n] leave it alive, call nothing and leave
    the buffers and the exporter as they were; the last one calls the
    release hook of the exporter once, so that the exporter is in the
    state the hook makes of the one before, tears the reservation state
    down and frees the object, handle included.  Releasing the last
    reference while the vmap counter is not zero trips [BUG_ON]. *)
Theorem refcount_round_trip (n : nat) (k0 : kernel) (d v : Z) :
  (buffer_held k0 d 1 0 →
   ∃ k1 k2 k3 hook,
     iter n (get_dma_buf (Addr d)) k0 = Ret tt k1
     ∧ buffer_held k1 d (1 + Z.of_nat n) 0
     ∧ iter n (dma_buf_put (Addr d)) k1 = Ret tt k2
     ∧ buffer_held k2 d 1 0
     ∧ trace k2 = trace k0
     ∧ dma_buf_put (Addr d) k2 = Ret tt k3
     ∧ trace k3 = trace k0 ++ destruction d
     ∧ count is_release_ev (trace k3) = S (count is_release_ev (trace k0))
     ∧ count is_fini_ev (trace k3) = S (count is_fini_ev (trace k0))
     ∧ buffer_gone k2 k3 d
     ∧ bufs k2 = bufs k0
     ∧ ext k2 = ext k0
     ∧ release_hook_of k0 d hook
     ∧ ext k3 = hook d (ext k0))
  ∧ (buffer_held k0 d 1 v → v ≠ 0 → dma_buf_put (Addr d) k0 = Bug).
Proof.
  split; [|apply dma_buf_put_last_mapped].
  intros H0.
  destruct (iter_get_dma_buf n _ _ _ _ H0) as (k1 & Hget & H1 & Ht1 & Hb1 & He1).
  destruct (iter_dma_buf_put n _ _ _ H1) as (k2 & Hput & H2 & Ht2 & Hb2 & He2).
  destruct (dma_buf_put_last _ _ H2) as (k3 & Hlast & Ht3 & Hgone).
  destruct (dma_buf_put_last_ext _ _ H2) as (hook & (b & o & Hb & Ho & Hr) & Hext).
  exists k1, k2, k3, hook.
  assert (trace k3 = trace k0 ++ destruction d) as Ht by congruence.
  assert (bufs k2 = bufs k0) as Hbufs by congruence.
  assert (ext k2 = ext k0) as Hexts by congruence.
  split_and!; try done; try congruence.
  - rewrite Ht, count_app.
    change (count is_release_ev (destruction d)) with 1%nat. lia.
  - rewrite Ht, count_app.
    change (count is_fini_ev (destruction d)) with 1%nat. lia.
  - exists b, o. rewrite <- Hbufs. by split_and!.
  - rewrite (Hext k3 Hlast). by rewrite Hexts.
Qed.

(** *** The vmap cache *)

Lemma dma_buf_vmap_first k d b o hook p e' :
  bufs k !! d = Some b → ops b = Some o → vmap o = Some hook →
  vmapping_counter b = 0 → vmap_ptr b = NULL →
  hook d (ext k) = (p, e') → IS_ERR_OR_NULL p = false →
  dma_buf_vmap (Addr d) k =
    Ret p (mk_kernel (alloc_oracle k)
             (<[d := with_vmapping_counter 1 (with_vmap_ptr p b)]> (bufs k))
             (atts k) (files k) e' (trace k ++ [EvVmap d])).
Proof.
  intros Hb Ho Hh Hc Hp Hcall Hok.
  unfold dma_buf_vmap. go.
  by rewrite insert_insert_eq.
Qed.

Lemma dma_buf_vmap_failed k d b o hook p e' :
  bufs k !! d = Some b → ops b = Some o → vmap o = Some hook →
  vmapping_counter b = 0 → vmap_ptr b = NULL →
  hook d (ext k) = (p, e') → IS_ERR_OR_NULL p = true →
  dma_buf_vmap (Addr d) k =
    Ret p (mk_kernel (alloc_oracle k) (bufs k) (atts k) (files k) e'
             (trace k ++ [EvVmap d])).
Proof.
  intros Hb Ho Hh Hc Hp Hcall Hok.
  unfold dma_buf_vmap. by go.
Qed.

Lemma dma_buf_vmap_again k d b o hook :
  bufs k !! d = Some b → ops b = Some o → vmap o = Some hook →
  vmapping_counter b ≠ 0 → vmap_ptr b ≠ NULL →
  dma_buf_vmap (Addr d) k =
    Ret (vmap_ptr b)
        (set_bufs (<[d := with_vmapping_counter (uint (vmapping_counter b + 1)) b]>
                     (bufs k)) k).
Proof.
  intros Hb Ho Hh Hc Hp.
  unfold dma_buf_vmap. go.
  destruct (Z.eqb_spec (vmapping_counter b) 0) as [|_]; [done|]. go.
  destruct (vmap_ptr b); [done|by go..].
Qed.

Lemma dma_buf_vmap_absent k d b o :
  bufs k !! d = Some b → ops b = Some o → vmap o = None →
  dma_buf_vmap (Addr d) k = Ret NULL k.
Proof. intros Hb Ho Hh. unfold dma_buf_vmap. by go. Qed.

Lemma uint_small z : 0 ≤ z < UINT_MODULUS → uint z = z.
Proof. intros H. unfold uint. by apply Z.mod_small. Qed.

Lemma dma_buf_vmap_subsequent n : ∀ k d b o hook,
  bufs k !! d = Some b → ops b = Some o → vmap o = Some hook →
  0 < vmapping_counter b → vmapping_counter b + Z.of_nat n < UINT_MODULUS →
  vmap_ptr b ≠ NULL →
  calls n (dma_buf_vmap (Addr d)) k =
    Ret (replicate n (vmap_ptr b))
        (set_bufs (<[d := with_vmapping_counter (vmapping_counter b + Z.of_nat n) b]>
                     (bufs k)) k).
Proof.
  induction n as [|n IH]; intros k d b o hook Hb Ho Hh Hc Hlt Hp.
  - simpl. unfold ret. f_equal. rewrite Z.add_0_r.
    destruct k, b; simpl in *. unfold set_bufs; simpl. f_equal.
    symmetry. by apply insert_id.
  - simpl. rewrite (bind_Ret _ _ _ _ _
      (dma_buf_vmap_again k d b o hook Hb Ho Hh ltac:(lia) Hp)).
    rewrite uint_small by lia.
    erewrite bind_Ret; last first.
    { eapply (IH _ d (with_vmapping_counter (vmapping_counter b + 1) b) o hook);
        simpl; try done; try lia. apply lookup_insert_eq. }
    unfold ret, set_bufs; simpl. f_equal. f_equal.
    rewrite insert_insert_eq. f_equal.
    unfold with_vmapping_counter; simpl. f_equal. lia.
Qed.

(** C3.  On a buffer whose operation table has a vmap hook, the first
    [dma_buf_vmap] calls the hook once; when the hook succeeds its pointer
    is cached with the counter at 1 and every further call made while the
    counter is below [2 ^ 32 - 1] returns that same pointer, counts one up
    and leaves the exporter alone; when the hook fails its result is
    returned and nothing is cached.  Without a vmap hook [dma_buf_vmap]
    returns null at once.  The counter is an [unsigned]: the call made at
    [2 ^ 32 - 1] still returns the pointer and wraps the counter to 0 with
    the pointer cached, and the call after that trips [BUG_ON]. *)
Theorem dma_buf_vmap_caches (k : kernel) (d : Z) (b : dma_buf) (o : dma_buf_ops) :
  bufs k !! d = Some b → ops b = Some o →
  (vmap o = None → dma_buf_vmap (Addr d) k = Ret NULL k)
  ∧ (∀ hook p e',
       vmap o = Some hook → vmapping_counter b = 0 → vmap_ptr b = NULL →
       hook d (ext k) = (p, e') →
       ∃ k1, dma_buf_vmap (Addr d) k = Ret p k1
             ∧ trace k1 = trace k ++ [EvVmap d]
             ∧ ext k1 = e'
             ∧ (IS_ERR_OR_NULL p = true → bufs k1 = bufs k)
             ∧ (IS_ERR_OR_NULL p = false →
                bufs k1 !! d = Some (with_vmapping_counter 1 (with_vmap_ptr p b))
                ∧ ∀ n : nat, 1 + Z.of_nat n < UINT_MODULUS →
                    ∃ k2 b2,
                      calls n (dma_buf_vmap (Addr d)) k1 = Ret (replicate n p) k2
                      ∧ trace k2 = trace k1 ∧ ext k2 = ext k1
                      ∧ bufs k2 !! d = Some b2
                      ∧ vmap_ptr b2 = p
                      ∧ vmapping_counter b2 = 1 + Z.of_nat n))
  ∧ (∀ hook,
       vmap o = Some hook → vmapping_counter b ≠ 0 → vmap_ptr b ≠ NULL →
       ∃ k1, dma_buf_vmap (Addr d) k = Ret (vmap_ptr b) k1
             ∧ trace k1 = trace k ∧ ext k1 = ext k
             ∧ bufs k1 !! d =
                 Some (with_vmapping_counter (uint (vmapping_counter b + 1)) b))
  ∧ (∀ hook,
       vmap o = Some hook → vmapping_counter b = UINT_MODULUS - 1 →
       vmap_ptr b ≠ NULL →
       ∃ k1, dma_buf_vmap (Addr d) k = Ret (vmap_ptr b) k1
             ∧ bufs k1 !! d = Some (with_vmapping_counter 0 b)
             ∧ dma_buf_vmap (Addr d) k1 = Bug).
Proof.
  intros Hb Ho. split_and!.
  - intros Hh. by eapply dma_buf_vmap_absent.
  - intros hook p e' Hh Hc Hp Hcall.
    destruct (IS_ERR_OR_NULL p) eqn:Herr.
    + eexists. split; [by eapply dma_buf_vmap_failed|]. by split_and!.
    + eexists. split; [by eapply dma_buf_vmap_first|]. split_and!; try done.
      intros _. split; [apply lookup_insert_eq|].
      intros n Hn.
      eexists _, (with_vmapping_counter (1 + Z.of_nat n)
                    (with_vmapping_counter 1 (with_vmap_ptr p b))).
      split.
      { eapply (dma_buf_vmap_subsequent n _ d
                  (with_vmapping_counter 1 (with_vmap_ptr p b)) o hook);
          simpl; try done; try lia.
        - apply lookup_insert_eq.
        - by destruct p. }
      simpl. split_and!; try done. apply lookup_insert_eq.
  - intros hook Hh Hc Hp. eexists.
    split; [by eapply dma_buf_vmap_again|].
    simpl. split_and!; try done. apply lookup_insert_eq.
  - intros hook Hh Hc Hp. eexists. split.
    { eapply dma_buf_vmap_again; try done. rewrite Hc. unfold UINT_MODULUS. lia. }
    assert (uint (vmapping_counter b + 1) = 0) as Hwrap.
    { rewrite Hc. unfold uint. replace (UINT_MODULUS - 1 + 1) with UINT_MODULUS by lia.
      apply Z.mod_same. unfold UINT_MODULUS. lia. }
    rewrite Hwrap. simpl. split; [apply lookup_insert_eq|].
    assert (is_null (vmap_ptr b) = false) as Hnn by (by destruct (vmap_ptr b)).
    unfold dma_buf_vmap. by go.
Qed.

Lemma cached_pointer_Some b vaddr :
  cached_pointer b = Some vaddr ↔ vmap_ptr b = vaddr ∧ vaddr ≠ NULL.
Proof.
  unfold cached_pointer. destruct (vmap_ptr b) eqn:Hp; simpl; split;
    try (intros [= <-]; done); try (intros [<- ?]; done).
Qed.

Lemma dma_buf_vunmap_keeps k d b vaddr :
  bufs k !! d = Some b → cached_pointer b = Some vaddr →
  1 < vmapping_counter b < UINT_MODULUS →
  dma_buf_vunmap (Addr d) vaddr k =
    Ret tt (set_bufs (<[d := with_vmapping_counter (vmapping_counter b - 1) b]>
                        (bufs k)) k).
Proof.
  intros Hb [Hp Hn]%cached_pointer_Some Hc.
  assert (is_null vaddr = false) by (by destruct vaddr).
  assert ((vmapping_counter b =? 0) = false) by (apply Z.eqb_neq; lia).
  assert (uint (vmapping_counter b - 1) = vmapping_counter b - 1)
    by (apply uint_small; lia).
  assert ((vmapping_counter b - 1 =? 0) = false) by (apply Z.eqb_neq; lia).
  assert (bool_decide (vaddr = vaddr) = true) by (by apply bool_decide_eq_true_2).
  unfold dma_buf_vunmap. by go.
Qed.

Lemma dma_buf_vunmap_last k d b o vaddr :
  bufs k !! d = Some b → ops b = Some o → cached_pointer b = Some vaddr →
  vmapping_counter b = 1 →
  dma_buf_vunmap (Addr d) vaddr k =
    Ret tt
      (mk_kernel (alloc_oracle k)
         (<[d := with_vmap_ptr NULL (with_vmapping_counter 0 b)]> (bufs k))
         (atts k) (files k)
         (match vunmap o with
          | Some hook => hook d vaddr (ext k)
          | None => ext k
          end)
         (match vunmap o with
          | Some _ => trace k ++ [EvVunmap d vaddr]
          | None => trace k
          end)).
Proof.
  intros Hb Ho [Hp Hn]%cached_pointer_Some Hc.
  assert (is_null vaddr = false) by (by destruct vaddr).
  assert (bool_decide (vaddr = vaddr) = true) by (by apply bool_decide_eq_true_2).
  unfold dma_buf_vunmap. go. change (uint (1 - 1)) with 0. go.
  destruct (vunmap o); go; by rewrite insert_insert_eq.
Qed.

Lemma dma_buf_vunmap_fatal k d b vaddr :
  bufs k !! d = Some b →
  vmap_ptr b ≠ vaddr ∨ vmapping_counter b = 0 →
  dma_buf_vunmap (Addr d) vaddr k = Bug.
Proof.
  intros Hb H. unfold dma_buf_vunmap. run. rewrite Hb. run.
  destruct (is_null (vmap_ptr b)); [done|]. run.
  destruct (Z.eqb_spec (vmapping_counter b) 0) as [|Hc]; [done|]. run.
  destruct H as [H|H]; [|done].
  by rewrite bool_decide_eq_false_2.
Qed.

(** The vmap cache stays well formed: whenever the counter is not zero a
    pointer is cached.  [dma_buf_export] starts with the counter at zero
    and the two functions that touch the cache keep the invariant. *)
Lemma dma_buf_vmap_cache_ok k d b p k' :
  bufs k !! d = Some b → vmap_cache_ok b →
  dma_buf_vmap (Addr d) k = Ret p k' →
  ∃ b', bufs k' !! d = Some b' ∧ vmap_cache_ok b'.
Proof.
  intros Hb Hinv. unfold dma_buf_vmap. go.
  destruct (ops b) as [o|]; go; [|done].
  destruct (vmap o) as [hook|]; go; [|intros Heq; simplify_eq; eauto].
  destruct (Z.eqb_spec (vmapping_counter b) 0) as [Hz|Hnz]; go.
  - destruct (is_null (vmap_ptr b)); go; [|done].
    destruct (hook d (ext k)) as [p' e'] eqn:Hcall; go.
    destruct (IS_ERR_OR_NULL p') eqn:Herr; go; intros Heq; simplify_eq; simpl.
    + by exists b.
    + eexists. split; [apply lookup_insert_eq|]. intros _. simpl.
      by destruct p.
  - destruct (vmap_ptr b) eqn:Hp; go; [done|..]; intros Heq; simplify_eq; simpl;
      (eexists; split; [apply lookup_insert_eq|]); intros _; simpl;
      rewrite Hp; discriminate.
Qed.

Lemma dma_buf_vunmap_cache_ok k d b vaddr k' :
  bufs k !! d = Some b → vmap_cache_ok b →
  dma_buf_vunmap (Addr d) vaddr k = Ret tt k' →
  ∃ b', bufs k' !! d = Some b' ∧ vmap_cache_ok b'.
Proof.
  intros Hb Hinv. unfold dma_buf_vunmap. go.
  destruct (vmap_ptr b) eqn:Hp; go; [done|..];
    (destruct (vmapping_counter b =? 0); go; [done|]);
    (destruct (bool_decide _); go; [|done]);
    (destruct (uint (vmapping_counter b - 1) =? 0) eqn:Hc; go;
     [ destruct (ops b) as [o|]; go; [|done];
       destruct (vunmap o); go; intros Heq; simplify_eq; simpl;
       (eexists; split; [apply lookup_insert_eq|]); simpl;
       apply Z.eqb_eq in Hc; intros Hne; done
     | intros Heq; simplify_eq; simpl;
       (eexists; split; [apply lookup_insert_eq|]); intros _; simpl;
       rewrite Hp; discriminate ]).
Qed.

(** C4.  With a vmap counter that is not zero and [vaddr] equal to the
    cached pointer, [dma_buf_vunmap] returns (no [BUG_ON] fires) and counts
    one down; exactly when the counter reaches zero it calls the vunmap
    hook, if there is one, and clears the cached pointer.  After two
    [dma_buf_vmap] calls two matching [dma_buf_vunmap] calls call the
    hook once, in the second call only.  A [vaddr] other than the cached
    pointer and a counter that is already zero trip [BUG_ON]. *)
Theorem dma_buf_vunmap_spec (k : kernel) (d : Z) (b : dma_buf) (o : dma_buf_ops)
    (vaddr : pointer) :
  bufs k !! d = Some b → ops b = Some o →
  (cached_pointer b = Some vaddr → 0 < vmapping_counter b < UINT_MODULUS →
   ∃ k' b',
     dma_buf_vunmap (Addr d) vaddr k = Ret tt k'
     ∧ bufs k' !! d = Some b'
     ∧ vmapping_counter b' = vmapping_counter b - 1
     ∧ (vmapping_counter b' ≠ 0 →
        vmap_ptr b' = vmap_ptr b ∧ trace k' = trace k ∧ ext k' = ext k)
     ∧ (vmapping_counter b' = 0 →
        vmap_ptr b' = NULL
        ∧ match vunmap o with
          | Some hook =>
              trace k' = trace k ++ [EvVunmap d vaddr]
              ∧ ext k' = hook d vaddr (ext k)
          | None => trace k' = trace k ∧ ext k' = ext k
          end))
  ∧ (∀ hv hu e',
       vmap o = Some hv → vunmap o = Some hu →
       vmapping_counter b = 0 → vmap_ptr b = NULL →
       hv d (ext k) = (vaddr, e') → IS_ERR_OR_NULL vaddr = false →
       ∃ k1 k2 k3 k4,
         dma_buf_vmap (Addr d) k = Ret vaddr k1
         ∧ dma_buf_vmap (Addr d) k1 = Ret vaddr k2
         ∧ dma_buf_vunmap (Addr d) vaddr k2 = Ret tt k3
         ∧ dma_buf_vunmap (Addr d) vaddr k3 = Ret tt k4
         ∧ trace k2 = trace k ++ [EvVmap d]
         ∧ trace k3 = trace k2
         ∧ trace k4 = trace k2 ++ [EvVunmap d vaddr]
         ∧ count is_vunmap_ev (trace k4) = S (count is_vunmap_ev (trace k)))
  ∧ (vmap_ptr b ≠ vaddr → dma_buf_vunmap (Addr d) vaddr k = Bug)
  ∧ (vmapping_counter b = 0 → dma_buf_vunmap (Addr d) vaddr k = Bug).
Proof.
  intros Hb Ho. split_and!.
  - intros Hcache Hc.
    destruct (decide (vmapping_counter b = 1)) as [H1|H1].
    + eexists _, _. split; [by eapply dma_buf_vunmap_last|]. simpl.
      split; [apply lookup_insert_eq|]. simpl. split_and!; [lia|done|].
      intros _. split; [done|]. by destruct (vunmap o).
    + eexists _, _. split; [eapply dma_buf_vunmap_keeps; [done..|lia]|]. simpl.
      split; [apply lookup_insert_eq|]. simpl. split_and!; [done|done|lia].
  - intros hv hu e' Hv Hu Hc Hp Hcall Herr.
    assert (vaddr ≠ NULL) as Hnn by (by destruct vaddr).
    eexists _, _, _, _.
    split; [by eapply dma_buf_vmap_first|].
    split.
    { eapply (dma_buf_vmap_again _ d
                (with_vmapping_counter 1 (with_vmap_ptr vaddr b)) o hv);
        simpl; try done. apply lookup_insert_eq. }
    change (uint (vmapping_counter
                    (with_vmapping_counter 1 (with_vmap_ptr vaddr b)) + 1))
      with 2.
    split.
    { eapply (dma_buf_vunmap_keeps _ d
                (with_vmapping_counter 2
                   (with_vmapping_counter 1 (with_vmap_ptr vaddr b))) vaddr);
        simpl.
      - apply lookup_insert_eq.
      - by apply cached_pointer_Some.
      - unfold UINT_MODULUS. lia. }
    split.
    { eapply (dma_buf_vunmap_last _ d _ o vaddr); simpl.
      - apply lookup_insert_eq.
      - done.
      - by apply cached_pointer_Some.
      - done. }
    rewrite Hu. simpl. split_and!; try done.
    rewrite !count_app. simpl.
    change (count is_vunmap_ev [EvVmap d]) with 0%nat.
    change (count is_vunmap_ev [EvVunmap d vaddr]) with 1%nat. lia.
  - intros H. eapply dma_buf_vunmap_fatal; eauto.
  - intros H. eapply dma_buf_vunmap_fatal; eauto.
Qed.

(** *** mmap *)

Lemma ulong_range z : 0 ≤ BITS_PER_LONG → 0 ≤ ulong z < 2 ^ BITS_PER_LONG.
Proof.
  intros HB. unfold ulong. apply Z.mod_pos_bound.
  by apply Z.pow_pos_nonneg.
Qed.

Lemma vma_pages_range v :
  0 ≤ BITS_PER_LONG → 0 ≤ PAGE_SHIFT → 0 ≤ vma_pages v < 2 ^ BITS_PER_LONG.
Proof.
  intros HB HP. unfold vma_pages. rewrite Z.shiftr_div_pow2 by done.
  pose proof (ulong_range (vm_end v - vm_start v) HB) as Hr.
  assert (0 < 2 ^ PAGE_SHIFT) as Hpos by (by apply Z.pow_pos_nonneg).
  split; [apply Z.div_pos; lia|].
  apply Z.div_lt_upper_bound; [done|]. nia.
Qed.

(** The overflow test of [dma_buf_mmap] fires exactly when the sum does
    not fit an [unsigned long]. *)
Lemma ulong_add_wraps a p :
  0 ≤ BITS_PER_LONG → 0 ≤ a < 2 ^ BITS_PER_LONG → 0 ≤ p < 2 ^ BITS_PER_LONG →
  (ulong (a + p) <? a) = true ↔ 2 ^ BITS_PER_LONG ≤ a + p.
Proof.
  intros HB Ha Hp. rewrite Z.ltb_lt. unfold ulong.
  destruct (Z_lt_le_dec (a + p) (2 ^ BITS_PER_LONG)) as [Hlt|Hge].
  - rewrite Z.mod_small by lia. lia.
  - replace (a + p) with (a + p - 2 ^ BITS_PER_LONG + 1 * 2 ^ BITS_PER_LONG) by lia.
    rewrite Z_mod_plus_full. rewrite Z.mod_small by lia. lia.
Qed.

Lemma ulong_add_fits a p :
  0 ≤ a → 0 ≤ p → a + p < 2 ^ BITS_PER_LONG → ulong (a + p) = a + p.
Proof. intros Ha Hp Hlt. unfold ulong. apply Z.mod_small. lia. Qed.

(** C5.  For a buffer and a region: when the page offset plus the page
    count of the region does not fit an [unsigned long], [dma_buf_mmap]
    returns [-EOVERFLOW]; when the sum fits and exceeds the size of the
    buffer in pages it returns [-EINVAL]; in both cases the region and the
    kernel state stay as they were.  Otherwise it drops the file the
    region pointed to, points the region at the file of the buffer, on
    which it takes a reference, sets the page offset of the region and
    returns what the mmap hook of the exporter returns for that region. *)
Theorem dma_buf_mmap_spec (k : kernel) (d : Z) (b : dma_buf)
    (v : vm_area_struct) (pgoff : Z) :
  0 ≤ BITS_PER_LONG → 0 ≤ PAGE_SHIFT → 0 ≤ pgoff < 2 ^ BITS_PER_LONG →
  bufs k !! d = Some b →
  (2 ^ BITS_PER_LONG ≤ pgoff + vma_pages v →
   dma_buf_mmap (Addr d) (Some v) pgoff k = Ret (- EOVERFLOW, Some v) k)
  ∧ (pgoff + vma_pages v < 2 ^ BITS_PER_LONG →
     pgoff + vma_pages v > size b / 2 ^ PAGE_SHIFT →
     dma_buf_mmap (Addr d) (Some v) pgoff k = Ret (- EINVAL, Some v) k)
  ∧ (pgoff + vma_pages v < 2 ^ BITS_PER_LONG →
     pgoff + vma_pages v ≤ size b / 2 ^ PAGE_SHIFT →
     ∀ k1 b1 f fl o hook r e',
       drop_vm_file v k = Ret tt k1 →
       bufs k1 !! d = Some b1 → file_of b1 = Addr f → files k1 !! f = Some fl →
       ops b1 = Some o → mmap o = Some hook →
       hook d (rebound v (Addr f) pgoff) (ext k1) = (r, e') →
       dma_buf_mmap (Addr d) (Some v) pgoff k =
         Ret (r, Some (rebound v (Addr f) pgoff))
             (mk_kernel (alloc_oracle k1) (bufs k1) (atts k1)
                (<[f := with_f_count (f_count fl + 1) fl]> (files k1)) e'
                (trace k1 ++ [EvMmap d (rebound v (Addr f) pgoff)]))).
Proof.
  intros HB HP Hoff Hb.
  pose proof (vma_pages_range v HB HP) as Hpages.
  split_and!.
  - intros Hwrap. unfold dma_buf_mmap. simpl.
    apply (ulong_add_wraps pgoff (vma_pages v) HB Hoff Hpages) in Hwrap.
    by rewrite Hwrap.
  - intros Hfit Hbig. unfold dma_buf_mmap. simpl.
    destruct (ulong (pgoff + vma_pages v) <? pgoff) eqn:Hw.
    { apply (ulong_add_wraps pgoff (vma_pages v) HB Hoff Hpages) in Hw. lia. }
    rewrite ulong_add_fits by lia.
    unfold bind at 1. unfold load_buf at 1. rewrite Hb.
    rewrite Z.shiftr_div_pow2 by done.
    destruct (Z.gtb_spec (pgoff + vma_pages v) (size b / 2 ^ PAGE_SHIFT)); [done|lia].
  - intros Hfit Hsmall k1 b1 f fl o hook r e' Hdrop Hb1 Hf Hfl Ho Hh Hcall.
    unfold dma_buf_mmap. simpl.
    destruct (ulong (pgoff + vma_pages v) <? pgoff) eqn:Hw.
    { apply (ulong_add_wraps pgoff (vma_pages v) HB Hoff Hpages) in Hw. lia. }
    rewrite ulong_add_fits by lia.
    unfold bind at 1. unfold load_buf at 1. rewrite Hb.
    rewrite Z.shiftr_div_pow2 by done.
    destruct (Z.gtb_spec (pgoff + vma_pages v) (size b / 2 ^ PAGE_SHIFT)); [lia|].
    fold (drop_vm_file v). rewrite (bind_Ret _ _ _ _ _ Hdrop).
    unfold get_file, rebound in *. by go.
Qed.

(** *** poll *)

Lemma dma_buf_poll_event k f d r :
  handle_of k f d → robj_at k d r → poll_event r = true →
  ∃ k', dma_buf_poll (Addr f) k = Ret POLL_READY k'
        ∧ robj_at k' d (mk_robj (locked r) (accessed_type r) true false (poll_wait r))
        ∧ handle_of k' f d ∧ trace k' = trace k.
Proof.
  intros (fl & Hfl & Hop & Hpd) (b & Hb & Hs) He.
  unfold dma_buf_poll. go. eexists. split; [reflexivity|]. split_and!; try done.
  - eexists. run. by split.
  - by exists fl.
Qed.

Lemma dma_buf_poll_idle k f d r :
  handle_of k f d → robj_at k d r → poll_event r = false → locked r = false →
  ∃ k', dma_buf_poll (Addr f) k = Ret POLLERR k'
        ∧ robj_at k' d (with_polled true r)
        ∧ handle_of k' f d ∧ trace k' = trace k.
Proof.
  intros (fl & Hfl & Hop & Hpd) (b & Hb & Hs) He Hl.
  unfold dma_buf_poll. go. eexists. split; [reflexivity|]. split_and!; try done.
  - eexists. run. by split.
  - by exists fl.
Qed.

Lemma dma_buf_poll_waits k f d r :
  handle_of k f d → robj_at k d r → poll_event r = false → locked r = true →
  ∃ k', dma_buf_poll (Addr f) k = Ret 0 k'
        ∧ robj_at k' d (mk_robj true (accessed_type r) true false
                                (poll_wait r ++ [current]))
        ∧ handle_of k' f d ∧ trace k' = trace k ++ [EvPollWait d current].
Proof.
  intros (fl & Hfl & Hop & Hpd) (b & Hb & Hs) He Hl.
  unfold dma_buf_poll, poll_wait_register. go.
  eexists. split; [reflexivity|]. split_and!; try done.
  - eexists. run. by split.
  - by exists fl.
Qed.

Lemma dmabuf_sync_single_unlock_locked k f d r :
  handle_of k f d → robj_at k d r → locked r = true →
  ∃ k', dmabuf_sync_single_unlock (Addr d) k = Ret tt k'
        ∧ robj_at k' d (mk_robj false (accessed_type r) (polled r) true [])
        ∧ handle_of k' f d.
Proof.
  intros (fl & Hfl & Hop & Hpd) (b & Hb & Hs) Hl.
  unfold dmabuf_sync_single_unlock. go.
  eexists. split; [reflexivity|]. split.
  - eexists. run. by split.
  - by exists fl.
Qed.

Lemma dmabuf_sync_single_lock_free k f d r ty wait :
  handle_of k f d → robj_at k d r → locked r = false →
  ∃ k', dmabuf_sync_single_lock (Addr d) ty wait k = Ret 0 k'
        ∧ robj_at k' d (mk_robj true ty (polled r) (poll_event r) (poll_wait r))
        ∧ handle_of k' f d
        ∧ trace k' = trace k ++ [EvSingleLock d ty wait].
Proof.
  intros (fl & Hfl & Hop & Hpd) (b & Hb & Hs) Hl.
  unfold dmabuf_sync_single_lock. go.
  eexists. split; [reflexivity|]. split_and!; try done.
  - eexists. run. by split.
  - by exists fl.
Qed.

(** Without a pending edge [dma_buf_poll] does not report ready, however
    often it is asked. *)
Lemma dma_buf_poll_quiet n : ∀ k f d r,
  handle_of k f d → robj_at k d r → poll_event r = false →
  ∃ k' r',
    calls n (dma_buf_poll (Addr f)) k =
      Ret (replicate n (if locked r then 0 else POLLERR)) k'
    ∧ robj_at k' d r' ∧ poll_event r' = false ∧ locked r' = locked r
    ∧ handle_of k' f d.
Proof.
  induction n as [|n IH]; intros k f d r Hh Hr He.
  - exists k, r. by split_and!.
  - destruct (locked r) eqn:Hl.
    + destruct (dma_buf_poll_waits k f d r Hh Hr He Hl) as (k1 & Hrun & Hr1 & Hh1 & _).
      destruct (IH _ _ _ _ Hh1 Hr1 eq_refl) as (k2 & r2 & Hrun2 & Hr2 & He2 & Hl2 & Hh2).
      exists k2, r2. simpl. rewrite (bind_Ret _ _ _ _ _ Hrun).
      rewrite (bind_Ret _ _ _ _ _ Hrun2). by split_and!.
    + destruct (dma_buf_poll_idle k f d r Hh Hr He Hl) as (k1 & Hrun & Hr1 & Hh1 & _).
      destruct (IH _ _ _ _ Hh1 Hr1 He) as (k2 & r2 & Hrun2 & Hr2 & He2 & Hl2 & Hh2).
      exists k2, r2. simpl. rewrite (bind_Ret _ _ _ _ _ Hrun).
      rewrite (bind_Ret _ _ _ _ _ Hrun2). simpl in *. rewrite Hl in *.
      by split_and!.
Qed.

(** C6.  [dma_buf_poll] on a buffer with synchronization state: with the
    poll-edge flag set it clears the flag and reports readable and
    writable; unlocked without a pending edge it reports [POLLERR];
    locked without a pending edge it puts the caller on the waiter queue
    and reports nothing ready.  So after one Unlock the first poll
    reports ready and the polls after it do not: they report [POLLERR]
    while the buffer stays unlocked and nothing ready once it is locked
    again. *)
Theorem dma_buf_poll_spec (k : kernel) (f d : Z) (r : dmabuf_sync_reservation) :
  handle_of k f d → robj_at k d r →
  (poll_event r = true →
   ∃ k', dma_buf_poll (Addr f) k = Ret POLL_READY k'
         ∧ robj_at k' d (mk_robj (locked r) (accessed_type r) true false
                                 (poll_wait r))
         ∧ trace k' = trace k)
  ∧ (poll_event r = false → locked r = false →
     ∃ k', dma_buf_poll (Addr f) k = Ret POLLERR k'
           ∧ robj_at k' d (with_polled true r) ∧ trace k' = trace k)
  ∧ (poll_event r = false → locked r = true →
     ∃ k', dma_buf_poll (Addr f) k = Ret 0 k'
           ∧ robj_at k' d (mk_robj true (accessed_type r) true false
                                   (poll_wait r ++ [current]))
           ∧ trace k' = trace k ++ [EvPollWait d current])
  ∧ (locked r = true →
     ∃ k1 k2,
       dmabuf_sync_single_unlock (Addr d) k = Ret tt k1
       ∧ dma_buf_poll (Addr f) k1 = Ret POLL_READY k2
       ∧ ∀ n : nat, ∃ k3,
           calls n (dma_buf_poll (Addr f)) k2 = Ret (replicate n POLLERR) k3
           ∧ ∀ ty wait (m : nat), ∃ k4 k5,
               dmabuf_sync_single_lock (Addr d) ty wait k3 = Ret 0 k4
               ∧ calls m (dma_buf_poll (Addr f)) k4 = Ret (replicate m 0) k5).
Proof.
  intros Hh Hr. split_and!.
  - intros He. destruct (dma_buf_poll_event k f d r Hh Hr He) as (k' & ? & ? & ? & ?).
    by exists k'.
  - intros He Hl.
    destruct (dma_buf_poll_idle k f d r Hh Hr He Hl) as (k' & ? & ? & ? & ?).
    by exists k'.
  - intros He Hl.
    destruct (dma_buf_poll_waits k f d r Hh Hr He Hl) as (k' & ? & ? & ? & ?).
    by exists k'.
  - intros Hl.
    destruct (dmabuf_sync_single_unlock_locked k f d r Hh Hr Hl)
      as (k1 & Hun & Hr1 & Hh1).
    destruct (dma_buf_poll_event k1 f d _ Hh1 Hr1 eq_refl)
      as (k2 & Hp & Hr2 & Hh2 & _).
    exists k1, k2. split_and!; try done.
    intros n.
    destruct (dma_buf_poll_quiet n k2 f d _ Hh2 Hr2 eq_refl)
      as (k3 & r3 & Hq & Hr3 & He3 & Hl3 & Hh3).
    exists k3. split; [done|].
    intros ty wait m. simpl in Hl3.
    destruct (dmabuf_sync_single_lock_free k3 f d r3 ty wait Hh3 Hr3 Hl3)
      as (k4 & Hlk & Hr4 & Hh4 & _).
    destruct (dma_buf_poll_quiet m k4 f d _ Hh4 Hr4 He3)
      as (k5 & r5 & Hq5 & _).
    by exists k4, k5.
Qed.

(** *** Attachments *)

(** C7.  [dma_buf_attach] on a buffer and a device, both not null, once
    the attachment record is allocated: when the exporter has an attach
    hook and the hook fails, the record is freed again, the error of the
    hook comes back and the buffer and its attachment list are as before;
    when the hook succeeds or there is none, the record, which refers to
    the buffer and the device, is put on the attachment list of the buffer
    and returned.  When the record cannot be allocated the call fails
    with [-ENOMEM] and nothing has changed. *)
Theorem dma_buf_attach_spec (k : kernel) (d : Z) (b : dma_buf) (o : dma_buf_ops)
    (dev_ : pointer) :
  dev_ ≠ NULL → bufs k !! d = Some b → ops b = Some o →
  (∀ orc hook r e',
     alloc_oracle k = true :: orc →
     attach o = Some hook → hook d dev_ (fresh (live k)) (ext k) = (r, e') →
     r ≠ 0 →
     ∃ k', dma_buf_attach (Addr d) dev_ k = Ret (ERR_PTR r) k'
           ∧ atts k' = atts k ∧ bufs k' = bufs k ∧ files k' = files k
           ∧ trace k' = trace k ++ [EvAttach d dev_ (fresh (live k));
                                     EvKfree (fresh (live k))])
  ∧ (∀ orc,
       alloc_oracle k = true :: orc →
       (attach o = None
        ∨ ∃ hook e', attach o = Some hook
                     ∧ hook d dev_ (fresh (live k)) (ext k) = (0, e')) →
       ∃ k', dma_buf_attach (Addr d) dev_ k = Ret (Addr (fresh (live k))) k'
             ∧ atts k !! fresh (live k) = None
             ∧ atts k' !! fresh (live k) = Some (mk_attachment (Addr d) dev_)
             ∧ bufs k' !! d =
                 Some (with_attachments (fresh (live k) :: attachments b) b))
  ∧ (alloc_fails k →
     ∃ k', dma_buf_attach (Addr d) dev_ k = Ret (ERR_PTR (- ENOMEM)) k'
           ∧ atts k' = atts k ∧ bufs k' = bufs k ∧ files k' = files k
           ∧ trace k' = trace k).
Proof.
  intros Hdev Hb Ho.
  assert (is_null dev_ = false) as Hnull by (by destruct dev_).
  destruct (fresh_not_live k) as (_ & Hfresh & _).
  split_and!.
  - intros orc hook r e' Horc Hh Hcall Hr.
    unfold dma_buf_attach, kzalloc_attachment, kzalloc. rewrite Hnull. simpl.
    unfold bind at 1. rewrite Horc.
    assert ((r =? 0) = false) as Hrz by (by apply Z.eqb_neq).
    go. eexists. split; [reflexivity|]. simpl.
    split_and!; try done.
    + rewrite !delete_insert_eq. by apply delete_id.
    + by rewrite <- app_assoc.
  - intros orc Horc Hhook.
    unfold dma_buf_attach, kzalloc_attachment, kzalloc. rewrite Hnull. simpl.
    unfold bind at 1. rewrite Horc.
    destruct Hhook as [Hnone | (hook & e' & Hh & Hcall)]; go;
      (eexists; split; [reflexivity|]); run; by split_and!.
  - intros Hfail.
    destruct (alloc_fails_kzalloc
                (λ a k, set_atts (<[a := zeroed_attachment]> (atts k)) k) k Hfail)
      as (k' & Hk & ? & ? & ? & ? & ?).
    exists k'. unfold dma_buf_attach, kzalloc_attachment. rewrite Hnull. simpl.
    unfold bind. rewrite Hk. by split_and!.
Qed.

(** *** Descriptor control *)

Lemma dma_buf_get_info_always (k : kernel) (d : Z) (b : dma_buf) (info : dma_buf_info) :
  bufs k !! d = Some b →
  dma_buf_get_info d info k = Ret (0, mk_info 0 (size b)) k.
Proof. intros Hb. unfold dma_buf_get_info. by go. Qed.

(** C10, as amended.  [dma_buf_get_info] itself always returns 0 and
    reports [fence_supported = 0] together with the size of the buffer,
    whether or not the buffer has synchronization state.  The GetInfo
    ioctl on the handle of a buffer returns 0 and hands that report to the
    caller when the memory of the request can be read and written, and
    [-EFAULT] when it cannot. *)
Theorem dma_buf_get_info_spec (k : kernel) (f d : Z) (b : dma_buf)
    (arg : user_ptr dma_buf_info) :
  handle_of k f d → bufs k !! d = Some b →
  (∀ info, dma_buf_get_info d info k = Ret (0, mk_info 0 (size b)) k)
  ∧ (readable arg = true → writable arg = true →
     dma_buf_ioctl (Addr f) (DMABUF_IOCTL_GET_INFO arg) k =
       Ret (0, DMABUF_IOCTL_GET_INFO (mk_user true true (mk_info 0 (size b)))) k)
  ∧ (readable arg = false ∨ writable arg = false →
     dma_buf_ioctl (Addr f) (DMABUF_IOCTL_GET_INFO arg) k =
       Ret (- EFAULT, DMABUF_IOCTL_GET_INFO arg) k).
Proof.
  intros (fl & Hfl & Hop & Hpd) Hb. split_and!.
  - intros info. by apply dma_buf_get_info_always.
  - intros Hr Hw. unfold dma_buf_ioctl, dma_buf_get_info, copy_from_user, copy_to_user.
    by go.
  - intros Hrw. unfold dma_buf_ioctl, dma_buf_get_info, copy_from_user, copy_to_user.
    go. destruct (readable arg) eqn:Hr; [|by go].
    destruct Hrw as [?|Hw]; [done|]. by go.
Qed.


(** When [dmabuf_sync_init] fails, [dma_buf_get_fence] returns its [ret]
    without ever having assigned to it. *)
Lemma dma_buf_get_fence_init_failure (k : kernel) (d ty : Z) (s : pointer) (e1 : E) :
  dmabuf_sync_init SM (ext k) = (s, e1) → IS_ERR s = true →
  ∃ k', dma_buf_get_fence d (mk_fence NULL ty) k
        = Ret (uninitialized, mk_fence NULL ty) k'.
Proof.
  intros Hinit Herr. unfold dma_buf_get_fence, bind, log, call, ret. simpl.
  rewrite Hinit, Herr. by eexists.
Qed.

(** *** Advisory locks *)

(** [dma_buf_lock] on the handle of a buffer, test by test: an unlock
    request unlocks and returns 0, otherwise a write-lock request locks
    for writing and a read-lock request for reading, and the wait
    argument is the sleep flag of the request. *)
Lemma dma_buf_lock_dispatch (k : kernel) (f d cmd : Z) (fl : file_lock) :
  handle_of k f d →
  dma_buf_lock (Addr f) cmd fl k =
    (if has_bits (fl_type fl) F_UNLCK then
       dmabuf_sync_single_unlock (Addr d) ;;; ret 0
     else if has_bits (fl_type fl) F_WRLCK then
       dmabuf_sync_single_lock (Addr d) DMA_BUF_ACCESS_W
         (negb (Z.land (fl_flags fl) FL_SLEEP =? 0))
     else if has_bits (fl_type fl) F_RDLCK then
       dmabuf_sync_single_lock (Addr d) DMA_BUF_ACCESS_R
         (negb (Z.land (fl_flags fl) FL_SLEEP =? 0))
     else ret (- EINVAL)) k.
Proof.
  intros (fl' & Hfl & Hop & Hpd). unfold dma_buf_lock, has_bits.
  by go.
Qed.

(** When [F_RDLCK] is 0 every request passes the read-lock test, so the
    [-EINVAL] branch of [dma_buf_lock] is never taken. *)
Lemma dma_buf_lock_no_einval (k : kernel) (f d cmd : Z) (fl : file_lock) :
  F_RDLCK = 0 → handle_of k f d →
  dma_buf_lock (Addr f) cmd fl k =
    (if has_bits (fl_type fl) F_UNLCK then
       dmabuf_sync_single_unlock (Addr d) ;;; ret 0
     else
       dmabuf_sync_single_lock (Addr d)
         (if has_bits (fl_type fl) F_WRLCK then DMA_BUF_ACCESS_W
          else DMA_BUF_ACCESS_R)
         (negb (Z.land (fl_flags fl) FL_SLEEP =? 0))) k.
Proof.
  intros HR Hh. rewrite (dma_buf_lock_dispatch k f d cmd fl Hh).
  destruct (has_bits (fl_type fl) F_UNLCK); [done|].
  destruct (has_bits (fl_type fl) F_WRLCK); [done|].
  unfold has_bits. rewrite HR, Z.land_0_r. done.
Qed.

(** C9.  With the lock types of <asm-generic/fcntl.h>, where [F_RDLCK] is
    0, [F_WRLCK] is 1 and [F_UNLCK] is 2, a request whose type is 4, which
    is none of the three, is not refused with [-EINVAL]: on an unlocked
    buffer [dma_buf_lock] takes the lock for reading and returns 0. *)
Theorem dma_buf_lock_unknown_type (k : kernel) (f d cmd flags : Z)
    (r : dmabuf_sync_reservation) :
  F_RDLCK = 0 → F_WRLCK = 1 → F_UNLCK = 2 →
  handle_of k f d → robj_at k d r → locked r = false →
  ∃ k', dma_buf_lock (Addr f) cmd (mk_file_lock 4 flags) k = Ret 0 k'
        ∧ 0 ≠ - EINVAL
        ∧ robj_at k' d (mk_robj true DMA_BUF_ACCESS_R (polled r) (poll_event r)
                                (poll_wait r))
        ∧ trace k' = trace k ++ [EvSingleLock d DMA_BUF_ACCESS_R
                                   (negb (Z.land flags FL_SLEEP =? 0))].
Proof.
  intros HR HW HU Hh Hr Hl.
  rewrite (dma_buf_lock_no_einval k f d cmd _ HR Hh).
  unfold has_bits. rewrite HU, HW. simpl.
  destruct (dmabuf_sync_single_lock_free k f d r DMA_BUF_ACCESS_R
              (negb (Z.land flags FL_SLEEP =? 0)) Hh Hr Hl)
    as (k' & Hrun & Hr' & _ & Ht).
  exists k'. by split_and!.
Qed.

(** ** Further properties *)

#[local] Hint Unfold load_att list_del : dmabuf.

(** *** Attach and detach *)

Lemma dma_buf_attach_run k d b o dev_ orc :
  dev_ ≠ NULL → bufs k !! d = Some b → ops b = Some o →
  alloc_oracle k = true :: orc →
  (attach_answer o d dev_ (fresh (live k)) (ext k)).1 = 0 →
  dma_buf_attach (Addr d) dev_ k =
    Ret (Addr (fresh (live k)))
        (mk_kernel orc
           (<[d := with_attachments (fresh (live k) :: attachments b) b]> (bufs k))
           (<[fresh (live k) := mk_attachment (Addr d) dev_]> (atts k))
           (files k)
           (attach_answer o d dev_ (fresh (live k)) (ext k)).2
           (trace k ++ attach_trace o d dev_ (fresh (live k)))).
Proof.
  intros Hdev Hb Ho Horc Hok.
  assert (is_null dev_ = false) as Hnull by (by destruct dev_).
  unfold dma_buf_attach, kzalloc_attachment, kzalloc. rewrite Hnull. simpl.
  unfold bind at 1. rewrite Horc. go.
  unfold attach_answer, attach_trace in *.
  destruct (attach o) as [hook|]; simpl in *.
  - destruct (hook d dev_ (fresh (live k)) (ext k)) as [r e'] eqn:Hcall.
    simpl in Hok. subst r. go. by rewrite insert_insert_eq.
  - go. by rewrite insert_insert_eq, app_nil_r.
Qed.

Lemma dma_buf_detach_run k d b o a x d1 b1 :
  bufs k !! d = Some b → ops b = Some o →
  atts k !! a = Some x → dmabuf x = Addr d1 →
  bufs k !! d1 = Some b1 → a ∈ attachments b1 →
  dma_buf_detach (Addr d) (Addr a) k =
    Ret tt
        (mk_kernel (alloc_oracle k)
           (<[d1 := with_attachments (filter (λ n, n ≠ a) (attachments b1)) b1]>
              (bufs k))
           (delete a (atts k)) (files k)
           (detach_effect o d a (ext k))
           (trace k ++ [EvKfree a])).
Proof.
  intros Hb Ho Hx Hd Hb1 Hin.
  unfold dma_buf_detach, detach_effect. simpl.
  assert (bool_decide (a ∈ attachments b1) = true) as Hdec
    by (by apply bool_decide_eq_true_2).
  go.
  destruct (decide (d = d1)) as [->|Hne].
  - rewrite lookup_insert_eq. simplify_eq. go. destruct (detach o); by go.
  - rewrite lookup_insert_ne by done. go. destruct (detach o); by go.
Qed.

Lemma with_attachments_id (b : dma_buf) : with_attachments (attachments b) b = b.
Proof. by destruct b. Qed.

Lemma filter_ne_cons_fresh (a : Z) (l : list Z) :
  a ∉ l → filter (λ n, n ≠ a) (a :: l) = l.
Proof.
  intros Hnin. rewrite filter_cons_False by (intros H; by apply H).
  induction l as [|y l IH]; [done|].
  apply not_elem_of_cons in Hnin as [Hne Hnin].
  rewrite filter_cons_True by done. f_equal. by apply IH.
Qed.

Lemma fresh_not_attached k d b :
  attachments_wf k → bufs k !! d = Some b → fresh (live k) ∉ attachments b.
Proof.
  intros Hwf Hb Hin. destruct (Hwf d b Hb) as (_ & Hal).
  destruct (Hal _ Hin) as (x & Hx & _).
  destruct (fresh_not_live k) as (_ & Hf & _). congruence.
Qed.

(** X1.  Attach followed by detach is a round trip.  When the attachment
    lists are well formed and [dma_buf_attach] succeeds, [dma_buf_detach]
    of the record it returned leaves the buffers, the attachment records
    and the files exactly as they were before the attach; the exporter has
    seen the attach hook and then the detach hook, and the trace has the
    attach and the release of the record. *)
Theorem attach_detach_round_trip (k : kernel) (d : Z) (b : dma_buf)
    (o : dma_buf_ops) (dev_ : pointer) (orc : list bool) :
  attachments_wf k → dev_ ≠ NULL →
  bufs k !! d = Some b → ops b = Some o → alloc_oracle k = true :: orc →
  (attach_answer o d dev_ (fresh (live k)) (ext k)).1 = 0 →
  ∃ a k1 k2,
    dma_buf_attach (Addr d) dev_ k = Ret (Addr a) k1
    ∧ dma_buf_detach (Addr d) (Addr a) k1 = Ret tt k2
    ∧ bufs k2 = bufs k ∧ atts k2 = atts k ∧ files k2 = files k
    ∧ ext k2 = detach_effect o d a (attach_answer o d dev_ a (ext k)).2
    ∧ trace k2 = trace k ++ attach_trace o d dev_ a ++ [EvKfree a].
Proof.
  intros Hwf Hdev Hb Ho Horc Hok.
  pose proof (dma_buf_attach_run k d b o dev_ orc Hdev Hb Ho Horc Hok) as Hatt.
  eexists _, _, _. split; [exact Hatt|].
  erewrite dma_buf_detach_run; simpl;
    [ | apply lookup_insert_eq | exact Ho | apply lookup_insert_eq | reflexivity
      | apply lookup_insert_eq | simpl; by left ].
  simpl. split_and!; try done.
  - rewrite insert_insert_eq, filter_ne_cons_fresh
      by (by eapply fresh_not_attached).
    destruct b; simpl in *. by apply insert_id.
  - rewrite delete_insert_eq. apply delete_id. apply fresh_not_live.
  - by rewrite <- app_assoc.
Qed.

(** *** What the steps of a user preserve *)

Lemma lists_untouched_step_ok k k' : lists_untouched k k' → step_ok k k'.
Proof.
  intros [Ha Hb]. split_and!.
  - intros d b' Hl. destruct (Hb d b' Hl) as (b & ? & ? & _). eauto.
  - intros Hok d b' Hl. destruct (Hb d b' Hl) as (b & ? & _ & _ & Hc).
    apply Hc. by eapply Hok.
  - intros Hwf d b' Hl. destruct (Hb d b' Hl) as (b & Hl0 & _ & Hat & _).
    rewrite Hat, Ha. by apply (Hwf d b).
Qed.

Lemma step_ok_refl k : step_ok k k.
Proof.
  split_and!; try done. intros d b Hl. exists b. by split.
Qed.

Lemma lists_untouched_same k k' :
  bufs k' = bufs k → atts k' = atts k → lists_untouched k k'.
Proof.
  intros Hb Ha. split; [done|]. intros d b'. rewrite Hb. intros Hl.
  exists b'. by split_and!.
Qed.

Lemma lists_untouched_insert k k' d b b1 :
  bufs k !! d = Some b → bufs k' = <[d := b1]> (bufs k) → atts k' = atts k →
  same_identity b b1 → attachments b1 = attachments b →
  (vmap_cache_ok b → vmap_cache_ok b1) →
  lists_untouched k k'.
Proof.
  intros Hl Hb Ha Hi Hat Hc. split; [done|]. intros d' b'. rewrite Hb.
  destruct (decide (d' = d)) as [->|Hne].
  - rewrite lookup_insert_eq. intros [= <-]. by exists b.
  - rewrite lookup_insert_ne by done. intros Hl'. exists b'. by split_and!.
Qed.

Lemma lists_untouched_delete k k' d :
  bufs k' = delete d (bufs k) → atts k' = atts k → lists_untouched k k'.
Proof.
  intros Hb Ha. split; [done|]. intros d' b'. rewrite Hb.
  intros Hl. apply lookup_delete_Some in Hl as [_ Hl].
  exists b'. by split_and!.
Qed.

Lemma is_null_false p : is_null p = false → p ≠ NULL.
Proof. by destruct p. Qed.

(** Splits a computation into its paths. *)
Ltac crunch :=
  repeat (go; try done;
          match goal with
          | |- context [match ?x with _ => _ end] =>
              lazymatch x with
              | context [match _ with _ => _ end] => fail
              | _ => destruct x eqn:?
              end
          end);
  go; try done.

(** Closes a path that left lists and records alone. *)
Ltac untouched :=
  let H := fresh in
  intros H; simplify_eq; simpl;
  rewrite ?insert_insert_eq, ?delete_insert_eq;
  first
    [ by apply lists_untouched_same
    | by (eapply lists_untouched_delete; simpl; [reflexivity|done])
    | eapply lists_untouched_insert; simpl;
      [ eassumption | reflexivity | reflexivity | by split_and! | reflexivity | ] ].

Lemma IS_ERR_OR_NULL_false p : IS_ERR_OR_NULL p = false → p ≠ NULL.
Proof. by destruct p. Qed.

(** Closes what is left about the vmap cache. *)
Ltac cache_ok :=
  unfold vmap_cache_ok; simpl; intros;
  first
    [ by apply is_null_false
    | by apply IS_ERR_OR_NULL_false
    | match goal with
      | H : (_ =? 0) = true |- _ => apply Z.eqb_eq in H; done
      end
    | by auto ].

Lemma dma_buf_vmap_untouched p k r k' :
  dma_buf_vmap p k = Ret r k' → lists_untouched k k'.
Proof. unfold dma_buf_vmap. crunch; untouched; cache_ok. Qed.

Lemma dma_buf_vunmap_untouched p vaddr k k' :
  dma_buf_vunmap p vaddr k = Ret tt k' → lists_untouched k k'.
Proof. unfold dma_buf_vunmap. crunch; untouched; cache_ok. Qed.

Lemma get_dma_buf_untouched p k k' :
  get_dma_buf p k = Ret tt k' → lists_untouched k k'.
Proof. unfold get_dma_buf, get_file. crunch; untouched; cache_ok. Qed.

Lemma dma_buf_release_untouched p k r k' :
  dma_buf_release p k = Ret r k' → lists_untouched k k'.
Proof.
  unfold dma_buf_release, dmabuf_sync_reservation_fini.
  crunch; untouched; cache_ok.
Qed.

Lemma lists_untouched_proper k1 k1' k2 k2' :
  bufs k1 = bufs k1' → atts k1 = atts k1' →
  bufs k2 = bufs k2' → atts k2 = atts k2' →
  lists_untouched k1 k2 → lists_untouched k1' k2'.
Proof.
  unfold lists_untouched. intros <- <- <- <-. done.
Qed.

Lemma fput_untouched p k k' :
  fput p k = Ret tt k' → lists_untouched k k'.
Proof.
  unfold fput. crunch; [|untouched..].
  intros [= <-].
  eapply lists_untouched_proper;
    [ | | | | eapply dma_buf_release_untouched; eassumption ]; done.
Qed.

Lemma dma_buf_put_untouched p k k' :
  dma_buf_put p k = Ret tt k' → lists_untouched k k'.
Proof.
  unfold dma_buf_put. destruct p as [|d|]; run; [untouched| |done].
  destruct (bufs k !! d) as [b|]; [|done]. run.
  destruct (is_null (file_of b)); run; [untouched|]. apply fput_untouched.
Qed.

Lemma dma_buf_poll_untouched p k r k' :
  dma_buf_poll p k = Ret r k' → lists_untouched k k'.
Proof.
  unfold dma_buf_poll, poll_wait_register.
  crunch; untouched; cache_ok.
Qed.

Lemma dma_buf_begin_cpu_access_untouched p start len direction k r k' :
  dma_buf_begin_cpu_access p start len direction k = Ret r k' →
  lists_untouched k k'.
Proof. unfold dma_buf_begin_cpu_access. crunch; untouched. Qed.

Lemma dma_buf_end_cpu_access_untouched p start len direction k k' :
  dma_buf_end_cpu_access p start len direction k = Ret tt k' →
  lists_untouched k k'.
Proof. unfold dma_buf_end_cpu_access. crunch; untouched. Qed.

Lemma dma_buf_kmap_untouched p n k r k' :
  dma_buf_kmap p n k = Ret r k' → lists_untouched k k'.
Proof. unfold dma_buf_kmap. crunch; untouched. Qed.

Lemma dma_buf_kunmap_untouched p n vaddr k k' :
  dma_buf_kunmap p n vaddr k = Ret tt k' → lists_untouched k k'.
Proof. unfold dma_buf_kunmap. crunch; untouched. Qed.

Lemma dma_buf_kmap_atomic_untouched p n k r k' :
  dma_buf_kmap_atomic p n k = Ret r k' → lists_untouched k k'.
Proof. unfold dma_buf_kmap_atomic. crunch; untouched. Qed.

Lemma dma_buf_kunmap_atomic_untouched p n vaddr k k' :
  dma_buf_kunmap_atomic p n vaddr k = Ret tt k' → lists_untouched k k'.
Proof. unfold dma_buf_kunmap_atomic. crunch; untouched. Qed.

Lemma step_ok_attached k k' d b a x :
  bufs k !! d = Some b → atts k !! a = None → dmabuf x = Addr d →
  bufs k' = <[d := with_attachments (a :: attachments b) b]> (bufs k) →
  atts k' = <[a := x]> (atts k) →
  step_ok k k'.
Proof.
  intros Hb Ha Hx Hbufs Hatts. split_and!.
  - intros d' b'. rewrite Hbufs. destruct (decide (d' = d)) as [->|Hne].
    + rewrite lookup_insert_eq. intros [= <-]. by exists b.
    + rewrite lookup_insert_ne by done. intros Hl. exists b'. by split.
  - intros Hok d' b'. rewrite Hbufs. destruct (decide (d' = d)) as [->|Hne].
    + rewrite lookup_insert_eq. intros [= <-]. apply (Hok d b Hb).
    + rewrite lookup_insert_ne by done. apply Hok.
  - intros Hwf d' b'. rewrite Hbufs, Hatts.
    destruct (decide (d' = d)) as [->|Hne].
    + rewrite lookup_insert_eq. intros [= <-]. simpl.
      destruct (Hwf d b Hb) as (Hnd & Hal). split.
      * apply NoDup_cons. split; [|done].
        intros Hin. destruct (Hal a Hin) as (? & ? & _). congruence.
      * intros a' [->|Hin]%elem_of_cons.
        -- exists x. by rewrite lookup_insert_eq.
        -- destruct (Hal a' Hin) as (x' & Hx' & Hd').
           exists x'. rewrite lookup_insert_ne by congruence. done.
    + rewrite lookup_insert_ne by done. intros Hl.
      destruct (Hwf d' b' Hl) as (Hnd & Hal). split; [done|].
      intros a' Hin. destruct (Hal a' Hin) as (x' & Hx' & Hd').
      exists x'. rewrite lookup_insert_ne by congruence. done.
Qed.

Lemma step_ok_detached k k' d b a x :
  bufs k !! d = Some b → atts k !! a = Some x → dmabuf x = Addr d →
  bufs k' = <[d := with_attachments (filter (λ n, n ≠ a) (attachments b)) b]>
              (bufs k) →
  atts k' = delete a (atts k) →
  step_ok k k'.
Proof.
  intros Hb Ha Hx Hbufs Hatts. split_and!.
  - intros d' b'. rewrite Hbufs. destruct (decide (d' = d)) as [->|Hne].
    + rewrite lookup_insert_eq. intros [= <-]. by exists b.
    + rewrite lookup_insert_ne by done. intros Hl. exists b'. by split.
  - intros Hok d' b'. rewrite Hbufs. destruct (decide (d' = d)) as [->|Hne].
    + rewrite lookup_insert_eq. intros [= <-]. apply (Hok d b Hb).
    + rewrite lookup_insert_ne by done. apply Hok.
  - intros Hwf d' b'. rewrite Hbufs, Hatts.
    destruct (decide (d' = d)) as [->|Hne].
    + rewrite lookup_insert_eq. intros [= <-]. simpl.
      destruct (Hwf d b Hb) as (Hnd & Hal). split.
      * by apply NoDup_filter.
      * intros a' [Hne Hin]%list_elem_of_filter.
        destruct (Hal a' Hin) as (x' & Hx' & Hd').
        exists x'. rewrite lookup_delete_ne by done. done.
    + rewrite lookup_insert_ne by done. intros Hl.
      destruct (Hwf d' b' Hl) as (Hnd & Hal). split; [done|].
      intros a' Hin. destruct (Hal a' Hin) as (x' & Hx' & Hd').
      exists x'. rewrite lookup_delete_ne; [done|].
      intros <-. congruence.
Qed.

Lemma dma_buf_attach_step_ok p dev_ k r k' :
  dma_buf_attach p dev_ k = Ret r k' → step_ok k k'.
Proof.
  unfold dma_buf_attach, kzalloc_attachment, kzalloc.
  crunch; intros ?; simplify_eq; rewrite ?insert_insert_eq, ?delete_insert_eq.
  all: try (apply lists_untouched_step_ok; apply lists_untouched_same; simpl;
            [done|]; try done; apply delete_id, fresh_not_live).
  all: eapply step_ok_attached; simpl;
    [eassumption | apply fresh_not_live | | reflexivity | reflexivity]; done.
Qed.

Lemma dma_buf_detach_step_ok p q k k' :
  dma_buf_detach p q k = Ret tt k' → step_ok k k'.
Proof.
  unfold dma_buf_detach.
  crunch; intros ?; simplify_eq.
  - apply step_ok_refl.
  - eapply step_ok_detached; simpl; [eassumption..|reflexivity|reflexivity].
  - eapply step_ok_detached; simpl; [eassumption..|reflexivity|reflexivity].
Qed.

Lemma bind_ret_inv {A : Type} (m : M A) k k' :
  (m ;;; ret tt) k = Ret tt k' → ∃ a, m k = Ret a k'.
Proof.
  unfold bind, ret. destruct (m k); intros; simplify_eq; eauto.
Qed.

Lemma run_op_step_ok d op k k' : run_op d op k = Ret tt k' → step_ok k k'.
Proof.
  destruct op; unfold run_op.
  - intros [a H]%bind_ret_inv. by eapply dma_buf_attach_step_ok.
  - apply dma_buf_detach_step_ok.
  - intros [a H]%bind_ret_inv.
    by eapply lists_untouched_step_ok, dma_buf_vmap_untouched.
  - intros H. by eapply lists_untouched_step_ok, dma_buf_vunmap_untouched.
  - intros H. by eapply lists_untouched_step_ok, get_dma_buf_untouched.
  - intros H. by eapply lists_untouched_step_ok, dma_buf_put_untouched.
  - intros [a H]%bind_ret_inv.
    by eapply lists_untouched_step_ok, dma_buf_poll_untouched.
  - intros [a H]%bind_ret_inv.
    by eapply lists_untouched_step_ok, dma_buf_begin_cpu_access_untouched.
  - intros H.
    by eapply lists_untouched_step_ok, dma_buf_end_cpu_access_untouched.
  - intros [a H]%bind_ret_inv.
    by eapply lists_untouched_step_ok, dma_buf_kmap_untouched.
  - intros H. by eapply lists_untouched_step_ok, dma_buf_kunmap_untouched.
Qed.

(** X2.  No step of a user breaks the attachment lists: if no record is
    listed twice and every listed record is alive and points back to the
    buffer that lists it, the same holds after any sequence of attach,
    detach, vmap, vunmap, get, put, poll and CPU-access calls that
    returns. *)
Theorem attachments_wf_invariant (d : Z) (l : list buffer_op) (k k' : kernel) :
  attachments_wf k → run_ops d l k = Ret tt k' → attachments_wf k'.
Proof.
  revert k. induction l as [|op l IH]; intros k Hwf; simpl.
  - by intros [= <-].
  - unfold bind. destruct (run_op d op k) as [[] k1| | |] eqn:Hop; try done.
    intros Hrest. apply (IH k1); [|done].
    by apply (run_op_step_ok d op k k1 Hop).
Qed.

(** X3.  No step of a user breaks the vmap cache: if every buffer with a
    vmap counter that is not zero has a cached pointer, the same holds
    after any sequence of calls that returns. *)
Theorem vmap_cache_invariant (d : Z) (l : list buffer_op) (k k' : kernel) :
  vmap_caches_ok k → run_ops d l k = Ret tt k' → vmap_caches_ok k'.
Proof.
  revert k. induction l as [|op l IH]; intros k Hok; simpl.
  - by intros [= <-].
  - unfold bind. destruct (run_op d op k) as [[] k1| | |] eqn:Hop; try done.
    intros Hrest. apply (IH k1); [|done].
    by apply (run_op_step_ok d op k k1 Hop).
Qed.

(** X4.  What [dma_buf_export] fixed stays fixed: no sequence of calls
    changes the size, the operation table, the private pointer or the
    file of a buffer, and none makes a buffer appear. *)
Theorem buffer_identity_immutable (d : Z) (l : list buffer_op) (k k' : kernel)
    (d' : Z) (b' : dma_buf) :
  run_ops d l k = Ret tt k' → bufs k' !! d' = Some b' →
  ∃ b, bufs k !! d' = Some b
       ∧ size b' = size b ∧ ops b' = ops b ∧ priv b' = priv b
       ∧ file_of b' = file_of b.
Proof.
  revert k. induction l as [|op l IH]; intros k; simpl.
  - intros [= <-] Hl. exists b'. by split_and!.
  - unfold bind. destruct (run_op d op k) as [[] k1| | |] eqn:Hop; try done.
    intros Hrest Hl.
    destruct (IH k1 Hrest Hl) as (b1 & Hb1 & Hs & Ho & Hp & Hf).
    destruct (run_op_step_ok d op k k1 Hop) as (Hpers & _).
    destruct (Hpers d' b1 Hb1) as (b & Hb & Hs0 & Ho0 & Hp0 & Hf0).
    exists b. split_and!; congruence.
Qed.

(** *** Export, once more *)

Lemma new_buffer_ok k k' d b0 :
  bufs k !! d = None → bufs k' = <[d := b0]> (bufs k) → atts k' = atts k →
  attachments b0 = [] → vmapping_counter b0 = 0 →
  (∀ d' b, bufs k !! d' = Some b → bufs k' !! d' = Some b)
  ∧ (attachments_wf k → attachments_wf k')
  ∧ (vmap_caches_ok k → vmap_caches_ok k').
Proof.
  intros Hd Hbufs Hatts Hl Hc. split_and!.
  - intros d' b Hb. rewrite Hbufs, lookup_insert_ne; [done|congruence].
  - intros Hwf d' b'. rewrite Hbufs, Hatts.
    destruct (decide (d' = d)) as [->|Hne].
    + rewrite lookup_insert_eq. intros [= <-]. rewrite Hl. split.
      * apply NoDup_nil_2.
      * intros a Hin. by apply elem_of_nil in Hin.
    + rewrite lookup_insert_ne by done. apply Hwf.
  - intros Hok d' b'. rewrite Hbufs.
    destruct (decide (d' = d)) as [->|Hne].
    + rewrite lookup_insert_eq. intros [= <-]. by intros ?.
    + rewrite lookup_insert_ne by done. apply Hok.
Qed.

(** X5.  [dma_buf_export] always returns, and whatever it returns it
    touches nothing that was there: the buffers, attachment records and
    files of before are as they were, no hook has run, the trace is as it
    was, and the attachment lists and vmap caches are still well formed. *)
Theorem dma_buf_export_frame (priv_ : pointer) (ops_ : option dma_buf_ops)
    (size_ flags : Z) (k : kernel) :
  ∃ r k',
    dma_buf_export priv_ ops_ size_ flags k = Ret r k'
    ∧ atts k' = atts k ∧ ext k' = ext k ∧ trace k' = trace k
    ∧ (∀ d b, bufs k !! d = Some b → bufs k' !! d = Some b)
    ∧ (∀ f fl, files k !! f = Some fl → files k' !! f = Some fl)
    ∧ (attachments_wf k → attachments_wf k')
    ∧ (vmap_caches_ok k → vmap_caches_ok k').
Proof.
  unfold dma_buf_export, kzalloc_dma_buf, anon_inode_getfile, kzalloc,
    dmabuf_sync_reservation_init.
  crunch; eexists _, _; (split; [reflexivity|]); simpl;
    rewrite ?insert_insert_eq; try (by split_and!).
  all: match goal with
       | |- context [vmap_caches_ok ?k1] =>
           tryif constr_eq k1 k then fail
           else destruct (new_buffer_ok k k1 (fresh (live k)) _
                            (proj1 (fresh_not_live k)) eq_refl eq_refl
                            eq_refl eq_refl) as (H1 & H2 & H3)
       end.
  all: split_and!; try done.
  intros f fl Hf. rewrite lookup_insert_ne; [done|]. intros <-.
  match type of Hf with
  | files k !! fresh (live ?k1) = _ =>
      destruct (fresh_not_live k1) as (_ & _ & Hnone)
  end.
  simpl in Hnone. congruence.
Qed.

(** X6.  [dma_buf_export] does not look at what [anon_inode_getfile]
    returns.  When the buffer is allocated and the file is not, the
    export still hands out the buffer, whose file is the error pointer;
    [dma_buf_fd] on that buffer installs the error pointer in the
    descriptor table, and [dma_buf_put] and [get_dma_buf] dereference
    it. *)
Theorem dma_buf_export_unchecked_file (priv_ : pointer)
    (ops_ : option dma_buf_ops) (size_ flags : Z) (k : kernel) (orc : list bool) :
  ¬ export_args_invalid priv_ ops_ →
  alloc_oracle k = true :: false :: orc →
  ∃ d k' b,
    dma_buf_export priv_ ops_ size_ flags k = Ret (Addr d) k'
    ∧ bufs k' !! d = Some b
    ∧ file_of b = ERR_PTR (- ENOMEM)
    ∧ files k' = files k
    ∧ dma_buf_put (Addr d) k' = Oops
    ∧ get_dma_buf (Addr d) k' = Oops
    ∧ ∀ fdt fd_flags,
        0 ≤ get_unused_fd_flags fd_flags fdt →
        dma_buf_fd (Addr d) fd_flags fdt k' =
          Ret (get_unused_fd_flags fd_flags fdt,
               <[get_unused_fd_flags fd_flags fdt := ERR_PTR (- ENOMEM)]> fdt) k'.
Proof.
  intros Hargs Horc.
  assert (export_args_ok priv_ ops_ = true) as Hok.
  { destruct (export_args_ok priv_ ops_) eqn:H; [done|].
    by apply export_args_ok_false in H. }
  unfold dma_buf_export, kzalloc_dma_buf, anon_inode_getfile, kzalloc,
    dmabuf_sync_reservation_init.
  go. rewrite ?insert_insert_eq.
  eexists _, _, _. split; [reflexivity|]. simpl.
  split; [apply lookup_insert_eq|]. simpl. split_and!; try done.
  - unfold fput. by go.
  - unfold get_file. by go.
  - intros fdt fd_flags Hfd. unfold dma_buf_fd, fd_install. go.
    destruct (Z.ltb_spec (get_unused_fd_flags fd_flags fdt) 0); [lia|done].
Qed.

(** *** Descriptors *)



Lemma with_f_count_back (fl : file) :
  with_f_count (f_count fl + 1 - 1) (with_f_count (f_count fl + 1) fl) = fl.
Proof.
  destruct fl as [fo pd c]. unfold with_f_count. simpl. f_equal. lia.
Qed.

Lemma kernel_eta (k : kernel) :
  mk_kernel (alloc_oracle k) (bufs k) (atts k) (files k) (ext k) (trace k) = k.
Proof. by destruct k. Qed.


(** X8.  What [dma_buf_get] answers.  A descriptor that is not open gives
    [-EBADF] and changes nothing.  A descriptor of a file that is not a
    dma-buf file gives [-EINVAL], and the reference [fget] took is given
    back: the state is exactly as before.  A descriptor of a dma-buf file
    gives the buffer of that file and keeps the reference. *)
Theorem dma_buf_get_spec (k : kernel) (fd : Z) (fdt : gmap Z pointer) :
  (fdt !! fd = None → dma_buf_get fd fdt k = Ret (ERR_PTR (- EBADF)) k)
  ∧ (∀ f fl,
       fdt !! fd = Some (Addr f) → files k !! f = Some fl →
       f_op fl = other_fops → f_count fl ≠ 0 →
       dma_buf_get fd fdt k = Ret (ERR_PTR (- EINVAL)) k)
  ∧ (∀ f fl,
       fdt !! fd = Some (Addr f) → files k !! f = Some fl →
       f_op fl = dma_buf_fops →
       dma_buf_get fd fdt k =
         Ret (private_data fl)
             (set_files (<[f := with_f_count (f_count fl + 1) fl]> (files k)) k)).
Proof.
  split_and!.
  - intros Hfd. unfold dma_buf_get, fget. by go.
  - intros f fl Hfd Hfl Hop Hc. unfold dma_buf_get, fget, get_file, fput. go.
    assert ((f_count fl + 1 - 1 =? 0) = false) as Hnz
      by (apply Z.eqb_neq; lia).
    go. rewrite insert_insert_eq, with_f_count_back, insert_id by done.
    by rewrite kernel_eta.
  - intros f fl Hfd Hfl Hop. unfold dma_buf_get, fget, get_file. by go.
Qed.

(** *** mmap through the handle *)

Lemma ulong_add_wrapped a p :
  0 ≤ BITS_PER_LONG → 0 ≤ a < 2 ^ BITS_PER_LONG → 0 ≤ p < 2 ^ BITS_PER_LONG →
  2 ^ BITS_PER_LONG ≤ a + p → ulong (a + p) = a + p - 2 ^ BITS_PER_LONG.
Proof.
  intros Hw Ha Hp Hsum. unfold ulong.
  symmetry. apply (Z.mod_unique_pos _ _ 1); lia.
Qed.

Lemma gtb_false x y : x ≤ y → (x >? y) = false.
Proof. intros H. rewrite Z.gtb_ltb. apply Z.ltb_ge. lia. Qed.

Lemma gtb_true x y : x > y → (x >? y) = true.
Proof. intros H. rewrite Z.gtb_ltb. apply Z.ltb_lt. lia. Qed.

Lemma dma_buf_mmap_internal_run k f d b o hook v :
  0 ≤ PAGE_SHIFT → handle_of k f d → bufs k !! d = Some b →
  ops b = Some o → mmap o = Some hook →
  ulong (vm_pgoff v + vma_pages v) ≤ size b / 2 ^ PAGE_SHIFT →
  dma_buf_mmap_internal (Addr f) v k =
    Ret (hook d v (ext k)).1
        (mk_kernel (alloc_oracle k) (bufs k) (atts k) (files k)
           (hook d v (ext k)).2 (trace k ++ [EvMmap d v])).
Proof.
  intros Hps (fl & Hfl & Hop & Hpd) Hb Ho Hh Hfit.
  rewrite <- Z.shiftr_div_pow2 in Hfit by done. apply gtb_false in Hfit.
  unfold dma_buf_mmap_internal. go.
  by destruct (hook d v (ext k)).
Qed.

(** X9.  [dma_buf_mmap_internal] has the size check of [dma_buf_mmap] and
    not its overflow check.  A region whose last page lies beyond the
    buffer is refused with [-EINVAL] and nothing changes; any other
    region goes to the mmap hook, with no file count touched.  So a
    region whose page offset plus length wraps around the word is
    accepted here when the wrapped sum fits, while [dma_buf_mmap] refuses
    the same offset and length with [-EOVERFLOW]. *)
Theorem dma_buf_mmap_internal_spec (k : kernel) (f d : Z) (b : dma_buf)
    (o : dma_buf_ops) (hook : Z → vm_area_struct → E → Z * E)
    (v : vm_area_struct) :
  0 ≤ BITS_PER_LONG → 0 ≤ PAGE_SHIFT →
  handle_of k f d → bufs k !! d = Some b → ops b = Some o → mmap o = Some hook →
  (ulong (vm_pgoff v + vma_pages v) > size b / 2 ^ PAGE_SHIFT →
   dma_buf_mmap_internal (Addr f) v k = Ret (- EINVAL) k)
  ∧ (ulong (vm_pgoff v + vma_pages v) ≤ size b / 2 ^ PAGE_SHIFT →
     dma_buf_mmap_internal (Addr f) v k =
       Ret (hook d v (ext k)).1
           (mk_kernel (alloc_oracle k) (bufs k) (atts k) (files k)
              (hook d v (ext k)).2 (trace k ++ [EvMmap d v])))
  ∧ (0 ≤ vm_pgoff v < 2 ^ BITS_PER_LONG →
     2 ^ BITS_PER_LONG ≤ vm_pgoff v + vma_pages v →
     vm_pgoff v + vma_pages v - 2 ^ BITS_PER_LONG ≤ size b / 2 ^ PAGE_SHIFT →
     (∃ k', dma_buf_mmap_internal (Addr f) v k = Ret (hook d v (ext k)).1 k')
     ∧ dma_buf_mmap (Addr d) (Some v) (vm_pgoff v) k = Ret (- EOVERFLOW, Some v) k).
Proof.
  intros Hw Hps Hh Hb Ho Hm. split_and!.
  - intros Hbig. destruct Hh as (fl & Hfl & Hop & Hpd).
    rewrite <- Z.shiftr_div_pow2 in Hbig by done. apply gtb_true in Hbig.
    unfold dma_buf_mmap_internal. by go.
  - intros Hfit. by eapply dma_buf_mmap_internal_run.
  - intros Hoff Hwrap Hfit.
    pose proof (vma_pages_range v Hw Hps) as Hp.
    split.
    + eexists. eapply dma_buf_mmap_internal_run; try done.
      by rewrite ulong_add_wrapped.
    + assert ((ulong (vm_pgoff v + vma_pages v) <? vm_pgoff v) = true) as Hov
        by (by apply ulong_add_wraps).
      unfold dma_buf_mmap. by go.
Qed.

(** X10.  The two ways to the mmap hook agree.  For a region that points
    to no file and fits the buffer, [dma_buf_mmap] does what the mmap
    operation of the handle does for the region once it is bound to the
    file of the buffer, one reference taken and the page offset set. *)
Theorem dma_buf_mmap_agrees_with_internal (k : kernel) (f d : Z) (b : dma_buf)
    (v : vm_area_struct) (pgoff : Z) :
  0 ≤ BITS_PER_LONG → 0 ≤ PAGE_SHIFT →
  handle_of k f d → bufs k !! d = Some b → file_of b = Addr f →
  vm_file v = NULL →
  0 ≤ pgoff → pgoff + vma_pages v < 2 ^ BITS_PER_LONG →
  pgoff + vma_pages v ≤ size b / 2 ^ PAGE_SHIFT →
  ∃ k1,
    get_file (Addr f) k = Ret tt k1
    ∧ dma_buf_mmap (Addr d) (Some v) pgoff k =
        (let* r := dma_buf_mmap_internal (Addr f) (rebound v (Addr f) pgoff) in
         ret (r, Some (rebound v (Addr f) pgoff))) k1.
Proof.
  intros Hw Hps (fl & Hfl & Hop & Hpd) Hb Hf Hvf Hoff Hnowrap Hfit.
  pose proof (vma_pages_range v Hw Hps) as Hp.
  assert (ulong (pgoff + vma_pages v) = pgoff + vma_pages v) as Hsum
    by (apply ulong_add_fits; lia).
  assert ((pgoff + vma_pages v <? pgoff) = false) as Hnov
    by (apply Z.ltb_ge; lia).
  assert ((pgoff + vma_pages v >? Z.shiftr (size b) PAGE_SHIFT) = false) as Hin
    by (apply gtb_false; by rewrite Z.shiftr_div_pow2).
  eexists. split.
  - unfold get_file. go. reflexivity.
  - unfold dma_buf_mmap, dma_buf_mmap_internal, get_file, rebound.
    change (vma_pages (mk_vma (vm_start v) (vm_end v) pgoff (Addr f)))
      with (vma_pages v).
    go. destruct (ops b) as [o|]; go; [|done].
    destruct (mmap o) as [hook|]; go; [|done].
    by destruct (hook d _ (ext k)).
Qed.

(** *** CPU access and attachment mapping *)

Lemma mandatory_hooks_true o :
  mandatory_hooks o = true →
  is_Some (map_dma_buf o) ∧ is_Some (unmap_dma_buf o) ∧ is_Some (release o)
  ∧ is_Some (kmap_atomic o) ∧ is_Some (kmap o) ∧ is_Some (mmap o).
Proof.
  unfold mandatory_hooks. intros H.
  repeat (apply andb_true_iff in H as [H ?]).
  split_and!; by eapply bool_decide_eq_true_1.
Qed.

(** X11.  On a buffer whose table has the hooks [dma_buf_export] insists
    on, the six CPU-access functions always return, whichever optional
    hooks are there, and change nothing but the state of the exporter:
    the kmap calls answer what the hook answers, and
    [dma_buf_begin_cpu_access] answers 0 when it has no hook. *)
Theorem cpu_access_safe (k : kernel) (d : Z) (b : dma_buf) (o : dma_buf_ops)
    (start len direction page_num : Z) (vaddr : pointer) :
  bufs k !! d = Some b → ops b = Some o → mandatory_hooks o = true →
  (∃ r k', dma_buf_begin_cpu_access (Addr d) start len direction k = Ret r k'
           ∧ only_ext_changed k k'
           ∧ (begin_cpu_access o = None → r = 0 ∧ k' = k))
  ∧ (∃ k', dma_buf_end_cpu_access (Addr d) start len direction k = Ret tt k'
           ∧ only_ext_changed k k')
  ∧ (∃ hook k', kmap_atomic o = Some hook
                ∧ dma_buf_kmap_atomic (Addr d) page_num k
                  = Ret (hook d page_num (ext k)).1 k'
                ∧ only_ext_changed k k')
  ∧ (∃ k', dma_buf_kunmap_atomic (Addr d) page_num vaddr k = Ret tt k'
           ∧ only_ext_changed k k')
  ∧ (∃ hook k', kmap o = Some hook
                ∧ dma_buf_kmap (Addr d) page_num k
                  = Ret (hook d page_num (ext k)).1 k'
                ∧ only_ext_changed k k')
  ∧ (∃ k', dma_buf_kunmap (Addr d) page_num vaddr k = Ret tt k'
           ∧ only_ext_changed k k').
Proof.
  intros Hb Ho Hm.
  destruct (mandatory_hooks_true o Hm)
    as (_ & _ & _ & [hka Hka] & [hk Hk] & _).
  split_and!.
  - unfold dma_buf_begin_cpu_access. go.
    destruct (begin_cpu_access o) as [h|]; go.
    + destruct (h d start len direction (ext k)) as [r e'].
      eexists _, _. split; [reflexivity|]. by split.
    + eexists _, _. split; [reflexivity|]. by split.
  - unfold dma_buf_end_cpu_access. go.
    destruct (end_cpu_access o) as [h|]; go;
      (eexists; split; [reflexivity|]; done).
  - unfold dma_buf_kmap_atomic. go.
    destruct (hka d page_num (ext k)) as [r e'] eqn:Hcall.
    eexists hka, _. rewrite Hcall. split_and!; done.
  - unfold dma_buf_kunmap_atomic. go.
    destruct (kunmap_atomic o) as [h|]; go;
      (eexists; split; [reflexivity|]; done).
  - unfold dma_buf_kmap. go.
    destruct (hk d page_num (ext k)) as [r e'] eqn:Hcall.
    eexists hk, _. rewrite Hcall. split_and!; done.
  - unfold dma_buf_kunmap. go.
    destruct (kunmap o) as [h|]; go;
      (eexists; split; [reflexivity|]; done).
Qed.

(** X12.  The record [dma_buf_attach] returns can be mapped and unmapped.
    For a record of a buffer whose table has the mandatory hooks,
    [dma_buf_map_attachment] answers what the map hook answers for that
    record and [dma_buf_unmap_attachment] hands a table that is not null
    to the unmap hook; both change nothing but the state of the exporter,
    and a null table is not handed on at all. *)
Theorem attachment_mapping_safe (k : kernel) (a d : Z) (x : dma_buf_attachment)
    (b : dma_buf) (o : dma_buf_ops) (direction : Z) :
  atts k !! a = Some x → dmabuf x = Addr d →
  bufs k !! d = Some b → ops b = Some o → mandatory_hooks o = true →
  ∃ hm hu,
    map_dma_buf o = Some hm ∧ unmap_dma_buf o = Some hu
    ∧ (∃ k', dma_buf_map_attachment (Addr a) direction k
             = Ret (hm a direction (ext k)).1 k'
             ∧ ext k' = (hm a direction (ext k)).2
             ∧ only_ext_changed k k')
    ∧ (∀ sg_table, sg_table ≠ NULL →
         ∃ k', dma_buf_unmap_attachment (Addr a) sg_table direction k = Ret tt k'
               ∧ ext k' = hu a sg_table direction (ext k)
               ∧ only_ext_changed k k')
    ∧ dma_buf_unmap_attachment (Addr a) NULL direction k = Ret tt k.
Proof.
  intros Hx Hd Hb Ho Hm.
  destruct (mandatory_hooks_true o Hm) as ([hm Hhm] & [hu Hhu] & _).
  exists hm, hu. split_and!; try done.
  - unfold dma_buf_map_attachment. go.
    destruct (hm a direction (ext k)) as [r e'].
    eexists. split; [reflexivity|]. by split.
  - intros sg Hsg. unfold dma_buf_unmap_attachment. go.
    assert (is_null sg = false) as Hn by (by destruct sg).
    go. eexists. split; [reflexivity|]. by split.
  - unfold dma_buf_unmap_attachment. by go.
Qed.

(** *** Fence control, once more *)

Lemma sync_Some_decide (x : option dmabuf_sync_reservation) :
  x ≠ None → bool_decide (x = None) = false.
Proof. intros Hx. by apply bool_decide_eq_false_2. Qed.

(** X13.  GetFence followed by PutFence is a round trip on the request.
    On a buffer with synchronization state, when the calls that create,
    bind and lock a context return with success, GetFence stores the
    context in the request and returns 0; PutFence on that request, when
    the unlock returns 0, clears the context again and returns 0.  The
    sync module is called six times, in the order init, get, lock,
    unlock, put, fini, each call on the state the one before left. *)
Theorem fence_get_put_round_trip (k : kernel) (f d : Z) (b : dma_buf) (ty : Z)
    (s : pointer) (e1 e2 e3 e4 : E) (r1 r2 : Z) :
  handle_of k f d → bufs k !! d = Some b → sync b ≠ None →
  dmabuf_sync_init SM (ext k) = (s, e1) → IS_ERR_OR_NULL s = false →
  dmabuf_sync_get SM s d ty e1 = (r1, e2) → 0 ≤ r1 →
  dmabuf_sync_lock SM s e2 = (r2, e3) → 0 ≤ r2 →
  dmabuf_sync_unlock SM s e3 = (0, e4) →
  ∃ k1 k2,
    dma_buf_ioctl (Addr f) (DMABUF_IOCTL_GET_FENCE (fence_arg NULL ty)) k
    = Ret (0, DMABUF_IOCTL_GET_FENCE (fence_arg s ty)) k1
    ∧ dma_buf_ioctl (Addr f) (DMABUF_IOCTL_PUT_FENCE (fence_arg s ty)) k1
      = Ret (0, DMABUF_IOCTL_PUT_FENCE (fence_arg NULL ty)) k2
    ∧ trace k2 = trace k ++ [EvSyncInit; EvSyncGet s d ty; EvSyncLock s;
                             EvSyncUnlock s; EvSyncPut s d; EvSyncFini s]
    ∧ ext k1 = e3
    ∧ ext k2 = dmabuf_sync_fini SM s (dmabuf_sync_put SM s d e4).
Proof.
  intros (fl & Hfl & Hop & Hpd) Hb Hs%sync_Some_decide Hinit Herr Hget Hr1
    Hlock Hr2 Hunlock.
  assert (IS_ERR s = false) by (by destruct s).
  assert (is_null s = false) by (by destruct s).
  assert ((r1 <? 0) = false) by (apply Z.ltb_ge; lia).
  assert ((r2 <? 0) = false) by (apply Z.ltb_ge; lia).
  eexists _, _. split_and!.
  - unfold dma_buf_ioctl, dma_buf_get_fence, fence_arg, copy_from_user,
      copy_to_user. go. reflexivity.
  - unfold dma_buf_ioctl, dma_buf_put_fence, fence_arg, copy_from_user,
      copy_to_user. go. reflexivity.
  - simpl. by rewrite <- !app_assoc.
  - done.
  - done.
Qed.

(** X14.  How GetFence fails once the context exists.  When binding the
    buffer fails the context is torn down; when locking fails the buffer
    is unbound and the context torn down; in both cases the error of the
    sync module is returned and the request is not written.  When the
    lock is taken and the request cannot be written back, GetFence
    returns [-EFAULT] and undoes nothing: the context stays locked and
    its handle is lost. *)
Theorem dma_buf_get_fence_failure_paths (k : kernel) (f d : Z) (b : dma_buf)
    (arg : user_ptr dma_buf_fence) (s : pointer) (e1 e2 : E) (r1 : Z) :
  handle_of k f d → bufs k !! d = Some b → sync b ≠ None →
  readable arg = true → ctx (content arg) = NULL →
  dmabuf_sync_init SM (ext k) = (s, e1) → IS_ERR s = false →
  dmabuf_sync_get SM s d (fence_type (content arg)) e1 = (r1, e2) →
  (r1 < 0 →
   dma_buf_ioctl (Addr f) (DMABUF_IOCTL_GET_FENCE arg) k =
     Ret (r1, DMABUF_IOCTL_GET_FENCE arg)
         (mk_kernel (alloc_oracle k) (bufs k) (atts k) (files k)
            (dmabuf_sync_fini SM s e2)
            (trace k ++ [EvSyncInit; EvSyncGet s d (fence_type (content arg));
                         EvSyncFini s])))
  ∧ (∀ r2 e3,
       0 ≤ r1 → dmabuf_sync_lock SM s e2 = (r2, e3) → r2 < 0 →
       dma_buf_ioctl (Addr f) (DMABUF_IOCTL_GET_FENCE arg) k =
         Ret (r2, DMABUF_IOCTL_GET_FENCE arg)
             (mk_kernel (alloc_oracle k) (bufs k) (atts k) (files k)
                (dmabuf_sync_fini SM s (dmabuf_sync_put SM s d e3))
                (trace k ++ [EvSyncInit;
                             EvSyncGet s d (fence_type (content arg));
                             EvSyncLock s; EvSyncPut s d; EvSyncFini s])))
  ∧ (∀ r2 e3,
       0 ≤ r1 → dmabuf_sync_lock SM s e2 = (r2, e3) → 0 ≤ r2 →
       writable arg = false →
       dma_buf_ioctl (Addr f) (DMABUF_IOCTL_GET_FENCE arg) k =
         Ret (- EFAULT, DMABUF_IOCTL_GET_FENCE arg)
             (mk_kernel (alloc_oracle k) (bufs k) (atts k) (files k) e3
                (trace k ++ [EvSyncInit;
                             EvSyncGet s d (fence_type (content arg));
                             EvSyncLock s]))).
Proof.
  intros (fl & Hfl & Hop & Hpd) Hb Hs%sync_Some_decide Hr Hc Hinit Herr Hget.
  split_and!.
  - intros Hneg. assert ((r1 <? 0) = true) by (by apply Z.ltb_lt).
    unfold dma_buf_ioctl, dma_buf_get_fence, copy_from_user. go.
    by rewrite <- !app_assoc.
  - intros r2 e3 Hr1 Hlock Hneg.
    assert ((r1 <? 0) = false) by (apply Z.ltb_ge; lia).
    assert ((r2 <? 0) = true) by (by apply Z.ltb_lt).
    unfold dma_buf_ioctl, dma_buf_get_fence, copy_from_user. go.
    by rewrite <- !app_assoc.
  - intros r2 e3 Hr1 Hlock Hr2 Hw.
    assert ((r1 <? 0) = false) by (apply Z.ltb_ge; lia).
    assert ((r2 <? 0) = false) by (apply Z.ltb_ge; lia).
    unfold dma_buf_ioctl, dma_buf_get_fence, copy_from_user, copy_to_user. go.
    by rewrite <- !app_assoc.
Qed.



(** *** Files that are not dma-buf files *)

(** X16.  Every operation of the handle looks at the file first.  On a
    file that is not a dma-buf file release, mmap, ioctl and lock fail
    with [-EINVAL] and poll reports [POLLERR]; none of them touches the
    state, whatever the private data of the file is. *)
Theorem foreign_file_refused (k : kernel) (f : Z) (fl : file)
    (v : vm_area_struct) (req : ioctl_req) (cmd : Z) (lk : file_lock) :
  files k !! f = Some fl → f_op fl = other_fops →
  dma_buf_release (Addr f) k = Ret (- EINVAL) k
  ∧ dma_buf_mmap_internal (Addr f) v k = Ret (- EINVAL) k
  ∧ dma_buf_ioctl (Addr f) req k = Ret (- EINVAL, req) k
  ∧ dma_buf_poll (Addr f) k = Ret POLLERR k
  ∧ dma_buf_lock (Addr f) cmd lk k = Ret (- EINVAL) k.
Proof.
  intros Hfl Hop. split_and!.
  - unfold dma_buf_release. by go.
  - unfold dma_buf_mmap_internal. by go.
  - unfold dma_buf_ioctl. by go.
  - unfold dma_buf_poll. by go.
  - unfold dma_buf_lock. by go.
Qed.

(** *** Advisory locks, once more *)

(** X17.  A lock cycle through the handle.  On an unlocked buffer a
    write-lock request takes the lock and returns 0.  While it is held, a
    second lock request fails with [-EAGAIN] when its flags have no
    [FL_SLEEP] bit and suspends the caller when they have.  An unlock
    request releases the lock and returns 0, and the next poll reports
    the buffer readable and writable. *)
Theorem dma_buf_lock_cycle (k : kernel) (f d cmd : Z)
    (r : dmabuf_sync_reservation) (fl_w fl_u : file_lock) :
  handle_of k f d → robj_at k d r → locked r = false →
  has_bits (fl_type fl_w) F_UNLCK = false →
  has_bits (fl_type fl_w) F_WRLCK = true →
  has_bits (fl_type fl_u) F_UNLCK = true →
  ∃ k1 k2 k3,
    dma_buf_lock (Addr f) cmd fl_w k = Ret 0 k1
    ∧ robj_at k1 d (mk_robj true DMA_BUF_ACCESS_W (polled r) (poll_event r)
                            (poll_wait r))
    ∧ (Z.land (fl_flags fl_w) FL_SLEEP = 0 →
       ∃ k', dma_buf_lock (Addr f) cmd fl_w k1 = Ret (- EAGAIN) k'
             ∧ bufs k' = bufs k1)
    ∧ (Z.land (fl_flags fl_w) FL_SLEEP ≠ 0 →
       ∃ k', dma_buf_lock (Addr f) cmd fl_w k1 = Blocked k'
             ∧ robj_at k' d (mk_robj true DMA_BUF_ACCESS_W (polled r)
                                     (poll_event r) (poll_wait r ++ [current])))
    ∧ dma_buf_lock (Addr f) cmd fl_u k1 = Ret 0 k2
    ∧ robj_at k2 d (mk_robj false DMA_BUF_ACCESS_W (polled r) true [])
    ∧ dma_buf_poll (Addr f) k2 = Ret POLL_READY k3.
Proof.
  intros Hh Hr Hl Hwu Hww Huu.
  destruct (dmabuf_sync_single_lock_free k f d r DMA_BUF_ACCESS_W
              (negb (Z.land (fl_flags fl_w) FL_SLEEP =? 0)) Hh Hr Hl)
    as (k1 & Hlock & Hr1 & Hh1 & Ht1).
  destruct (dmabuf_sync_single_unlock_locked k1 f d _ Hh1 Hr1 eq_refl)
    as (k2 & Hunlock & Hr2 & Hh2).
  destruct (dma_buf_poll_event k2 f d _ Hh2 Hr2 eq_refl)
    as (k3 & Hpoll & _).
  exists k1, k2, k3. split_and!.
  - rewrite (dma_buf_lock_dispatch k f d cmd fl_w Hh), Hwu, Hww. done.
  - done.
  - intros Hns. rewrite (dma_buf_lock_dispatch k1 f d cmd fl_w Hh1), Hwu, Hww.
    rewrite Hns. simpl. destruct Hr1 as (b1 & Hb1 & Hs1).
    unfold dmabuf_sync_single_lock. go. eexists. split; [reflexivity|done].
  - intros Hs. rewrite (dma_buf_lock_dispatch k1 f d cmd fl_w Hh1), Hwu, Hww.
    apply Z.eqb_neq in Hs. rewrite Hs. simpl.
    destruct Hr1 as (b1 & Hb1 & Hs1).
    unfold dmabuf_sync_single_lock. go. eexists. split; [reflexivity|].
    eexists. simpl. rewrite lookup_insert_eq. split; [reflexivity|done].
  - rewrite (dma_buf_lock_dispatch k1 f d cmd fl_u Hh1), Huu.
    by rewrite (bind_Ret _ _ _ _ _ Hunlock).
  - done.
  - done.
Qed.

(** *** The vmap cache, once more *)

Lemma iter_dma_buf_vunmap n : ∀ k d b o p,
  bufs k !! d = Some b → ops b = Some o → cached_pointer b = Some p →
  vmapping_counter b = 1 + Z.of_nat n → 1 + Z.of_nat n < UINT_MODULUS →
  iter (S n) (dma_buf_vunmap (Addr d) p) k =
    Ret tt
      (mk_kernel (alloc_oracle k)
         (<[d := with_vmap_ptr NULL (with_vmapping_counter 0 b)]> (bufs k))
         (atts k) (files k)
         (match vunmap o with
          | Some hook => hook d p (ext k)
          | None => ext k
          end)
         (match vunmap o with
          | Some _ => trace k ++ [EvVunmap d p]
          | None => trace k
          end)).
Proof.
  induction n as [|n IH]; intros k d b o p Hb Ho Hp Hc Hlt.
  - simpl.
    by rewrite (bind_Ret _ _ _ _ _ (dma_buf_vunmap_last k d b o p Hb Ho Hp Hc)).
  - change (iter (S (S n)) (dma_buf_vunmap (Addr d) p) k)
      with ((dma_buf_vunmap (Addr d) p ;;;
             iter (S n) (dma_buf_vunmap (Addr d) p)) k).
    rewrite (bind_Ret _ _ _ _ _
               (dma_buf_vunmap_keeps k d b p Hb Hp ltac:(lia))).
    erewrite (IH _ d (with_vmapping_counter (vmapping_counter b - 1) b) o p);
      simpl; [ | apply lookup_insert_eq | done | done | lia | lia ].
    by rewrite insert_insert_eq.
Qed.

(** X18.  Mappings balance.  From an empty cache, [n + 1] calls of
    [dma_buf_vmap] followed by [n + 1] calls of [dma_buf_vunmap] with the
    pointer they returned call the vmap hook once, in the first call, and
    the vunmap hook once, in the last, and leave the buffer exactly as it
    was: counter zero, nothing cached. *)
Theorem vmap_vunmap_balance (n : nat) (k : kernel) (d : Z) (b : dma_buf)
    (o : dma_buf_ops) (hv : Z → E → pointer * E) (p : pointer) (e' : E) :
  bufs k !! d = Some b → ops b = Some o → vmap o = Some hv →
  vmapping_counter b = 0 → vmap_ptr b = NULL →
  hv d (ext k) = (p, e') → IS_ERR_OR_NULL p = false →
  1 + Z.of_nat n < UINT_MODULUS →
  ∃ k1 k2,
    calls (S n) (dma_buf_vmap (Addr d)) k = Ret (replicate (S n) p) k1
    ∧ iter (S n) (dma_buf_vunmap (Addr d) p) k1 = Ret tt k2
    ∧ bufs k2 = bufs k ∧ atts k2 = atts k ∧ files k2 = files k
    ∧ trace k2 = trace k ++ [EvVmap d]
                 ++ match vunmap o with
                    | Some _ => [EvVunmap d p]
                    | None => []
                    end
    ∧ ext k2 = match vunmap o with
               | Some hu => hu d p e'
               | None => e'
               end.
Proof.
  intros Hb Ho Hv Hc Hp Hcall Herr Hlt.
  assert (p ≠ NULL) as Hnn by (by apply IS_ERR_OR_NULL_false).
  eexists _, _. split_and!.
  - change (calls (S n) (dma_buf_vmap (Addr d)) k)
      with ((let* a := dma_buf_vmap (Addr d) in
             let* l := calls n (dma_buf_vmap (Addr d)) in ret (a :: l)) k).
    rewrite (bind_Ret _ _ _ _ _
               (dma_buf_vmap_first k d b o hv p e' Hb Ho Hv Hc Hp Hcall Herr)).
    erewrite bind_Ret; last first.
    { eapply (dma_buf_vmap_subsequent n _ d
                (with_vmapping_counter 1 (with_vmap_ptr p b)) o hv);
        simpl; [apply lookup_insert_eq | done | done | lia | lia | done]. }
    reflexivity.
  - erewrite (iter_dma_buf_vunmap n _ d _ o p); simpl;
      [ reflexivity | apply lookup_insert_eq | done | | reflexivity | lia ].
    apply cached_pointer_Some. by split.
  - simpl. rewrite !insert_insert_eq. apply insert_id.
    rewrite Hb. f_equal. destruct b. simpl in *. by subst.
  - done.
  - done.
  - simpl. destruct (vunmap o); simpl.
    + by rewrite <- app_assoc.
    + done.
  - simpl. by destruct (vunmap o).
Qed.

(** *** Detach, once more *)

(** X19.  [dma_buf_detach] does not check that the record belongs to the
    buffer it is given.  For a record that is on the list of another
    buffer, the record leaves the list it is on and is freed, while the
    detach hook that runs is that of the buffer passed in, which is told
    to detach a record it has never seen; the list of the buffer passed in
    is not touched. *)
Theorem dma_buf_detach_unchecked_owner (k : kernel) (d d1 a : Z)
    (b b1 : dma_buf) (o : dma_buf_ops) (x : dma_buf_attachment) :
  d ≠ d1 → bufs k !! d = Some b → ops b = Some o →
  atts k !! a = Some x → dmabuf x = Addr d1 →
  bufs k !! d1 = Some b1 → a ∈ attachments b1 →
  ∃ k',
    dma_buf_detach (Addr d) (Addr a) k = Ret tt k'
    ∧ bufs k' !! d = Some b
    ∧ bufs k' !! d1
      = Some (with_attachments (filter (λ n, n ≠ a) (attachments b1)) b1)
    ∧ (a ∉ filter (λ n, n ≠ a) (attachments b1))
    ∧ atts k' = delete a (atts k)
    ∧ ext k' = detach_effect o d a (ext k)
    ∧ trace k' = trace k ++ [EvKfree a].
Proof.
  intros Hne Hb Ho Hx Hd Hb1 Hin.
  eexists. split; [by eapply dma_buf_detach_run|]. simpl.
  split_and!; try done.
  - by rewrite lookup_insert_ne.
  - by rewrite lookup_insert_eq.
  - intros [Hneq _]%list_elem_of_filter. done.
Qed.

(** *** Release, once more *)

(** X20.  Export followed by put is a round trip on memory: the last
    reference goes, the release hook runs once, and the buffers, the
    files and the attachment records are exactly those of before the
    export. *)
Theorem export_put_round_trip (priv_ : pointer) (o : dma_buf_ops)
    (size_ flags : Z) (k : kernel) (orc : list bool) :
  ¬ export_args_invalid priv_ (Some o) →
  alloc_oracle k = true :: true :: orc →
  ∃ d hook k1 k2,
    release o = Some hook
    ∧ dma_buf_export priv_ (Some o) size_ flags k = Ret (Addr d) k1
    ∧ dma_buf_put (Addr d) k1 = Ret tt k2
    ∧ bufs k2 = bufs k ∧ files k2 = files k ∧ atts k2 = atts k
    ∧ alloc_oracle k2 = orc
    ∧ ext k2 = hook d (ext k)
    ∧ trace k2 = trace k ++ destruction d.
Proof.
  intros Hargs Horc.
  assert (export_args_ok priv_ (Some o) = true) as Hok.
  { destruct (export_args_ok priv_ (Some o)) eqn:H; [done|].
    by apply export_args_ok_false in H. }
  assert (mandatory_hooks o = true) as Hm.
  { unfold export_args_ok in Hok. by apply andb_true_iff in Hok as [_ ?]. }
  destruct (mandatory_hooks_true o Hm) as (_ & _ & [hook Hrel] & _).
  unfold dma_buf_export, kzalloc_dma_buf, anon_inode_getfile, kzalloc,
    dmabuf_sync_reservation_init.
  go. rewrite ?insert_insert_eq.
  match goal with
  | |- context [Addr (fresh (live ?k1))] =>
      tryif constr_eq k1 k then fail
      else (destruct (fresh_not_live k1) as (_ & _ & Hf); simpl in Hf;
            set (f := fresh (live k1)) in *)
  end.
  destruct (fresh_not_live k) as (Hd & _ & _).
  set (d := fresh (live k)) in *.
  eexists d, hook, _, _. split; [done|]. split; [reflexivity|].
  unfold dma_buf_put, fput, dma_buf_release, dmabuf_sync_reservation_fini.
  go. split; [reflexivity|]. simpl.
  rewrite ?insert_insert_eq, ?delete_insert_eq.
  split_and!; try done.
  - by apply delete_id.
  - by apply delete_id.
  - unfold destruction. by rewrite <- !app_assoc.
Qed.

(** X21.  Release does not look at the attachment list.  When the last
    reference of a buffer goes while a record is still attached, the
    buffer is destroyed all the same and the record stays behind,
    pointing to freed memory: mapping or detaching it afterwards
    dereferences the freed buffer. *)
Theorem release_ignores_attachments (k : kernel) (d a direction : Z)
    (x : dma_buf_attachment) :
  buffer_held k d 1 0 → atts k !! a = Some x → dmabuf x = Addr d →
  ∃ k',
    dma_buf_put (Addr d) k = Ret tt k'
    ∧ bufs k' !! d = None
    ∧ atts k' = atts k
    ∧ dma_buf_map_attachment (Addr a) direction k' = Oops
    ∧ dma_buf_detach (Addr d) (Addr a) k' = Oops.
Proof.
  intros Hheld Hx Hd.
  destruct (dma_buf_put_last k d Hheld) as (k' & Hput & _ & Hgone & _).
  pose proof (dma_buf_put_untouched _ _ _ Hput) as [Hatts _].
  exists k'. split_and!; try done.
  - unfold dma_buf_map_attachment. rewrite <- Hatts in Hx. by go.
  - unfold dma_buf_detach. rewrite <- Hatts in Hx. by go.
Qed.

(** *** GetFence without a context *)

(** X22.  When [dmabuf_sync_init] fails, [dma_buf_get_fence] returns a
    value it has never assigned.  If that value is negative the ioctl
    returns it as the error; if it is not, the ioctl writes the request
    back with a zero context and returns the value: with the value 0 the
    caller is told that the fence was taken although no context exists
    and nothing is locked. *)
Theorem dma_buf_get_fence_uninitialized (k : kernel) (f d : Z) (b : dma_buf)
    (arg : user_ptr dma_buf_fence) (s : pointer) (e1 : E) :
  handle_of k f d → bufs k !! d = Some b → sync b ≠ None →
  readable arg = true → writable arg = true → ctx (content arg) = NULL →
  dmabuf_sync_init SM (ext k) = (s, e1) → IS_ERR s = true →
  (uninitialized < 0 →
   dma_buf_ioctl (Addr f) (DMABUF_IOCTL_GET_FENCE arg) k =
     Ret (uninitialized, DMABUF_IOCTL_GET_FENCE arg)
         (mk_kernel (alloc_oracle k) (bufs k) (atts k) (files k) e1
            (trace k ++ [EvSyncInit])))
  ∧ (0 ≤ uninitialized →
     dma_buf_ioctl (Addr f) (DMABUF_IOCTL_GET_FENCE arg) k =
       Ret (uninitialized,
            DMABUF_IOCTL_GET_FENCE (fence_arg NULL (fence_type (content arg))))
           (mk_kernel (alloc_oracle k) (bufs k) (atts k) (files k) e1
              (trace k ++ [EvSyncInit]))).
Proof.
  intros (fl & Hfl & Hop & Hpd) Hb Hs%sync_Some_decide Hr Hw Hc Hinit Herr.
  split.
  - intros Hneg. assert ((uninitialized <? 0) = true) by (by apply Z.ltb_lt).
    unfold dma_buf_ioctl, dma_buf_get_fence, copy_from_user. by go.
  - intros Hpos. assert ((uninitialized <? 0) = false) by (by apply Z.ltb_ge).
    unfold dma_buf_ioctl, dma_buf_get_fence, fence_arg, copy_from_user,
      copy_to_user. by go.
Qed.

End DmaBuf.

(** ** A concrete exporter

    An exporter without state whose hooks all succeed, a buffer of two
    pages as [dma_buf_export] leaves it, and the lock types of
    <asm-generic/fcntl.h>. *)

Definition demo_ops : @dma_buf_ops unit :=
  {| attach := Some (λ _ _ _ e, (0, e));
     detach := Some (λ _ _ e, e);
     map_dma_buf := Some (λ _ _ e, (Addr 64, e));
     unmap_dma_buf := Some (λ _ _ _ e, e);
     release := Some (λ _ e, e);
     begin_cpu_access := None;
     end_cpu_access := None;
     kmap_atomic := Some (λ _ _ e, (Addr 128, e));
     kunmap_atomic := None;
     kmap := Some (λ _ _ e, (Addr 128, e));
     kunmap := None;
     mmap := Some (λ _ _ e, (0, e));
     vmap := Some (λ _ e, (Addr 4096, e));
     vunmap := Some (λ _ _ e, e) |}.

(** The same exporter with an attach hook that refuses. *)
Definition busy_ops : @dma_buf_ops unit :=
  {| attach := Some (λ _ _ _ e, (- EBUSY, e));
     detach := detach demo_ops;
     map_dma_buf := map_dma_buf demo_ops;
     unmap_dma_buf := unmap_dma_buf demo_ops;
     release := release demo_ops;
     begin_cpu_access := None;
     end_cpu_access := None;
     kmap_atomic := kmap_atomic demo_ops;
     kunmap_atomic := None;
     kmap := kmap demo_ops;
     kunmap := None;
     mmap := mmap demo_ops;
     vmap := vmap demo_ops;
     vunmap := vunmap demo_ops |}.

Definition demo_robj : dmabuf_sync_reservation :=
  {| locked := false; accessed_type := DMA_BUF_ACCESS_R; polled := false;
     poll_event := false; poll_wait := [] |}.

Definition demo_buf (o : @dma_buf_ops unit) (counter : Z) (ptr : pointer)
    (s : option dmabuf_sync_reservation) : @dma_buf unit :=
  {| size := 8192; file_of := Addr 1; attachments := []; ops := Some o;
     vmapping_counter := counter; vmap_ptr := ptr; priv := Addr 7; sync := s |}.

Definition demo_file : file :=
  {| f_op := dma_buf_fops; private_data := Addr 0; f_count := 1 |}.

(** A kernel that holds the one buffer [b] at address 0 and its handle at
    address 1. *)
Definition demo_kernel (b : @dma_buf unit) : @kernel unit :=
  {| alloc_oracle := [true];
     bufs := {[ 0 := b ]};
     atts := ∅;
     files := {[ 1 := demo_file ]};
     ext := tt;
     trace := [] |}.

Definition empty_kernel : @kernel unit :=
  {| alloc_oracle := [true; true]; bufs := ∅; atts := ∅; files := ∅;
     ext := tt; trace := [] |}.

Definition fresh_buf : @dma_buf unit := demo_buf demo_ops 0 NULL (Some demo_robj).

Definition demo_sync : @dmabuf_sync_module unit :=
  {| dmabuf_sync_init := λ e, (Addr 512, e);
     dmabuf_sync_get := λ _ _ _ e, (0, e);
     dmabuf_sync_lock := λ _ e, (0, e);
     dmabuf_sync_unlock := λ _ e, (0, e);
     dmabuf_sync_put := λ _ _ e, e;
     dmabuf_sync_fini := λ _ e, e |}.

(** A region of one page that points to no file yet. *)
Definition demo_vma : vm_area_struct :=
  {| vm_start := 65536; vm_end := 69632; vm_pgoff := 0; vm_file := NULL |}.

(** The demo buffer, locked for writing. *)
Definition locked_buf : @dma_buf unit :=
  demo_buf demo_ops 0 NULL
    (Some {| locked := true; accessed_type := DMA_BUF_ACCESS_W; polled := false;
             poll_event := false; poll_wait := [] |}).

(** The demo buffer without synchronization state. *)
Definition unsynced_buf : @dma_buf unit := demo_buf demo_ops 0 NULL None.


(** The demo exporter without the optional vmap and vunmap hooks. *)
Definition plain_ops : @dma_buf_ops unit :=
  {| attach := attach demo_ops;
     detach := detach demo_ops;
     map_dma_buf := map_dma_buf demo_ops;
     unmap_dma_buf := unmap_dma_buf demo_ops;
     release := release demo_ops;
     begin_cpu_access := None;
     end_cpu_access := None;
     kmap_atomic := kmap_atomic demo_ops;
     kunmap_atomic := None;
     kmap := kmap demo_ops;
     kunmap := None;
     mmap := mmap demo_ops;
     vmap := None;
     vunmap := None |}.

(** The demo exporter with a vmap hook that finds no address space. *)
Definition cramped_ops : @dma_buf_ops unit :=
  {| attach := attach demo_ops;
     detach := detach demo_ops;
     map_dma_buf := map_dma_buf demo_ops;
     unmap_dma_buf := unmap_dma_buf demo_ops;
     release := release demo_ops;
     begin_cpu_access := None;
     end_cpu_access := None;
     kmap_atomic := kmap_atomic demo_ops;
     kunmap_atomic := None;
     kmap := kmap demo_ops;
     kunmap := None;
     mmap := mmap demo_ops;
     vmap := Some (λ _ e, (ERR_PTR (- ENOMEM), e));
     vunmap := vunmap demo_ops |}.

(** The demo buffer with two vmap users. *)
Definition mapped_buf : @dma_buf unit := demo_buf demo_ops 2 (Addr 4096) None.

(** A kernel that has run out of memory. *)
Definition starved_kernel : @kernel unit :=
  {| alloc_oracle := []; bufs := ∅; atts := ∅; files := ∅; ext := tt; trace := [] |}.

(** The demo buffer, unlocked a moment ago: the poll edge is pending. *)
Definition edge_buf : @dma_buf unit :=
  demo_buf demo_ops 0 NULL
    (Some {| locked := false; accessed_type := DMA_BUF_ACCESS_W; polled := false;
             poll_event := true; poll_wait := [] |}).

(** An exporter that counts how often its release hook runs, and a
    kernel that holds one buffer of it at address 0 with its handle at
    address 1. *)
Definition counting_ops : @dma_buf_ops nat :=
  {| attach := None;
     detach := None;
     map_dma_buf := Some (λ _ _ e, (Addr 64, e));
     unmap_dma_buf := Some (λ _ _ _ e, e);
     release := Some (λ _ e, S e);
     begin_cpu_access := None;
     end_cpu_access := None;
     kmap_atomic := Some (λ _ _ e, (Addr 128, e));
     kunmap_atomic := None;
     kmap := Some (λ _ _ e, (Addr 128, e));
     kunmap := None;
     mmap := Some (λ _ _ e, (0, e));
     vmap := None;
     vunmap := None |}.

Definition counting_buf : @dma_buf nat :=
  {| size := 8192; file_of := Addr 1; attachments := []; ops := Some counting_ops;
     vmapping_counter := 0; vmap_ptr := NULL; priv := Addr 7; sync := None |}.

Definition counting_kernel : @kernel nat :=
  {| alloc_oracle := [];
     bufs := {[ 0 := counting_buf ]};
     atts := ∅;
     files := {[ 1 := demo_file ]};
     ext := 0%nat;
     trace := [] |}.

(** The demo buffer after [2 ^ 32 - 1] calls of [dma_buf_vmap]. *)
Definition wrapping_buf : @dma_buf unit :=
  demo_buf demo_ops 4294967295 (Addr 4096) None.

(** A file of some other kind, and a kernel that holds nothing else. *)
Definition pipe_file : file :=
  {| f_op := other_fops; private_data := NULL; f_count := 1 |}.

Definition pipe_kernel : @kernel unit :=
  {| alloc_oracle := []; bufs := ∅; atts := ∅; files := {[ 5 := pipe_file ]};
     ext := tt; trace := [] |}.


(** The demo buffer with the record at address 20 attached. *)
Definition attached_buf : @dma_buf unit :=
  {| size := 8192; file_of := Addr 1; attachments := [20]; ops := Some demo_ops;
     vmapping_counter := 0; vmap_ptr := NULL; priv := Addr 7; sync := None |}.

(** The attached buffer at address 0 with its handle and its record. *)
Definition attached_kernel : @kernel unit :=
  {| alloc_oracle := [];
     bufs := {[ 0 := attached_buf ]};
     atts := {[ 20 := mk_attachment (Addr 0) (Addr 33) ]};
     files := {[ 1 := demo_file ]};
     ext := tt;
     trace := [] |}.

(** The same with a second buffer at address 10 that has no attachment. *)
Definition two_buffers : @kernel unit :=
  {| alloc_oracle := [];
     bufs := {[ 0 := attached_buf; 10 := unsynced_buf ]};
     atts := {[ 20 := mk_attachment (Addr 0) (Addr 33) ]};
     files := {[ 1 := demo_file ]};
     ext := tt;
     trace := [] |}.

(** A kernel where the buffer can be allocated and its file cannot. *)
Definition tight_kernel : @kernel unit :=
  {| alloc_oracle := [true; false]; bufs := ∅; atts := ∅; files := ∅;
     ext := tt; trace := [] |}.

(** A descriptor table with the descriptors 0 and 1 taken. *)
Definition demo_fdt : gmap Z pointer := {[ 0 := Addr 100; 1 := Addr 101 ]}.

(** A sync module that cannot bind the buffer, and one that cannot take
    the lock. *)
Definition unbound_sync : @dmabuf_sync_module unit :=
  {| dmabuf_sync_init := dmabuf_sync_init demo_sync;
     dmabuf_sync_get := λ _ _ _ e, (- EINVAL, e);
     dmabuf_sync_lock := dmabuf_sync_lock demo_sync;
     dmabuf_sync_unlock := dmabuf_sync_unlock demo_sync;
     dmabuf_sync_put := dmabuf_sync_put demo_sync;
     dmabuf_sync_fini := dmabuf_sync_fini demo_sync |}.

Definition contended_sync : @dmabuf_sync_module unit :=
  {| dmabuf_sync_init := dmabuf_sync_init demo_sync;
     dmabuf_sync_get := dmabuf_sync_get demo_sync;
     dmabuf_sync_lock := λ _ e, (- EAGAIN, e);
     dmabuf_sync_unlock := dmabuf_sync_unlock demo_sync;
     dmabuf_sync_put := dmabuf_sync_put demo_sync;
     dmabuf_sync_fini := dmabuf_sync_fini demo_sync |}.

(** A sync module that cannot create a context. *)
Definition broken_sync : @dmabuf_sync_module unit :=
  {| dmabuf_sync_init := λ e, (ERR_PTR (- ENOMEM), e);
     dmabuf_sync_get := dmabuf_sync_get demo_sync;
     dmabuf_sync_lock := dmabuf_sync_lock demo_sync;
     dmabuf_sync_unlock := dmabuf_sync_unlock demo_sync;
     dmabuf_sync_put := dmabuf_sync_put demo_sync;
     dmabuf_sync_fini := dmabuf_sync_fini demo_sync |}.

(** A region of one page at the last page offset of a 32-bit word. *)
Definition far_vma : vm_area_struct :=
  {| vm_start := 65536; vm_end := 69632; vm_pgoff := 4294967295; vm_file := NULL |}.

(** What a user does with the buffer at address 0 in a day. *)
Definition busy_day : list buffer_op :=
  [OpAttach (Addr 33); OpVmap; OpGet; OpPoll 1; OpKmap 0; OpPut;
   OpVunmap (Addr 4096); OpBeginCpuAccess 0 4096 0; OpDetach 2].

Lemma demo_handle b : handle_of (demo_kernel b) 1 0.
Proof. exists demo_file. by split_and!. Defined.

Lemma demo_args_valid : ¬ export_args_invalid (Addr 7) (Some demo_ops).
Proof.
  intros [H | [H | (o & Ho & H)]]; [discriminate..|].
  injection Ho as <-. simpl in H.
  destruct H as [H | [H | [H | [H | [H | H]]]]]; discriminate.
Defined.

Lemma demo_alloc_succeeds : ¬ alloc_fails empty_kernel.
Proof. intros [H | [o H]]; discriminate. Defined.

(** ** The theorems at concrete inputs *)

Lemma dma_buf_export_spec_witness :
  dma_buf_export NULL (Some demo_ops) 8192 0 empty_kernel
  = Ret (ERR_PTR (- EINVAL)) empty_kernel
  ∧ (∃ k', dma_buf_export (Addr 7) (Some demo_ops) 8192 0 starved_kernel
           = Ret (ERR_PTR (- ENOMEM)) k'
           ∧ bufs k' = ∅)
  ∧ ∃ d k' b r,
      dma_buf_export (Addr 7) (Some demo_ops) 8192 0 empty_kernel = Ret (Addr d) k'
      ∧ bufs empty_kernel !! d = None
      ∧ bufs k' !! d = Some b
      ∧ priv b = Addr 7 ∧ ops b = Some demo_ops ∧ size b = 8192
      ∧ attachments b = []
      ∧ vmap_ptr b = NULL ∧ vmapping_counter b = 0
      ∧ sync b = Some r ∧ unlocked_reservation r.
Proof.
  split; [|split].
  - destruct (dma_buf_export_spec NULL (Some demo_ops) 8192 0 empty_kernel)
      as (H & _).
    apply H. by left.
  - destruct (dma_buf_export_spec (Addr 7) (Some demo_ops) 8192 0 starved_kernel)
      as (_ & H & _).
    destruct (H demo_args_valid ltac:(by left)) as (k' & Hk & Hb & _).
    by exists k'.
  - destruct (dma_buf_export_spec (Addr 7) (Some demo_ops) 8192 0 empty_kernel)
      as (_ & _ & H).
    exact (H demo_args_valid demo_alloc_succeeds).
Defined.

Lemma counting_held : buffer_held counting_kernel 0 1 0.
Proof. eexists _, 1, _, counting_ops, _. split_and!; reflexivity. Defined.

Lemma refcount_round_trip_witness :
  (∃ d k0 k1 k2 k3,
     dma_buf_export (Addr 7) (Some demo_ops) 8192 0 empty_kernel = Ret (Addr d) k0
     ∧ iter 2 (get_dma_buf (Addr d)) k0 = Ret tt k1
     ∧ iter 2 (dma_buf_put (Addr d)) k1 = Ret tt k2
     ∧ trace k2 = []
     ∧ dma_buf_put (Addr d) k2 = Ret tt k3
     ∧ trace k3 = destruction d
     ∧ bufs k3 !! d = None)
  ∧ dma_buf_put (Addr 0) (demo_kernel (demo_buf demo_ops 1 (Addr 4096) None)) = Bug
  ∧ ∃ k1 k2 k3,
      iter 2 (get_dma_buf (Addr 0)) counting_kernel = Ret tt k1
      ∧ iter 2 (dma_buf_put (Addr 0)) k1 = Ret tt k2
      ∧ ext k2 = 0%nat
      ∧ dma_buf_put (Addr 0) k2 = Ret tt k3
      ∧ ext k3 = 1%nat.
Proof.
  split; [|split].
  - destruct (dma_buf_export_held (Addr 7) (Some demo_ops) 8192 0 empty_kernel []
                demo_args_valid eq_refl) as (d & k0 & Hexp & Hheld & Ht0).
    destruct (refcount_round_trip 2 k0 d 0) as (H & _).
    destruct (H Hheld)
      as (k1 & k2 & k3 & hook & H1 & _ & H2 & _ & H3 & H4 & H5 & _ & _ & H6 & _).
    exists d, k0, k1, k2, k3. split_and!; try done.
    + by rewrite H3, Ht0.
    + by rewrite H5, Ht0.
    + apply H6.
  - destruct (refcount_round_trip 0
                (demo_kernel (demo_buf demo_ops 1 (Addr 4096) None)) 0 1)
      as (_ & H).
    apply H.
    + eexists _, 1, _, demo_ops, _. split_and!; reflexivity.
    + discriminate.
  - destruct (refcount_round_trip 2 counting_kernel 0 0) as (H & _).
    destruct (H counting_held)
      as (k1 & k2 & k3 & hook & H1 & _ & H2 & _ & _ & H4 & _ & _ & _ & _ & _
          & He2 & (b & o & Hb & Ho & Hr) & He3).
    exists k1, k2, k3. split_and!; try done.
    vm_compute in Hb. injection Hb as <-.
    simpl in Ho. injection Ho as <-.
    simpl in Hr. injection Hr as <-.
    exact He3.
Defined.

Lemma dma_buf_vmap_caches_witness :
  (∃ k1 k2 b2,
     dma_buf_vmap (Addr 0) (demo_kernel fresh_buf) = Ret (Addr 4096) k1
     ∧ trace k1 = [EvVmap 0]
     ∧ calls 3 (dma_buf_vmap (Addr 0)) k1
       = Ret [Addr 4096; Addr 4096; Addr 4096] k2
     ∧ trace k2 = [EvVmap 0]
     ∧ bufs k2 !! 0 = Some b2
     ∧ vmap_ptr b2 = Addr 4096 ∧ vmapping_counter b2 = 4)
  ∧ (∃ k1, dma_buf_vmap (Addr 0) (demo_kernel (demo_buf cramped_ops 0 NULL None))
           = Ret (ERR_PTR (- ENOMEM)) k1
           ∧ trace k1 = [EvVmap 0]
           ∧ bufs k1 = bufs (demo_kernel (demo_buf cramped_ops 0 NULL None)))
  ∧ (∃ k1, dma_buf_vmap (Addr 0) (demo_kernel mapped_buf) = Ret (Addr 4096) k1
           ∧ trace k1 = []
           ∧ bufs k1 !! 0 = Some (with_vmapping_counter 3 mapped_buf))
  ∧ dma_buf_vmap (Addr 0) (demo_kernel (demo_buf plain_ops 0 NULL None))
    = Ret NULL (demo_kernel (demo_buf plain_ops 0 NULL None))
  ∧ ∃ k1, dma_buf_vmap (Addr 0) (demo_kernel wrapping_buf) = Ret (Addr 4096) k1
          ∧ bufs k1 !! 0 = Some (with_vmapping_counter 0 wrapping_buf)
          ∧ dma_buf_vmap (Addr 0) k1 = Bug.
Proof.
  split; [|split; [|split; [|split]]].
  - destruct (dma_buf_vmap_caches (demo_kernel fresh_buf) 0 fresh_buf demo_ops
                eq_refl eq_refl) as (_ & H & _).
    destruct (H _ (Addr 4096) tt eq_refl eq_refl eq_refl eq_refl)
      as (k1 & H1 & Ht & _ & _ & Hc).
    destruct (Hc eq_refl) as (_ & Hn).
    destruct (Hn 3%nat) as (k2 & b2 & H2 & Ht2 & _ & Hb2 & Hp2 & Hc2).
    { unfold UINT_MODULUS. lia. }
    exists k1, k2, b2. split_and!; try done. by rewrite Ht2.
  - destruct (dma_buf_vmap_caches (demo_kernel (demo_buf cramped_ops 0 NULL None)) 0
                (demo_buf cramped_ops 0 NULL None) cramped_ops eq_refl eq_refl)
      as (_ & H & _).
    destruct (H _ (ERR_PTR (- ENOMEM)) tt eq_refl eq_refl eq_refl eq_refl)
      as (k1 & H1 & Ht & _ & Hfail & _).
    exists k1. split_and!; try done. by apply Hfail.
  - destruct (dma_buf_vmap_caches (demo_kernel mapped_buf) 0 mapped_buf demo_ops
                eq_refl eq_refl) as (_ & _ & H & _).
    destruct (H _ eq_refl ltac:(discriminate) ltac:(discriminate))
      as (k1 & H1 & Ht & _ & Hb).
    by exists k1.
  - destruct (dma_buf_vmap_caches (demo_kernel (demo_buf plain_ops 0 NULL None)) 0
                (demo_buf plain_ops 0 NULL None) plain_ops eq_refl eq_refl)
      as (H & _).
    by apply H.
  - destruct (dma_buf_vmap_caches (demo_kernel wrapping_buf) 0 wrapping_buf demo_ops
                eq_refl eq_refl) as (_ & _ & _ & H).
    destruct (H _ eq_refl eq_refl ltac:(discriminate)) as (k1 & H1 & Hb & Hbug).
    by exists k1.
Defined.

(** After [2 ^ 32 - 1] calls the next [dma_buf_vmap] returns the cached
    pointer and leaves the counter at 0, not one higher, and the call
    after it does not return the pointer: it trips [BUG_ON]. *)
Lemma vmap_counter_wraps :
  ∃ k1 b1,
    dma_buf_vmap (Addr 0) (demo_kernel wrapping_buf) = Ret (Addr 4096) k1
    ∧ bufs k1 !! 0 = Some b1
    ∧ vmapping_counter b1 = 0
    ∧ vmapping_counter b1 ≠ vmapping_counter wrapping_buf + 1
    ∧ vmap_ptr b1 = Addr 4096
    ∧ dma_buf_vmap (Addr 0) k1 = Bug
    ∧ ¬ ∃ k2, dma_buf_vmap (Addr 0) k1 = Ret (Addr 4096) k2.
Proof.
  eexists _, _. split; [vm_compute; reflexivity|].
  split; [vm_compute; reflexivity|].
  split_and!; try reflexivity.
  - discriminate.
  - intros (k2 & H). vm_compute in H. discriminate.
Qed.

Lemma dma_buf_vunmap_spec_witness :
  (∃ k' b',
     dma_buf_vunmap (Addr 0) (Addr 4096) (demo_kernel mapped_buf) = Ret tt k'
     ∧ bufs k' !! 0 = Some b'
     ∧ vmapping_counter b' = 1 ∧ vmap_ptr b' = Addr 4096 ∧ trace k' = [])
  ∧ (∃ k1 k2 k3 k4,
       dma_buf_vmap (Addr 0) (demo_kernel fresh_buf) = Ret (Addr 4096) k1
       ∧ dma_buf_vmap (Addr 0) k1 = Ret (Addr 4096) k2
       ∧ dma_buf_vunmap (Addr 0) (Addr 4096) k2 = Ret tt k3
       ∧ dma_buf_vunmap (Addr 0) (Addr 4096) k3 = Ret tt k4
       ∧ trace k2 = [EvVmap 0]
       ∧ trace k3 = [EvVmap 0]
       ∧ trace k4 = [EvVmap 0; EvVunmap 0 (Addr 4096)])
  ∧ dma_buf_vunmap (Addr 0) (Addr 8192) (demo_kernel mapped_buf) = Bug
  ∧ dma_buf_vunmap (Addr 0) NULL (demo_kernel fresh_buf) = Bug.
Proof.
  split; [|split; [|split]].
  - destruct (dma_buf_vunmap_spec (demo_kernel mapped_buf) 0 mapped_buf demo_ops
                (Addr 4096) eq_refl eq_refl) as (H & _).
    destruct (H eq_refl) as (k' & b' & Hrun & Hb & Hc & Hkeep & _).
    { unfold UINT_MODULUS. simpl. lia. }
    destruct Hkeep as (Hp & Ht & _).
    { rewrite Hc. discriminate. }
    by exists k', b'.
  - destruct (dma_buf_vunmap_spec (demo_kernel fresh_buf) 0 fresh_buf demo_ops
                (Addr 4096) eq_refl eq_refl) as (_ & H & _).
    destruct (H _ _ tt eq_refl eq_refl eq_refl eq_refl eq_refl eq_refl)
      as (k1 & k2 & k3 & k4 & H1 & H2 & H3 & H4 & Ht2 & Ht3 & Ht4 & _).
    exists k1, k2, k3, k4. split_and!; try done.
    + by rewrite Ht3, Ht2.
    + by rewrite Ht4, Ht2.
  - destruct (dma_buf_vunmap_spec (demo_kernel mapped_buf) 0 mapped_buf demo_ops
                (Addr 8192) eq_refl eq_refl) as (_ & _ & H & _).
    apply H. discriminate.
  - destruct (dma_buf_vunmap_spec (demo_kernel fresh_buf) 0 fresh_buf demo_ops
                NULL eq_refl eq_refl) as (_ & _ & _ & H).
    by apply H.
Defined.

Lemma dma_buf_mmap_spec_witness :
  (∃ k', dma_buf_mmap 32 12 (Addr 0) (Some demo_vma) 1 (demo_kernel fresh_buf)
         = Ret (0, Some (rebound demo_vma (Addr 1) 1)) k')
  ∧ dma_buf_mmap 32 12 (Addr 0) (Some demo_vma) 2 (demo_kernel fresh_buf)
    = Ret (- EINVAL, Some demo_vma) (demo_kernel fresh_buf)
  ∧ dma_buf_mmap 32 12 (Addr 0) (Some demo_vma) 4294967295 (demo_kernel fresh_buf)
    = Ret (- EOVERFLOW, Some demo_vma) (demo_kernel fresh_buf).
Proof.
  split_and!.
  - destruct (dma_buf_mmap_spec 32 12 (demo_kernel fresh_buf) 0 fresh_buf demo_vma 1)
      as (_ & _ & H); [lia | lia | lia | reflexivity |].
    eexists. eapply (H ltac:(vm_compute; reflexivity)
                       ltac:(vm_compute; discriminate)
                       (demo_kernel fresh_buf) fresh_buf 1 demo_file demo_ops);
      reflexivity.
  - destruct (dma_buf_mmap_spec 32 12 (demo_kernel fresh_buf) 0 fresh_buf demo_vma 2)
      as (_ & H & _); [lia | lia | lia | reflexivity |].
    apply H; vm_compute; reflexivity.
  - destruct (dma_buf_mmap_spec 32 12 (demo_kernel fresh_buf) 0 fresh_buf demo_vma
                4294967295)
      as (H & _); [lia | lia | lia | reflexivity |].
    apply H. vm_compute. discriminate.
Defined.

Lemma demo_robj_at o c p r : robj_at (demo_kernel (demo_buf o c p (Some r))) 0 r.
Proof. eexists. split; reflexivity. Defined.

Lemma dma_buf_poll_spec_witness :
  (∃ k', dma_buf_poll 9 (Addr 1) (demo_kernel edge_buf) = Ret POLL_READY k'
         ∧ robj_at k' 0 (mk_robj false DMA_BUF_ACCESS_W true false []))
  ∧ (∃ k', dma_buf_poll 9 (Addr 1) (demo_kernel fresh_buf) = Ret POLLERR k')
  ∧ (∃ k', dma_buf_poll 9 (Addr 1) (demo_kernel locked_buf) = Ret 0 k'
           ∧ trace k' = [EvPollWait 0 9])
  ∧ ∃ k1 k2 k3,
      dmabuf_sync_single_unlock (Addr 0) (demo_kernel locked_buf) = Ret tt k1
      ∧ dma_buf_poll 9 (Addr 1) k1 = Ret POLL_READY k2
      ∧ calls 2 (dma_buf_poll 9 (Addr 1)) k2 = Ret [POLLERR; POLLERR] k3.
Proof.
  split; [|split; [|split]].
  - destruct (dma_buf_poll_spec 9 (demo_kernel edge_buf) 1 0 _
                (demo_handle _) (demo_robj_at _ _ _ _)) as (H & _).
    destruct (H eq_refl) as (k' & Hk & Hr & _). by exists k'.
  - destruct (dma_buf_poll_spec 9 (demo_kernel fresh_buf) 1 0 demo_robj
                (demo_handle _) (demo_robj_at _ _ _ _)) as (_ & H & _).
    destruct (H eq_refl eq_refl) as (k' & Hk & _). by exists k'.
  - destruct (dma_buf_poll_spec 9 (demo_kernel locked_buf) 1 0 _
                (demo_handle _) (demo_robj_at _ _ _ _)) as (_ & _ & H & _).
    destruct (H eq_refl eq_refl) as (k' & Hk & _ & Ht). by exists k'.
  - destruct (dma_buf_poll_spec 9 (demo_kernel locked_buf) 1 0 _
                (demo_handle _) (demo_robj_at _ _ _ _)) as (_ & _ & _ & H).
    destruct (H eq_refl) as (k1 & k2 & H1 & H2 & Hn).
    destruct (Hn 2%nat) as (k3 & H3 & _).
    by exists k1, k2, k3.
Defined.

Lemma dma_buf_attach_spec_witness :
  (∃ k', dma_buf_attach (Addr 0) (Addr 33)
           (demo_kernel (demo_buf busy_ops 0 NULL None))
         = Ret (ERR_PTR (- EBUSY)) k'
         ∧ atts k' = ∅
         ∧ bufs k' = bufs (demo_kernel (demo_buf busy_ops 0 NULL None)))
  ∧ (∃ a k', dma_buf_attach (Addr 0) (Addr 33) (demo_kernel fresh_buf)
             = Ret (Addr a) k'
             ∧ atts k' !! a = Some (mk_attachment (Addr 0) (Addr 33))
             ∧ bufs k' !! 0 = Some (with_attachments [a] fresh_buf))
  ∧ (∃ k', dma_buf_attach (Addr 0) (Addr 33) (set_oracle [] (demo_kernel fresh_buf))
           = Ret (ERR_PTR (- ENOMEM)) k'
           ∧ atts k' = ∅ ∧ bufs k' = bufs (demo_kernel fresh_buf)).
Proof.
  split; [|split].
  - destruct (dma_buf_attach_spec (demo_kernel (demo_buf busy_ops 0 NULL None)) 0
                (demo_buf busy_ops 0 NULL None) busy_ops (Addr 33))
      as (H & _); [discriminate | reflexivity | reflexivity |].
    destruct (H [] _ (- EBUSY) tt eq_refl eq_refl eq_refl)
      as (k' & Hk & Ha & Hb & _); [discriminate|].
    by exists k'.
  - destruct (dma_buf_attach_spec (demo_kernel fresh_buf) 0 fresh_buf demo_ops
                (Addr 33))
      as (_ & H & _); [discriminate | reflexivity | reflexivity |].
    destruct (H [] eq_refl) as (k' & Hk & _ & Ha & Hb).
    { right. by eexists _, tt. }
    by eexists _, k'.
  - destruct (dma_buf_attach_spec (set_oracle [] (demo_kernel fresh_buf)) 0 fresh_buf
                demo_ops (Addr 33))
      as (_ & _ & H); [discriminate | reflexivity | reflexivity |].
    destruct (H ltac:(by left)) as (k' & Hk & Ha & Hb & _).
    by exists k'.
Defined.



Lemma dma_buf_get_info_spec_witness :
  dma_buf_ioctl demo_sync 0 (Addr 1)
    (DMABUF_IOCTL_GET_INFO (mk_user true true (mk_info 1 0))) (demo_kernel fresh_buf)
  = Ret (0, DMABUF_IOCTL_GET_INFO (mk_user true true (mk_info 0 8192)))
        (demo_kernel fresh_buf)
  ∧ dma_buf_ioctl demo_sync 0 (Addr 1)
      (DMABUF_IOCTL_GET_INFO (mk_user true false (mk_info 1 0))) (demo_kernel fresh_buf)
    = Ret (- EFAULT, DMABUF_IOCTL_GET_INFO (mk_user true false (mk_info 1 0)))
          (demo_kernel fresh_buf).
Proof.
  split.
  - destruct (dma_buf_get_info_spec demo_sync 0 (demo_kernel fresh_buf) 1 0 fresh_buf
                (mk_user true true (mk_info 1 0)) (demo_handle _) eq_refl)
      as (_ & H & _).
    apply H; reflexivity.
  - destruct (dma_buf_get_info_spec demo_sync 0 (demo_kernel fresh_buf) 1 0 fresh_buf
                (mk_user true false (mk_info 1 0)) (demo_handle _) eq_refl)
      as (_ & _ & H).
    apply H. by right.
Defined.

(** The GetInfo ioctl on the handle of a buffer fails with [-EFAULT] when
    the request lies in memory that cannot be read. *)
Lemma get_info_ioctl_can_fail :
  dma_buf_ioctl demo_sync 0 (Addr 1)
    (DMABUF_IOCTL_GET_INFO (mk_user false false (mk_info 0 0))) (demo_kernel fresh_buf)
  = Ret (- EFAULT, DMABUF_IOCTL_GET_INFO (mk_user false false (mk_info 0 0)))
        (demo_kernel fresh_buf)
  ∧ ¬ ∃ req k',
        dma_buf_ioctl demo_sync 0 (Addr 1)
          (DMABUF_IOCTL_GET_INFO (mk_user false false (mk_info 0 0)))
          (demo_kernel fresh_buf)
        = Ret (0, req) k'.
Proof.
  split.
  - reflexivity.
  - intros (req & k' & H). vm_compute in H. discriminate.
Qed.

(** [F_SETLK] with a lock type of 4 on the unlocked demo buffer, under the
    lock types of <asm-generic/fcntl.h>. *)
Lemma dma_buf_lock_unknown_type_witness :
  ∃ k', dma_buf_lock 9 0 1 2 128 (Addr 1) 6 (mk_file_lock 4 0)
          (demo_kernel fresh_buf) = Ret 0 k'
        ∧ trace k' = [EvSingleLock 0 DMA_BUF_ACCESS_R false].
Proof.
  destruct (dma_buf_lock_unknown_type 9 0 1 2 128 (demo_kernel fresh_buf) 1 0 6 0
              demo_robj eq_refl eq_refl eq_refl (demo_handle _)
              (demo_robj_at _ _ _ _) eq_refl)
    as (k' & Hrun & _ & _ & Ht).
  by exists k'.
Defined.

Lemma demo_wf o c p s : attachments_wf (demo_kernel (demo_buf o c p s)).
Proof.
  intros d b Hl.
  change (({[ 0 := demo_buf o c p s ]} : gmap Z dma_buf) !! d = Some b) in Hl.
  apply lookup_singleton_Some in Hl as [<- <-]. split.
  - apply NoDup_nil_2.
  - intros a Hin. by apply elem_of_nil in Hin.
Defined.

Lemma demo_caches_ok : vmap_caches_ok (demo_kernel fresh_buf).
Proof.
  intros d b Hl.
  change (({[ 0 := fresh_buf ]} : gmap Z dma_buf) !! d = Some b) in Hl.
  apply lookup_singleton_Some in Hl as [<- <-].
  intros Hc. by destruct Hc.
Defined.

Lemma attach_detach_round_trip_witness :
  ∃ a k1 k2,
    dma_buf_attach (Addr 0) (Addr 33) (demo_kernel fresh_buf) = Ret (Addr a) k1
    ∧ dma_buf_detach (Addr 0) (Addr a) k1 = Ret tt k2
    ∧ bufs k2 = bufs (demo_kernel fresh_buf)
    ∧ atts k2 = ∅
    ∧ files k2 = files (demo_kernel fresh_buf)
    ∧ trace k2 = [EvAttach 0 (Addr 33) a; EvKfree a].
Proof.
  destruct (attach_detach_round_trip (demo_kernel fresh_buf) 0 fresh_buf demo_ops
              (Addr 33) [] (demo_wf _ _ _ _) ltac:(discriminate)
              eq_refl eq_refl eq_refl eq_refl)
    as (a & k1 & k2 & H1 & H2 & Hb & Ha & Hf & _ & Ht).
  by exists a, k1, k2.
Defined.

Lemma attachments_wf_invariant_witness :
  ∃ k', run_ops 9 0 busy_day (demo_kernel fresh_buf) = Ret tt k'
        ∧ attachments_wf k'.
Proof.
  eexists. split; [vm_compute; reflexivity|].
  apply (attachments_wf_invariant 9 0 busy_day (demo_kernel fresh_buf));
    [apply demo_wf | vm_compute; reflexivity].
Defined.

Lemma vmap_cache_invariant_witness :
  ∃ k', run_ops 9 0 busy_day (demo_kernel fresh_buf) = Ret tt k'
        ∧ vmap_caches_ok k'.
Proof.
  eexists. split; [vm_compute; reflexivity|].
  apply (vmap_cache_invariant 9 0 busy_day (demo_kernel fresh_buf));
    [apply demo_caches_ok | vm_compute; reflexivity].
Defined.

Lemma buffer_identity_immutable_witness :
  ∃ k' b', run_ops 9 0 busy_day (demo_kernel fresh_buf) = Ret tt k'
           ∧ bufs k' !! 0 = Some b'
           ∧ size b' = 8192 ∧ ops b' = Some demo_ops ∧ priv b' = Addr 7
           ∧ file_of b' = Addr 1.
Proof.
  eexists _, _. split; [vm_compute; reflexivity|].
  split; [vm_compute; reflexivity|].
  match goal with
  | |- size ?b' = _ ∧ _ =>
      destruct (buffer_identity_immutable 9 0 busy_day (demo_kernel fresh_buf)
                  _ 0 b' ltac:(vm_compute; reflexivity)
                  ltac:(vm_compute; reflexivity))
        as (b & Hb & Hs & Ho & Hp & Hf)
  end.
  vm_compute in Hb. injection Hb as <-. by split_and!.
Defined.


Lemma dma_buf_export_frame_witness :
  ∃ r k',
    dma_buf_export (Addr 7) (Some demo_ops) 4096 0 (demo_kernel fresh_buf)
    = Ret r k'
    ∧ bufs k' !! 0 = Some fresh_buf
    ∧ files k' !! 1 = Some demo_file
    ∧ attachments_wf k'
    ∧ trace k' = [].
Proof.
  destruct (dma_buf_export_frame (Addr 7) (Some demo_ops) 4096 0
              (demo_kernel fresh_buf))
    as (r & k' & H & Ha & He & Ht & Hb & Hf & Hwf & Hc).
  exists r, k'. split_and!.
  - done.
  - by apply Hb.
  - by apply Hf.
  - apply Hwf, demo_wf.
  - done.
Defined.

Lemma dma_buf_export_unchecked_file_witness :
  ∃ d k' b,
    dma_buf_export (Addr 7) (Some demo_ops) 8192 0 tight_kernel = Ret (Addr d) k'
    ∧ bufs k' !! d = Some b
    ∧ file_of b = ERR_PTR (- ENOMEM)
    ∧ dma_buf_put (Addr d) k' = Oops
    ∧ dma_buf_fd 4 (Addr d) 0 demo_fdt k'
      = Ret (2, <[2 := ERR_PTR (- ENOMEM)]> demo_fdt) k'.
Proof.
  destruct (dma_buf_export_unchecked_file 4 (Addr 7) (Some demo_ops) 8192 0
              tight_kernel [] demo_args_valid eq_refl)
    as (d & k' & b & Hexp & Hb & Hf & _ & Hput & _ & Hfd).
  exists d, k', b. split_and!; try done.
  exact (Hfd demo_fdt 0 ltac:(vm_compute; discriminate)).
Defined.


Lemma dma_buf_get_spec_witness :
  dma_buf_get 7 {[ 3 := Addr 5 ]} pipe_kernel = Ret (ERR_PTR (- EBADF)) pipe_kernel
  ∧ dma_buf_get 3 {[ 3 := Addr 5 ]} pipe_kernel
    = Ret (ERR_PTR (- EINVAL)) pipe_kernel
  ∧ ∃ k', dma_buf_get 3 {[ 3 := Addr 1 ]} (demo_kernel fresh_buf)
          = Ret (Addr 0) k'.
Proof.
  split_and!.
  - destruct (dma_buf_get_spec pipe_kernel 7 {[ 3 := Addr 5 ]}) as (H & _).
    by apply H.
  - destruct (dma_buf_get_spec pipe_kernel 3 {[ 3 := Addr 5 ]}) as (_ & H & _).
    apply (H 5 pipe_file); [reflexivity..|discriminate].
  - destruct (dma_buf_get_spec (demo_kernel fresh_buf) 3 {[ 3 := Addr 1 ]})
      as (_ & _ & H).
    eexists. apply (H 1 demo_file); reflexivity.
Defined.

Lemma dma_buf_mmap_internal_spec_witness :
  dma_buf_mmap_internal 32 12 (Addr 1) (mk_vma 65536 69632 2 NULL)
    (demo_kernel fresh_buf)
  = Ret (- EINVAL) (demo_kernel fresh_buf)
  ∧ (∃ k', dma_buf_mmap_internal 32 12 (Addr 1) demo_vma (demo_kernel fresh_buf)
           = Ret 0 k'
           ∧ trace k' = [EvMmap 0 demo_vma]
           ∧ files k' = files (demo_kernel fresh_buf))
  ∧ (∃ k', dma_buf_mmap_internal 32 12 (Addr 1) far_vma (demo_kernel fresh_buf)
           = Ret 0 k')
  ∧ dma_buf_mmap 32 12 (Addr 0) (Some far_vma) 4294967295 (demo_kernel fresh_buf)
    = Ret (- EOVERFLOW, Some far_vma) (demo_kernel fresh_buf).
Proof.
  split_and!.
  - destruct (dma_buf_mmap_internal_spec 32 12 (demo_kernel fresh_buf) 1 0
                fresh_buf demo_ops _ (mk_vma 65536 69632 2 NULL)
                ltac:(lia) ltac:(lia) (demo_handle _) eq_refl eq_refl eq_refl)
      as (H & _).
    apply H. vm_compute. reflexivity.
  - destruct (dma_buf_mmap_internal_spec 32 12 (demo_kernel fresh_buf) 1 0
                fresh_buf demo_ops _ demo_vma
                ltac:(lia) ltac:(lia) (demo_handle _) eq_refl eq_refl eq_refl)
      as (_ & H & _).
    eexists. split; [apply H; vm_compute; discriminate|]. by split.
  - destruct (dma_buf_mmap_internal_spec 32 12 (demo_kernel fresh_buf) 1 0
                fresh_buf demo_ops _ far_vma
                ltac:(lia) ltac:(lia) (demo_handle _) eq_refl eq_refl eq_refl)
      as (_ & _ & H).
    destruct H as ((k' & H) & _);
      [ split; vm_compute; [discriminate|reflexivity]
      | vm_compute; discriminate | vm_compute; discriminate |].
    by exists k'.
  - destruct (dma_buf_mmap_internal_spec 32 12 (demo_kernel fresh_buf) 1 0
                fresh_buf demo_ops _ far_vma
                ltac:(lia) ltac:(lia) (demo_handle _) eq_refl eq_refl eq_refl)
      as (_ & _ & H).
    destruct H as (_ & H);
      [ split; vm_compute; [discriminate|reflexivity]
      | vm_compute; discriminate | vm_compute; discriminate |].
    exact H.
Defined.

Lemma dma_buf_mmap_agrees_with_internal_witness :
  ∃ k1,
    get_file (Addr 1) (demo_kernel fresh_buf) = Ret tt k1
    ∧ dma_buf_mmap 32 12 (Addr 0) (Some demo_vma) 1 (demo_kernel fresh_buf)
      = bind (dma_buf_mmap_internal 32 12 (Addr 1) (rebound demo_vma (Addr 1) 1))
             (λ r, ret (r, Some (rebound demo_vma (Addr 1) 1))) k1.
Proof.
  apply (dma_buf_mmap_agrees_with_internal 32 12 (demo_kernel fresh_buf) 1 0
           fresh_buf demo_vma 1);
    [ lia | lia | apply demo_handle | reflexivity | reflexivity | reflexivity
    | lia | vm_compute; reflexivity | vm_compute; discriminate ].
Defined.

Lemma cpu_access_safe_witness :
  dma_buf_begin_cpu_access (Addr 0) 0 4096 0 (demo_kernel fresh_buf)
  = Ret 0 (demo_kernel fresh_buf)
  ∧ (∃ k', dma_buf_kmap (Addr 0) 1 (demo_kernel fresh_buf) = Ret (Addr 128) k'
           ∧ only_ext_changed (demo_kernel fresh_buf) k')
  ∧ (∃ k', dma_buf_kunmap (Addr 0) 1 (Addr 128) (demo_kernel fresh_buf)
           = Ret tt k'
           ∧ only_ext_changed (demo_kernel fresh_buf) k').
Proof.
  destruct (cpu_access_safe (demo_kernel fresh_buf) 0 fresh_buf demo_ops
              0 4096 0 1 (Addr 128) eq_refl eq_refl eq_refl)
    as ((r & k0 & Hb & _ & Hnone) & _ & _ & _ & (hook & k1 & Hh & Hk & Hf)
        & (k2 & Hu & Hf2)).
  split_and!.
  - destruct (Hnone eq_refl) as [-> ->]. exact Hb.
  - exists k1. split; [|done]. injection Hh as <-. exact Hk.
  - by exists k2.
Defined.

Lemma attachment_mapping_safe_witness :
  (∃ k', dma_buf_map_attachment (Addr 20) 1 attached_kernel = Ret (Addr 64) k'
         ∧ only_ext_changed attached_kernel k')
  ∧ (∃ k', dma_buf_unmap_attachment (Addr 20) (Addr 64) 1 attached_kernel
           = Ret tt k')
  ∧ dma_buf_unmap_attachment (Addr 20) NULL 1 attached_kernel
    = Ret tt attached_kernel.
Proof.
  destruct (attachment_mapping_safe attached_kernel 20 0 _ attached_buf demo_ops 1
              eq_refl eq_refl eq_refl eq_refl eq_refl)
    as (hm & hu & Hhm & Hhu & (k1 & Hmap & _ & Hf) & Hunmap & Hnull).
  split_and!.
  - exists k1. split; [|done]. injection Hhm as <-. exact Hmap.
  - destruct (Hunmap (Addr 64) ltac:(discriminate)) as (k2 & H2 & _).
    by exists k2.
  - exact Hnull.
Defined.

Lemma fence_get_put_round_trip_witness :
  ∃ k1 k2,
    dma_buf_ioctl demo_sync 0 (Addr 1) (DMABUF_IOCTL_GET_FENCE (fence_arg NULL 2))
      (demo_kernel fresh_buf)
    = Ret (0, DMABUF_IOCTL_GET_FENCE (fence_arg (Addr 512) 2)) k1
    ∧ dma_buf_ioctl demo_sync 0 (Addr 1)
        (DMABUF_IOCTL_PUT_FENCE (fence_arg (Addr 512) 2)) k1
      = Ret (0, DMABUF_IOCTL_PUT_FENCE (fence_arg NULL 2)) k2
    ∧ trace k2 = [EvSyncInit; EvSyncGet (Addr 512) 0 2; EvSyncLock (Addr 512);
                  EvSyncUnlock (Addr 512); EvSyncPut (Addr 512) 0;
                  EvSyncFini (Addr 512)].
Proof.
  destruct (fence_get_put_round_trip demo_sync 0 (demo_kernel fresh_buf) 1 0
              fresh_buf 2 (Addr 512) tt tt tt tt 0 0 (demo_handle _) eq_refl
              ltac:(discriminate) eq_refl eq_refl eq_refl ltac:(lia) eq_refl
              ltac:(lia) eq_refl)
    as (k1 & k2 & H1 & H2 & Ht & _).
  by exists k1, k2.
Defined.

Lemma dma_buf_get_fence_failure_paths_witness :
  (∃ k', dma_buf_ioctl unbound_sync 0 (Addr 1)
           (DMABUF_IOCTL_GET_FENCE (fence_arg NULL 2)) (demo_kernel fresh_buf)
         = Ret (- EINVAL, DMABUF_IOCTL_GET_FENCE (fence_arg NULL 2)) k'
         ∧ trace k' = [EvSyncInit; EvSyncGet (Addr 512) 0 2; EvSyncFini (Addr 512)])
  ∧ (∃ k', dma_buf_ioctl contended_sync 0 (Addr 1)
             (DMABUF_IOCTL_GET_FENCE (fence_arg NULL 2)) (demo_kernel fresh_buf)
           = Ret (- EAGAIN, DMABUF_IOCTL_GET_FENCE (fence_arg NULL 2)) k'
           ∧ trace k' = [EvSyncInit; EvSyncGet (Addr 512) 0 2;
                         EvSyncLock (Addr 512); EvSyncPut (Addr 512) 0;
                         EvSyncFini (Addr 512)])
  ∧ (∃ k', dma_buf_ioctl demo_sync 0 (Addr 1)
             (DMABUF_IOCTL_GET_FENCE (mk_user true false (mk_fence NULL 2)))
             (demo_kernel fresh_buf)
           = Ret (- EFAULT,
                  DMABUF_IOCTL_GET_FENCE (mk_user true false (mk_fence NULL 2))) k'
           ∧ trace k' = [EvSyncInit; EvSyncGet (Addr 512) 0 2;
                         EvSyncLock (Addr 512)]).
Proof.
  split_and!.
  - destruct (dma_buf_get_fence_failure_paths unbound_sync 0 (demo_kernel fresh_buf)
                1 0 fresh_buf (fence_arg NULL 2) (Addr 512) tt tt (- EINVAL)
                (demo_handle _) eq_refl ltac:(discriminate) eq_refl eq_refl
                eq_refl eq_refl eq_refl) as (H & _).
    eexists. split; [apply H; reflexivity|reflexivity].
  - destruct (dma_buf_get_fence_failure_paths contended_sync 0
                (demo_kernel fresh_buf) 1 0 fresh_buf (fence_arg NULL 2)
                (Addr 512) tt tt 0
                (demo_handle _) eq_refl ltac:(discriminate) eq_refl eq_refl
                eq_refl eq_refl eq_refl) as (_ & H & _).
    eexists. split;
      [apply (H (- EAGAIN) tt); [lia|reflexivity|reflexivity]|reflexivity].
  - destruct (dma_buf_get_fence_failure_paths demo_sync 0 (demo_kernel fresh_buf)
                1 0 fresh_buf (mk_user true false (mk_fence NULL 2))
                (Addr 512) tt tt 0
                (demo_handle _) eq_refl ltac:(discriminate) eq_refl eq_refl
                eq_refl eq_refl eq_refl) as (_ & _ & H).
    eexists. split;
      [apply (H 0 tt); [lia|reflexivity|lia|reflexivity]|reflexivity].
Defined.


Lemma foreign_file_refused_witness :
  dma_buf_release (Addr 5) pipe_kernel = Ret (- EINVAL) pipe_kernel
  ∧ dma_buf_mmap_internal 32 12 (Addr 5) demo_vma pipe_kernel
    = Ret (- EINVAL) pipe_kernel
  ∧ dma_buf_ioctl demo_sync 0 (Addr 5)
      (DMABUF_IOCTL_GET_INFO (mk_user true true (mk_info 0 0))) pipe_kernel
    = Ret (- EINVAL, DMABUF_IOCTL_GET_INFO (mk_user true true (mk_info 0 0)))
          pipe_kernel
  ∧ dma_buf_poll 9 (Addr 5) pipe_kernel = Ret POLLERR pipe_kernel
  ∧ dma_buf_lock 9 0 1 2 128 (Addr 5) 6 (mk_file_lock 1 0) pipe_kernel
    = Ret (- EINVAL) pipe_kernel.
Proof.
  apply (foreign_file_refused 9 32 12 0 1 2 128 demo_sync 0 pipe_kernel 5
           pipe_file); reflexivity.
Defined.

Lemma dma_buf_lock_cycle_witness :
  (∃ k1 k2 k3 k',
     dma_buf_lock 9 0 1 2 128 (Addr 1) 6 (mk_file_lock 1 0) (demo_kernel fresh_buf)
     = Ret 0 k1
     ∧ dma_buf_lock 9 0 1 2 128 (Addr 1) 6 (mk_file_lock 1 0) k1
       = Ret (- EAGAIN) k'
     ∧ dma_buf_lock 9 0 1 2 128 (Addr 1) 6 (mk_file_lock 2 0) k1 = Ret 0 k2
     ∧ dma_buf_poll 9 (Addr 1) k2 = Ret POLL_READY k3)
  ∧ ∃ k1 k',
      dma_buf_lock 9 0 1 2 128 (Addr 1) 7 (mk_file_lock 1 128)
        (demo_kernel fresh_buf) = Ret 0 k1
      ∧ dma_buf_lock 9 0 1 2 128 (Addr 1) 7 (mk_file_lock 1 128) k1 = Blocked k'.
Proof.
  split.
  - destruct (dma_buf_lock_cycle 9 0 1 2 128 (demo_kernel fresh_buf) 1 0 6
                demo_robj (mk_file_lock 1 0) (mk_file_lock 2 0)
                (demo_handle _) (demo_robj_at _ _ _ _) eq_refl eq_refl eq_refl
                eq_refl)
      as (k1 & k2 & k3 & H1 & _ & Hbusy & _ & H2 & _ & H3).
    destruct (Hbusy eq_refl) as (k' & Hk' & _).
    by exists k1, k2, k3, k'.
  - destruct (dma_buf_lock_cycle 9 0 1 2 128 (demo_kernel fresh_buf) 1 0 7
                demo_robj (mk_file_lock 1 128) (mk_file_lock 2 0)
                (demo_handle _) (demo_robj_at _ _ _ _) eq_refl eq_refl eq_refl
                eq_refl)
      as (k1 & k2 & k3 & H1 & _ & _ & Hsleep & _).
    destruct (Hsleep ltac:(discriminate)) as (k' & Hk' & _).
    by exists k1, k'.
Defined.

Lemma vmap_vunmap_balance_witness :
  ∃ k1 k2,
    calls 3 (dma_buf_vmap (Addr 0)) (demo_kernel fresh_buf)
    = Ret [Addr 4096; Addr 4096; Addr 4096] k1
    ∧ iter 3 (dma_buf_vunmap (Addr 0) (Addr 4096)) k1 = Ret tt k2
    ∧ bufs k2 = bufs (demo_kernel fresh_buf)
    ∧ trace k2 = [EvVmap 0; EvVunmap 0 (Addr 4096)].
Proof.
  destruct (vmap_vunmap_balance 2 (demo_kernel fresh_buf) 0 fresh_buf demo_ops
              _ (Addr 4096) tt eq_refl eq_refl eq_refl eq_refl eq_refl eq_refl
              eq_refl)
    as (k1 & k2 & H1 & H2 & Hb & _ & _ & Ht & _).
  { unfold UINT_MODULUS. lia. }
  by exists k1, k2.
Defined.

Lemma dma_buf_detach_unchecked_owner_witness :
  ∃ k',
    dma_buf_detach (Addr 10) (Addr 20) two_buffers = Ret tt k'
    ∧ bufs k' !! 10 = Some unsynced_buf
    ∧ bufs k' !! 0 = Some (with_attachments [] attached_buf)
    ∧ atts k' = ∅.
Proof.
  destruct (dma_buf_detach_unchecked_owner two_buffers 10 0 20 unsynced_buf
              attached_buf demo_ops _ ltac:(discriminate) eq_refl eq_refl
              eq_refl eq_refl eq_refl ltac:(by constructor))
    as (k' & Hrun & Hb & Hb1 & _ & Ha & _).
  by exists k'.
Defined.

Lemma export_put_round_trip_witness :
  ∃ d k1 k2,
    dma_buf_export (Addr 7) (Some demo_ops) 8192 0 empty_kernel = Ret (Addr d) k1
    ∧ dma_buf_put (Addr d) k1 = Ret tt k2
    ∧ bufs k2 = ∅ ∧ files k2 = ∅
    ∧ trace k2 = destruction d.
Proof.
  destruct (export_put_round_trip (Addr 7) demo_ops 8192 0 empty_kernel []
              demo_args_valid eq_refl)
    as (d & hook & k1 & k2 & _ & Hexp & Hput & Hb & Hf & _ & _ & _ & Ht).
  by exists d, k1, k2.
Defined.

Lemma attached_held : buffer_held attached_kernel 0 1 0.
Proof. eexists _, 1, _, demo_ops, _. split_and!; reflexivity. Defined.

Lemma release_ignores_attachments_witness :
  ∃ k',
    dma_buf_put (Addr 0) attached_kernel = Ret tt k'
    ∧ bufs k' !! 0 = None
    ∧ atts k' !! 20 = Some (mk_attachment (Addr 0) (Addr 33))
    ∧ dma_buf_map_attachment (Addr 20) 1 k' = Oops
    ∧ dma_buf_detach (Addr 0) (Addr 20) k' = Oops.
Proof.
  destruct (release_ignores_attachments attached_kernel 0 20 1 _ attached_held
              eq_refl eq_refl)
    as (k' & Hput & Hb & Ha & Hmap & Hdet).
  exists k'. split_and!; try done.
  by rewrite Ha.
Defined.

Lemma dma_buf_get_fence_uninitialized_witness :
  (∃ k', dma_buf_ioctl broken_sync 0 (Addr 1)
           (DMABUF_IOCTL_GET_FENCE (fence_arg NULL 2)) (demo_kernel fresh_buf)
         = Ret (0, DMABUF_IOCTL_GET_FENCE (fence_arg NULL 2)) k'
         ∧ trace k' = [EvSyncInit])
  ∧ ∃ k', dma_buf_ioctl broken_sync (- 5) (Addr 1)
            (DMABUF_IOCTL_GET_FENCE (fence_arg NULL 2)) (demo_kernel fresh_buf)
          = Ret (- 5, DMABUF_IOCTL_GET_FENCE (fence_arg NULL 2)) k'.
Proof.
  split.
  - destruct (dma_buf_get_fence_uninitialized broken_sync 0 (demo_kernel fresh_buf)
                1 0 fresh_buf (fence_arg NULL 2) (ERR_PTR (- ENOMEM)) tt
                (demo_handle _) eq_refl ltac:(discriminate) eq_refl eq_refl
                eq_refl eq_refl eq_refl) as (_ & H).
    eexists. split; [apply H; lia|reflexivity].
  - destruct (dma_buf_get_fence_uninitialized broken_sync (- 5)
                (demo_kernel fresh_buf)
                1 0 fresh_buf (fence_arg NULL 2) (ERR_PTR (- ENOMEM)) tt
                (demo_handle _) eq_refl ltac:(discriminate) eq_refl eq_refl
                eq_refl eq_refl eq_refl) as (H & _).
    eexists. apply H. lia.
Defined.
